(** * quick_latex: the API server's compilation dispatch, process runner,
      log scraper and quality parser (src/api/server.py)

    The Python module is embedded shallowly.  A Python [str] is a list of
    Unicode code points, a [pathlib.Path] is a record of its parts, the
    dictionaries with fixed keys that the functions return are records, and
    code that talks to the operating system (subprocess.run, Path.exists,
    Path.mkdir, shutil.rmtree, ...) runs in a small state-and-exception
    monad over an abstract world, whose operations are the fields of the
    class [Env].  Every call of subprocess.run is recorded in a trace, so
    that the properties can speak of the passes that were started. *)

From Stdlib Require Import ZArith List Bool String Ascii Lia.
Import ListNotations.
Local Open Scope Z_scope.

(* ===================================================================== *)
(** ** Python strings *)
(* ===================================================================== *)

(** A Python string: the sequence of its code points. *)
Definition str := list Z.

Module Utf8.

(** The bytes of a literal of this file, which is UTF-8 encoded. *)
Fixpoint bytes (s : string) : list Z :=
  match s with
  | EmptyString => []
  | String c s' => Z.of_N (N_of_ascii c) :: bytes s'
  end.

(** Decoding of well-formed UTF-8 (all the literals of server.py are). *)
Fixpoint decode (bs : list Z) : str :=
  match bs with
  | [] => []
  | b :: r =>
      if b <? 128 then b :: decode r
      else if b <? 224 then
        match r with
        | b1 :: r1 => ((b - 192) * 64 + (b1 - 128)) :: decode r1
        | _ => [b]
        end
      else if b <? 240 then
        match r with
        | b1 :: b2 :: r2 =>
            ((b - 224) * 4096 + (b1 - 128) * 64 + (b2 - 128)) :: decode r2
        | _ => [b]
        end
      else
        match r with
        | b1 :: b2 :: b3 :: r3 =>
            ((b - 240) * 262144 + (b1 - 128) * 4096 + (b2 - 128) * 64
             + (b3 - 128)) :: decode r3
        | _ => [b]
        end
  end.

End Utf8.

(** A string literal of the source. *)
Definition lit (s : string) : str := Utf8.decode (Utf8.bytes s).
Arguments lit : simpl never.

Declare Scope pystr_scope.
Delimit Scope pystr_scope with py.
Notation "'u' s" := (lit s%string) (at level 1, s at level 0, format "'u' s") : pystr_scope.
Local Open Scope pystr_scope.

Module PyStr.

Fixpoint eqb (a b : str) : bool :=
  match a, b with
  | [], [] => true
  | x :: a', y :: b' => (x =? y) && eqb a' b'
  | _, _ => false
  end.

(** [bool(s)]: a string is truthy when it is not empty. *)
Definition truthy (s : str) : bool :=
  match s with [] => false | _ => true end.

(** [s.startswith(p)] *)
Fixpoint startswith (p s : str) : bool :=
  match p, s with
  | [], _ => true
  | x :: p', y :: s' => (x =? y) && startswith p' s'
  | _ :: _, [] => false
  end.

(** [sub in s] *)
Fixpoint contains (sub s : str) : bool :=
  startswith sub s ||
  match s with
  | [] => false
  | _ :: s' => contains sub s'
  end.

(** [s.split(sep)] for a non-empty [sep]: the pieces between the successive
    non-overlapping occurrences of [sep], found from the left.  [skip]
    counts the code points of an occurrence still to be passed over, and
    [cur] is the piece being read, last code point first. *)
Fixpoint split_from (sep s : str) (skip : nat) (cur : str) : list str :=
  match s with
  | [] => [rev cur]
  | c :: s' =>
      match skip with
      | S k => split_from sep s' k cur
      | O =>
          if startswith sep s
          then rev cur :: split_from sep s' (Nat.pred (List.length sep)) []
          else split_from sep s' O (c :: cur)
      end
  end.

Definition split (sep s : str) : list str := split_from sep s O [].

(** [sep.join(l)] *)
Fixpoint join (sep : str) (l : list str) : str :=
  match l with
  | [] => []
  | [x] => x
  | x :: l' => x ++ sep ++ join sep l'
  end.

(** [s.replace(old, new)] for a non-empty [old]. *)
Definition replace (old new s : str) : str := join new (split old s).

(** [c.isspace()], the code points that [str.strip()] removes. *)
Definition isspace (c : Z) : bool :=
  ((9 <=? c) && (c <=? 13)) || ((28 <=? c) && (c <=? 32))
  || (c =? 133) || (c =? 160) || (c =? 5760)
  || ((8192 <=? c) && (c <=? 8202))
  || (c =? 8232) || (c =? 8233) || (c =? 8239) || (c =? 8287)
  || (c =? 12288).

Fixpoint lstrip (s : str) : str :=
  match s with
  | c :: s' => if isspace c then lstrip s' else s
  | [] => []
  end.

Definition rstrip (s : str) : str := rev (lstrip (rev s)).

(** [s.strip()] *)
Definition strip (s : str) : str := rstrip (lstrip s).

(** The index of the last [c] in [s], counting from [i]. *)
Fixpoint rfind_from (c : Z) (s : str) (i : nat) : option nat :=
  match s with
  | [] => None
  | x :: s' =>
      match rfind_from c s' (S i) with
      | Some j => Some j
      | None => if x =? c then Some i else None
      end
  end.

(** [s.rfind(c)] for a single code point; [None] is Python's -1. *)
Definition rfind (c : Z) (s : str) : option nat := rfind_from c s O.

(** [str(b)] for a bool, as an f-string prints it. *)
Definition of_bool (b : bool) : str := if b then u"True" else u"False".

End PyStr.

(** ["\n"] *)
Definition nl : str := [10].

(* ===================================================================== *)
(** ** pathlib *)
(* ===================================================================== *)

(** Python's exceptions, as far as the handlers of server.py tell them
    apart: [subprocess.TimeoutExpired] and every other [Exception].  The
    text is [str(e)]. *)
Inductive exn : Type :=
| TimeoutExpired (text : str)
| Exception (text : str).

Definition exn_str (e : exn) : str :=
  match e with TimeoutExpired t => t | Exception t => t end.

(** The outcome of running a piece of Python: a value, or an exception. *)
Inductive Exc (A : Type) : Type :=
| Ret (a : A)
| Raise (e : exn).
Arguments Ret {A} a.
Arguments Raise {A} e.

(** A [pathlib.Path] on POSIX: whether it has the root [/], and its
    components.  (A root of exactly two slashes, which POSIX lets differ,
    is read as [/].) *)
Record Path : Type := mkPath { absolute : bool; parts : list str }.

Module PurePath.

(** [Path(s)]: empty components and [.] are dropped, [..] is kept. *)
Definition parse (s : str) : Path :=
  {| absolute := PyStr.startswith u"/" s;
     parts := filter (fun c => PyStr.truthy c && negb (PyStr.eqb c u"."))
                     (PyStr.split u"/" s) |}.

(** [p / s] *)
Definition joinpath (p : Path) (s : str) : Path :=
  let q := parse s in
  if absolute q then q
  else {| absolute := absolute p; parts := parts p ++ parts q |}.

(** [str(p)] *)
Definition to_str (p : Path) : str :=
  if absolute p then u"/" ++ PyStr.join u"/" (parts p)
  else match parts p with
       | [] => u"."
       | _ => PyStr.join u"/" (parts p)
       end.

(** [p.parent] *)
Definition parent (p : Path) : Path :=
  {| absolute := absolute p; parts := removelast (parts p) |}.

(** [p.name] *)
Definition name (p : Path) : str := last (parts p) [].

(** [p.stem]: the name without its last suffix. *)
Definition stem (p : Path) : str :=
  let n := name p in
  match PyStr.rfind 46 n with
  | Some i =>
      if (0 <? i)%nat && (i <? Nat.pred (List.length n))%nat
      then firstn i n else n
  | None => n
  end.

Fixpoint strip_prefix (pre l : list str) : option (list str) :=
  match pre, l with
  | [], _ => Some l
  | x :: pre', y :: l' => if PyStr.eqb x y then strip_prefix pre' l' else None
  | _ :: _, [] => None
  end.

(** [p.relative_to(other)]: a ValueError when [p] is not under [other]
    (its text is that of Python 3.12, with the paths quoted plainly). *)
Definition relative_to (p other : Path) : Exc Path :=
  match
    (if Bool.eqb (absolute p) (absolute other)
     then strip_prefix (parts other) (parts p) else None)
  with
  | Some rest => Ret {| absolute := false; parts := rest |}
  | None =>
      Raise (Exception (u"'" ++ to_str p ++ u"' is not in the subpath of '"
                        ++ to_str other ++ u"'"))
  end.

Definition eqb (p q : Path) : bool :=
  Bool.eqb (absolute p) (absolute q)
  && (fix go (a b : list str) : bool :=
        match a, b with
        | [], [] => true
        | x :: a', y :: b' => PyStr.eqb x y && go a' b'
        | _, _ => false
        end) (parts p) (parts q).

End PurePath.

Notation "p </> s" := (PurePath.joinpath p s) (at level 40, left associativity).

(* ===================================================================== *)
(** ** The environment of the module *)
(* ===================================================================== *)

Module subprocess.

(** [subprocess.CompletedProcess], with [capture_output=True, text=True]. *)
Record CompletedProcess : Type :=
  { returncode : Z; stdout : str; stderr : str }.

(** One call of [subprocess.run]: the command, [cwd=] and [timeout=]
    ([None] when the keyword is not given). *)
Record call : Type :=
  { args : list str; cwd : option str; timeout : option Z }.

End subprocess.

(** What server.py takes from outside: the file system and the processes it
    starts, the module constant [PROJECT_ROOT] (computed from [__file__]),
    and the two tables of the Unicode database that [int()] and
    [str.lower()] consult beyond ASCII. *)
Class Env : Type :=
  { World : Type;
    (** [Path.exists()], [Path.is_dir()] *)
    path_exists : World -> Path -> bool;
    path_is_dir : World -> Path -> bool;
    (** [Path.mkdir(exist_ok=True)] *)
    path_mkdir : World -> Path -> World * Exc unit;
    (** [Path.read_text(encoding='utf-8', errors='ignore')], [Path.stat().st_size] *)
    path_read_text : World -> Path -> Exc str;
    path_stat_size : World -> Path -> Exc Z;
    (** [shutil.rmtree] *)
    shutil_rmtree : World -> Path -> World * Exc unit;
    (** [subprocess.run]: the world after the call, and what it returned or raised *)
    spawn : World -> subprocess.call -> World * Exc subprocess.CompletedProcess;
    PROJECT_ROOT : Path;
    (** the value of a decimal digit above U+007F, if the code point is one *)
    unicode_decimal : Z -> option Z;
    (** the lower-case mapping of a code point above U+007F *)
    unicode_lower : Z -> list Z;
    (** [sys.get_int_max_str_digits()]: 4300 by default, 0 when there is no limit *)
    int_max_str_digits : nat }.

(** The dictionary that [run_command] and the two compilation functions
    return. *)
Record CommandResult : Type :=
  { success : bool; returncode : Z; stdout : str; stderr : str }.

(** The arguments that [run_docker_compilation] reads off a compile.sh
    command line. *)
Record CompileArgs : Type :=
  { file_path : option str; compiler : str; use_bibtex : bool; quick : bool }.

Module ApiResponse.

(** The dataclass [ApiResponse], with the type of [data] left to the
    handler. *)
Record t (D : Type) : Type :=
  { success : bool; message : str; data : option D; errors : option (list str) }.
Arguments success {D}.
Arguments message {D}.
Arguments data {D}.
Arguments errors {D}.

End ApiResponse.

(** [data] of the quality-check response. *)
Record QualityData : Type :=
  { q_file_path : str;
    quality_score : Z;
    quality_level : str;
    q_errors : Z;
    q_warnings : Z;
    suggestions : list str;
    full_output : str;
    check_successful : bool }.

(** [data] of the deletion response. *)
Record DeletedData : Type :=
  { deleted_path : str; absolute_path : str }.

(** [log_info] of the compile response. *)
Record LogInfo : Type :=
  { log_path_rel : str; log_size : Z; error_lines : list str }.

(* ===================================================================== *)
(** ** Pure parts: argument parsing, integers, the two text parsers *)
(* ===================================================================== *)

(** The [while] loop of [run_docker_compilation] over [original_cmd[1:]].
    A [-c] in last position fails the test [i + 1 < len(original_cmd)],
    matches no other branch and ends the loop. *)
Fixpoint parse_compile_args (l : list str) (a : CompileArgs) : CompileArgs :=
  match l with
  | [] => a
  | arg :: rest =>
      if PyStr.eqb arg u"-c" then
        match rest with
        | c :: rest' =>
            parse_compile_args rest'
              {| file_path := file_path a; compiler := c;
                 use_bibtex := use_bibtex a; quick := quick a |}
        | [] => a
        end
      else if PyStr.eqb arg u"-b" then
        parse_compile_args rest
          {| file_path := file_path a; compiler := compiler a;
             use_bibtex := true; quick := quick a |}
      else if PyStr.eqb arg u"-q" then
        parse_compile_args rest
          {| file_path := file_path a; compiler := compiler a;
             use_bibtex := use_bibtex a; quick := true |}
      else if negb (PyStr.startswith u"-" arg) then
        parse_compile_args rest
          {| file_path := Some arg; compiler := compiler a;
             use_bibtex := use_bibtex a; quick := quick a |}
      else parse_compile_args rest a
  end.

Definition default_compile_args : CompileArgs :=
  {| file_path := None; compiler := u"lualatex"; use_bibtex := false; quick := false |}.

(** [quality_score = max(0, 100 - (errors * 20) - (warnings * 5))] *)
Definition compute_quality_score (errors warnings : Z) : Z :=
  Z.max 0 (100 - errors * 20 - warnings * 5).

(** The conditional expression that maps the score to a level. *)
Definition compute_quality_level (score : Z) : str :=
  if score >=? 90 then u"excellent"
  else if score >=? 70 then u"good"
  else if score >=? 50 then u"needs_improvement"
  else u"poor".

(** The two markers of check-quality.sh's report, and the counter word. *)
Definition error_marker : str := u"❌ エラー:".
Definition warning_marker : str := u"⚠️  警告:".
Definition counter_word : str := u"個".

(** [line.strip().startswith(("1.", "2.", "3.", "4.", "5."))] *)
Definition starts_with_ordinal (s : str) : bool :=
  existsb (fun p => PyStr.startswith p s) [u"1."; u"2."; u"3."; u"4."; u"5."].

(** [l[i]] for [i] within range. *)
Definition item (l : list str) (i : nat) : str := nth i l [].

Section Text.
Context {E : Env}.

(** The value of a code point as a decimal digit. *)
Definition decimal_digit (c : Z) : option Z :=
  if (48 <=? c) && (c <=? 57) then Some (c - 48)
  else if c <? 128 then None
  else unicode_decimal c.

(** The digits of a base-10 literal, single underscores allowed between
    digits.  [acc] is the value read so far and [prev] tells whether the
    previous code point was a digit. *)
Fixpoint int_digits (s : str) (acc : Z) (prev : bool) : option Z :=
  match s with
  | [] => if prev then Some acc else None
  | c :: s' =>
      match decimal_digit c with
      | Some d => int_digits s' (acc * 10 + d) true
      | None =>
          if (c =? 95) && prev then int_digits s' acc false else None
      end
  end.

(** [int(s)] on a string with no white space at either end (its argument
    below is always the result of [strip()]); [None] stands for the
    ValueError.  An optional sign, then the digits; a literal of more than
    640 digits that exceeds the interpreter's limit is refused. *)
Definition py_int (s : str) : option Z :=
  let n_digits :=
    List.length (filter (fun c => match decimal_digit c with
                                  | Some _ => true | None => false end) s) in
  if negb (int_max_str_digits =? 0)%nat && (int_max_str_digits <? n_digits)%nat
     && (640 <? n_digits)%nat
  then None
  else
    match s with
    | 43 :: d => int_digits d 0 false
    | 45 :: d => option_map Z.opp (int_digits d 0 false)
    | d => int_digits d 0 false
    end.

(** Lower-casing of one code point, and [s.lower()].  (For a capital sigma
    Python chooses between the two small sigmas by the context; both lie
    above U+007F, where the table decides.) *)
Definition lower_char (c : Z) : list Z :=
  if (65 <=? c) && (c <=? 90) then [c + 32]
  else if c <? 128 then [c]
  else unicode_lower c.

Definition lower (s : str) : str := flat_map lower_char s.

(** [int(line.split(marker)[1].split("個")[0].strip())] under its
    [try ... except: pass]: [None] when the conversion raises. *)
Definition count_after (marker line : str) : option Z :=
  py_int (PyStr.strip (item (PyStr.split counter_word
                                (item (PyStr.split marker line) 1)) 0)).

(** The state of the parsing loop of [quality_check]: the three local
    variables [errors], [warnings] and [suggestions]. *)
Record Tally : Type :=
  { errors : Z; warnings : Z; found : list str }.

(** The body of [for line in output_lines]. *)
Definition tally_line (t : Tally) (line : str) : Tally :=
  if PyStr.contains error_marker line then
    match count_after error_marker line with
    | Some n => {| errors := n; warnings := warnings t; found := found t |}
    | None => t
    end
  else if PyStr.contains warning_marker line then
    match count_after warning_marker line with
    | Some n => {| errors := errors t; warnings := n; found := found t |}
    | None => t
    end
  else if starts_with_ordinal (PyStr.strip line) then
    {| errors := errors t; warnings := warnings t;
       found := found t ++ [PyStr.strip line] |}
  else t.

(** Lines 794-811 of [quality_check]: the parse of the script's output. *)
Definition parse_quality_output (output : str) : Tally :=
  fold_left tally_line (PyStr.split nl output)
            {| errors := 0; warnings := 0; found := [] |}.

(** The test of the log loop of [compile_document]:
    [line.startswith('!') or 'Error' in line or 'error' in line.lower()] *)
Definition is_error_line (line : str) : bool :=
  PyStr.startswith u"!" line
  || PyStr.contains u"Error" line
  || PyStr.contains u"error" (lower line).

(** Lines 719-722 of [compile_document]: the loop that fills [error_lines]. *)
Definition collect_error_lines (log_content : str) : list str :=
  fold_left (fun acc line =>
               if is_error_line line then acc ++ [PyStr.strip line] else acc)
            (PyStr.split nl log_content) [].

(** Following the spec's words for the log scraper: the lines that match,
    in order, capped at the first 10. *)
Definition matching_lines (log_content : str) : list str :=
  firstn 10 (filter is_error_line (PyStr.split nl log_content)).

(** Following the spec's words for the quality parser: the digits that
    follow the first occurrence of the marker in the tool output. *)
Fixpoint leading_digits (s : str) : str :=
  match s with
  | c :: s' => if (48 <=? c) && (c <=? 57) then c :: leading_digits s' else []
  | [] => []
  end.

Definition first_occurrence_count (marker output : str) : option Z :=
  match PyStr.split marker output with
  | _ :: after :: _ => int_digits (leading_digits (PyStr.lstrip after)) 0 false
  | _ => None
  end.

(** What the parsing loop reads, by kind of line: a line with the error
    marker is an error report; without it but with the warning marker, a
    warning report; with neither and a leading ordinal, a suggestion. *)
Definition error_report_lines (lines : list str) : list str :=
  filter (PyStr.contains error_marker) lines.

Definition warning_report_lines (lines : list str) : list str :=
  filter (fun l => negb (PyStr.contains error_marker l)
                   && PyStr.contains warning_marker l) lines.

Definition suggestion_lines (lines : list str) : list str :=
  filter (fun l => negb (PyStr.contains error_marker l)
                   && negb (PyStr.contains warning_marker l)
                   && starts_with_ordinal (PyStr.strip l)) lines.

(** The counts of the report lines whose count converts, in order. *)
Definition parsed_counts (marker : str) (lines : list str) : list Z :=
  flat_map (fun l => match count_after marker l with
                     | Some n => [n]
                     | None => []
                     end) lines.

End Text.

(* ===================================================================== *)
(** ** Effects: a state-and-exception monad over the world *)
(* ===================================================================== *)

Section Effects.
Context {E : Env}.

(** A call of [subprocess.run] as it happened: what was asked, and what
    came back. *)
Record event : Type :=
  { ev_call : subprocess.call; ev_outcome : Exc subprocess.CompletedProcess }.

(** The world, and the calls of [subprocess.run] made so far, oldest
    first.  The list is a ghost variable: the program never reads it. *)
Record state : Type := { world : World; trace : list event }.

Definition M (A : Type) : Type := state -> state * Exc A.

Definition ret {A} (a : A) : M A := fun st => (st, Ret a).

Definition raise {A} (e : exn) : M A := fun st => (st, Raise e).

Definition bind {A B} (m : M A) (k : A -> M B) : M B :=
  fun st =>
    match m st with
    | (st', Ret a) => k a st'
    | (st', Raise e) => (st', Raise e)
    end.

(** [try: m  except Exception as e: h e] *)
Definition try_except {A} (m : M A) (h : exn -> M A) : M A :=
  fun st =>
    match m st with
    | (st', Ret a) => (st', Ret a)
    | (st', Raise e) => h e st'
    end.

(** A pure expression that may raise. *)
Definition lift {A} (x : Exc A) : M A := fun st => (st, x).

Definition exists_ (p : Path) : M bool :=
  fun st => (st, Ret (path_exists (world st) p)).

Definition is_dir (p : Path) : M bool :=
  fun st => (st, Ret (path_is_dir (world st) p)).

Definition mkdir (p : Path) : M unit :=
  fun st =>
    let (w, r) := path_mkdir (world st) p in
    ({| world := w; trace := trace st |}, r).

Definition rmtree (p : Path) : M unit :=
  fun st =>
    let (w, r) := shutil_rmtree (world st) p in
    ({| world := w; trace := trace st |}, r).

Definition read_text (p : Path) : M str :=
  fun st => (st, path_read_text (world st) p).

Definition stat_size (p : Path) : M Z :=
  fun st => (st, path_stat_size (world st) p).

(** The state before the first call of [subprocess.run]. *)
Definition start (w : World) : state := {| world := w; trace := [] |}.

(** [subprocess.run(args, cwd=cwd, capture_output=True, text=True, timeout=timeout)] *)
Definition subprocess_run (args : list str) (cwd : option str)
    (timeout : option Z) : M subprocess.CompletedProcess :=
  fun st =>
    let c := {| subprocess.args := args; subprocess.cwd := cwd;
                subprocess.timeout := timeout |} in
    let (w, r) := spawn (world st) c in
    ({| world := w; trace := trace st ++ [{| ev_call := c; ev_outcome := r |}] |}, r).

End Effects.

Notation "x <- m ;; k" := (bind m (fun x => k))
  (at level 61, m at next level, right associativity).
Notation "' pat <- m ;; k" := (bind m (fun x => match x with pat => k end))
  (at level 61, pat pattern, m at next level, right associativity).
Notation "m ;; k" := (bind m (fun _ => k))
  (at level 61, right associativity).

(* ===================================================================== *)
(** ** The compilation dispatcher and the process runner *)
(* ===================================================================== *)

Section Dispatch.
Context {E : Env}.

(** [SCRIPTS_DIR = PROJECT_ROOT / "scripts"] *)
Definition SCRIPTS_DIR : Path := PROJECT_ROOT </> u"scripts".

(** [lines.append(s)], and [if s: lines.append(s)] *)
Definition append (lines : list str) (s : str) : list str := lines ++ [s].

Definition append_if_any (lines : list str) (s : str) : list str :=
  if PyStr.truthy s then lines ++ [s] else lines.

(** [run_direct_latex_compilation(tex_file, compiler, use_bibtex, quick)] *)
Definition run_direct_latex_compilation (tex_file : Path) (compiler : str)
    (use_bibtex quick : bool) : M CommandResult :=
  try_except
    (let work_dir := PurePath.parent tex_file in
     let output_dir := work_dir </> u"output" in
     mkdir output_dir ;;
     let base_name := PurePath.stem tex_file in
     out_rel <- lift (PurePath.relative_to output_dir (PurePath.parse u"/app")) ;;
     tex_rel <- lift (PurePath.relative_to tex_file (PurePath.parse u"/app")) ;;
     let compile_cmd :=
       [u"docker"; u"exec"; u"api-latex-engine-1";
        compiler;
        u"-interaction=nonstopmode";
        u"-halt-on-error";
        u"-output-directory=/workspace/" ++ PurePath.to_str out_rel;
        u"/workspace/" ++ PurePath.to_str tex_rel] in
     let stdout_lines := [u"🔄 Compilation via latex-engine container"] in
     let stderr_lines := [] in
     result1 <- subprocess_run compile_cmd None (Some 180) ;;
     let stdout_lines := append stdout_lines (subprocess.stdout result1) in
     let stderr_lines := append_if_any stderr_lines (subprocess.stderr result1) in
     if negb (subprocess.returncode result1 =? 0) then
       ret {| success := false;
              returncode := subprocess.returncode result1;
              stdout := PyStr.join nl stdout_lines;
              stderr := PyStr.join nl stderr_lines |}
     else
       ' (stdout_lines, stderr_lines) <-
         (if use_bibtex then
            let aux_file := output_dir </> (base_name ++ u".aux") in
            aux_exists <- exists_ aux_file ;;
            if aux_exists then
              bib_rel <- lift (PurePath.relative_to output_dir (PurePath.parse u"/app")) ;;
              let bibtex_cmd :=
                [u"docker"; u"exec"; u"api-latex-engine-1";
                 u"bibtex";
                 u"/workspace/" ++ PurePath.to_str bib_rel ++ u"/" ++ base_name] in
              result_bib <- subprocess_run bibtex_cmd None None ;;
              let stdout_lines :=
                append stdout_lines (u"BibTeX: " ++ subprocess.stdout result_bib) in
              let stderr_lines :=
                append_if_any stderr_lines (subprocess.stderr result_bib) in
              result2 <- subprocess_run compile_cmd None None ;;
              ret (append stdout_lines (subprocess.stdout result2),
                   append_if_any stderr_lines (subprocess.stderr result2))
            else ret (stdout_lines, stderr_lines)
          else ret (stdout_lines, stderr_lines)) ;;
       ' (stdout_lines, stderr_lines) <-
         (if negb quick then
            result3 <- subprocess_run compile_cmd None None ;;
            ret (append stdout_lines (subprocess.stdout result3),
                 append_if_any stderr_lines (subprocess.stderr result3))
          else ret (stdout_lines, stderr_lines)) ;;
       let pdf_file := output_dir </> (base_name ++ u".pdf") in
       pdf_exists <- exists_ pdf_file ;;
       let stdout_lines :=
         append stdout_lines
           (u"✅ Compilation completed, PDF exists: " ++ PyStr.of_bool pdf_exists) in
       ret {| success := pdf_exists;
              returncode := if pdf_exists then 0 else 1;
              stdout := PyStr.join nl stdout_lines;
              stderr := PyStr.join nl stderr_lines |})
    (fun e =>
       ret {| success := false; returncode := 1; stdout := [];
              stderr := u"Direct compilation error: " ++ exn_str e |}).

(** The two early results of [run_docker_compilation]. *)
Definition no_file_path : CommandResult :=
  {| success := false; returncode := 1; stdout := [];
     stderr := u"No file path specified" |}.

Definition file_not_found (file_path : str) : CommandResult :=
  {| success := false; returncode := 1; stdout := [];
     stderr := u"File not found: " ++ file_path |}.

(** [run_docker_compilation(original_cmd, cwd)] *)
Definition run_docker_compilation (original_cmd : list str) (cwd : option str)
    : M CommandResult :=
  try_except
    (let a := parse_compile_args (tl original_cmd) default_compile_args in
     match file_path a with
     | None => ret no_file_path
     | Some file_path =>
     if negb (PyStr.truthy file_path) then ret no_file_path else
     let compiler := compiler a in
     let use_bibtex := use_bibtex a in
     let quick := quick a in
     app_exists <- exists_ (PurePath.parse u"/app") ;;
     let is_in_docker :=
       app_exists && PyStr.startswith u"/app" (PurePath.to_str PROJECT_ROOT) in
     if is_in_docker then
       let tex_file := PROJECT_ROOT </> file_path in
       tex_exists <- exists_ tex_file ;;
       if negb tex_exists then
         let workspace_path :=
           PurePath.parse
             (PyStr.replace u"/app" u"/workspace" (PurePath.to_str tex_file)) in
         workspace_exists <- exists_ workspace_path ;;
         if workspace_exists
         then run_direct_latex_compilation workspace_path compiler use_bibtex quick
         else ret (file_not_found file_path)
       else run_direct_latex_compilation tex_file compiler use_bibtex quick
     else
       let tex_file := PROJECT_ROOT </> file_path in
       tex_exists <- exists_ tex_file ;;
       if negb tex_exists then ret (file_not_found file_path) else
       let work_dir := PurePath.parent tex_file in
       let output_dir := work_dir </> u"output" in
       mkdir output_dir ;;
       let base_name := PurePath.stem tex_file in
       work_rel <- lift (PurePath.relative_to work_dir PROJECT_ROOT) ;;
       let docker_cmd :=
         [u"docker"; u"compose"; u"run"; u"--rm";
          u"-w"; u"/workspace/" ++ PurePath.to_str work_rel;
          u"latex";
          compiler;
          u"-interaction=nonstopmode";
          u"-halt-on-error";
          u"-output-directory=output";
          PurePath.name tex_file] in
       let root := Some (PurePath.to_str PROJECT_ROOT) in
       let stdout_lines := [u"🔄 Compilation via Docker"] in
       let stderr_lines := [] in
       result1 <- subprocess_run docker_cmd root (Some 180) ;;
       let stdout_lines := append stdout_lines (subprocess.stdout result1) in
       let stderr_lines := append_if_any stderr_lines (subprocess.stderr result1) in
       if negb (subprocess.returncode result1 =? 0) then
         ret {| success := false;
                returncode := subprocess.returncode result1;
                stdout := PyStr.join nl stdout_lines;
                stderr := PyStr.join nl stderr_lines |}
       else
         ' (stdout_lines, stderr_lines) <-
           (if use_bibtex then
              let aux_file := output_dir </> (base_name ++ u".aux") in
              aux_exists <- exists_ aux_file ;;
              if aux_exists then
                out_rel <- lift (PurePath.relative_to output_dir PROJECT_ROOT) ;;
                let bibtex_docker_cmd :=
                  [u"docker"; u"compose"; u"run"; u"--rm";
                   u"-w"; u"/workspace/" ++ PurePath.to_str out_rel;
                   u"latex";
                   u"bibtex"; base_name] in
                result_bib <- subprocess_run bibtex_docker_cmd root None ;;
                let stdout_lines :=
                  append stdout_lines (u"BibTeX: " ++ subprocess.stdout result_bib) in
                let stderr_lines :=
                  append_if_any stderr_lines (subprocess.stderr result_bib) in
                result2 <- subprocess_run docker_cmd root None ;;
                ret (append stdout_lines (subprocess.stdout result2),
                     append_if_any stderr_lines (subprocess.stderr result2))
              else ret (stdout_lines, stderr_lines)
            else ret (stdout_lines, stderr_lines)) ;;
         ' (stdout_lines, stderr_lines) <-
           (if negb quick then
              result3 <- subprocess_run docker_cmd root None ;;
              ret (append stdout_lines (subprocess.stdout result3),
                   append_if_any stderr_lines (subprocess.stderr result3))
            else ret (stdout_lines, stderr_lines)) ;;
         let pdf_file := output_dir </> (base_name ++ u".pdf") in
         pdf_exists <- exists_ pdf_file ;;
         let stdout_lines :=
           append stdout_lines
             (u"✅ Compilation completed, PDF exists: " ++ PyStr.of_bool pdf_exists) in
         ret {| success := pdf_exists;
                returncode := if pdf_exists then 0 else 1;
                stdout := PyStr.join nl stdout_lines;
                stderr := PyStr.join nl stderr_lines |}
     end)
    (fun e =>
       ret {| success := false; returncode := 1; stdout := [];
              stderr := u"Docker compilation error: " ++ exn_str e |}).

(** [len(cmd) > 0 and "compile.sh" in cmd[0]] *)
Definition is_compile_script (cmd : list str) : bool :=
  match cmd with
  | [] => false
  | c0 :: _ => PyStr.contains u"compile.sh" c0
  end.

(** [cwd or PROJECT_ROOT] *)
Definition cwd_or_root (cwd : option str) : str :=
  match cwd with
  | Some d => if PyStr.truthy d then d else PurePath.to_str PROJECT_ROOT
  | None => PurePath.to_str PROJECT_ROOT
  end.

(** [run_command(cmd, cwd)] *)
Definition run_command (cmd : list str) (cwd : option str) : M CommandResult :=
  try_except
    (if is_compile_script cmd then run_docker_compilation cmd cwd
     else
       result <- subprocess_run cmd (Some (cwd_or_root cwd)) (Some 300) ;;
       ret {| success := subprocess.returncode result =? 0;
              returncode := subprocess.returncode result;
              stdout := subprocess.stdout result;
              stderr := subprocess.stderr result |})
    (fun e =>
       match e with
       | TimeoutExpired _ =>
           ret {| success := false; returncode := -1; stdout := [];
                  stderr := u"Command timed out after 5 minutes" |}
       | Exception text =>
           ret {| success := false; returncode := -1; stdout := [];
                  stderr := text |}
       end).

End Dispatch.

(* ===================================================================== *)
(** ** Request handlers *)
(* ===================================================================== *)

(** The dataclass [CompilationRequest]. *)
Record CompilationRequest : Type :=
  { req_file_path : str;
    req_compiler : str;
    req_use_bibtex : bool;
    req_quick : bool;
    req_open_pdf : bool;
    req_watch : bool }.

Section Handlers.
Context {E : Env}.

(** A response and its HTTP status. *)
Definition reply {D : Type} (ok : bool) (message : str) (data : option D)
    (errors : option (list str)) (status : Z) : M (ApiResponse.t D * Z) :=
  ret ({| ApiResponse.success := ok; ApiResponse.message := message;
          ApiResponse.data := data; ApiResponse.errors := errors |}, status).

(** Lines 677-687 of [compile_document]: the command line for compile.sh. *)
Definition compile_command (req : CompilationRequest) : list str :=
  [PurePath.to_str (SCRIPTS_DIR </> u"compile.sh"); req_file_path req]
  ++ (if negb (PyStr.eqb (req_compiler req) u"lualatex")
      then [u"-c"; req_compiler req] else [])
  ++ (if req_use_bibtex req then [u"-b"] else [])
  ++ (if req_quick req then [u"-q"] else [])
  ++ (if req_open_pdf req && negb (req_watch req) then [u"-o"] else []).

(** Lines 712-730 of [compile_document]: the error lines of the log, read
    only after a failed compilation, with every exception swallowed. *)
Definition compile_document_log_info (file_path : Path) (result : CommandResult)
    : M (option LogInfo) :=
  let log_path :=
    PurePath.parent file_path </> u"output" </> (PurePath.stem file_path ++ u".log") in
  log_exists <- exists_ log_path ;;
  if log_exists && negb (success result) then
    try_except
      (log_content <- read_text log_path ;;
       let error_lines := collect_error_lines log_content in
       rel <- lift (PurePath.relative_to log_path PROJECT_ROOT) ;;
       size <- stat_size log_path ;;
       ret (Some {| log_path_rel := PurePath.to_str rel;
                    log_size := size;
                    error_lines := firstn 10 error_lines |}))
      (fun _ => ret None)
  else ret None.

(** [quality_check()].  [field] is [data.get('file_path')] of the JSON
    body when that is a string, and [None] when the body or the key is
    missing. *)
Definition quality_check (field : option str) : M (ApiResponse.t QualityData * Z) :=
  try_except
    (match field with
     | None =>
         reply false u"file_path is required" None
               (Some [u"No file_path provided in request"]) 400
     | Some file_path =>
     if negb (PyStr.truthy file_path) then
       reply false u"file_path is required" None
             (Some [u"No file_path provided in request"]) 400
     else
     let full_path := PROJECT_ROOT </> file_path in
     full_exists <- exists_ full_path ;;
     if negb full_exists then
       reply false u"File not found" None
             (Some [u"File does not exist: " ++ file_path]) 404
     else
     let cmd := [PurePath.to_str (SCRIPTS_DIR </> u"check-quality.sh"); file_path] in
     result <- run_command cmd None ;;
     let t := parse_quality_output (stdout result) in
     let score := compute_quality_score (errors t) (warnings t) in
     reply true u"Quality check completed"
           (Some {| q_file_path := file_path;
                    quality_score := score;
                    quality_level := compute_quality_level score;
                    q_errors := errors t;
                    q_warnings := warnings t;
                    suggestions := found t;
                    full_output := stdout result;
                    check_successful := success result |})
           None 200
     end)
    (fun e => reply false u"Quality check failed" None (Some [exn_str e]) 500).

(** [delete_project(project_path)] *)
Definition delete_project (project_path : str) : M (ApiResponse.t DeletedData * Z) :=
  try_except
    (let full_path := PROJECT_ROOT </> project_path in
     full_exists <- exists_ full_path ;;
     if negb full_exists then
       reply false u"Project not found" None
             (Some [u"Project does not exist: " ++ project_path]) 404
     else
     full_is_dir <- is_dir full_path ;;
     if negb full_is_dir then
       reply false u"Path is not a directory" None
             (Some [u"Path is not a project directory: " ++ project_path]) 400
     else
     let main_tex := full_path </> u"main.tex" in
     main_exists <- exists_ main_tex ;;
     if negb main_exists then
       reply false u"Invalid project directory" None
             (Some [u"Directory does not contain main.tex: " ++ project_path]) 400
     else
     rmtree full_path ;;
     reply true u"Project deleted successfully"
           (Some {| deleted_path := project_path;
                    absolute_path := PurePath.to_str full_path |})
           None 200)
    (fun e => reply false u"Failed to delete project" None (Some [exn_str e]) 500).

End Handlers.

(* ===================================================================== *)
(** ** An executable environment *)
(* ===================================================================== *)

(** A small file system and a scripted process table, on which the
    functions above can be run. *)
Module Sim.

Inductive node : Type := Dir | File (content : str).

(** [script]: what the successive calls of [subprocess.run] return or
    raise, each with the files the process leaves behind. *)
Record machine : Type :=
  { nodes : list (Path * node);
    script : list (Exc subprocess.CompletedProcess * list Path) }.

Definition lookup (w : machine) (p : Path) : option node :=
  option_map snd (find (fun e => PurePath.eqb p (fst e)) (nodes w)).

Definition exists_ (w : machine) (p : Path) : bool :=
  match lookup w p with Some _ => true | None => false end.

Definition is_dir (w : machine) (p : Path) : bool :=
  match lookup w p with Some Dir => true | _ => false end.

Definition mkdir (w : machine) (p : Path) : machine * Exc unit :=
  match lookup w p with
  | Some Dir => (w, Ret tt)
  | Some (File _) => (w, Raise (Exception (u"[Errno 17] File exists: " ++ PurePath.to_str p)))
  | None => ({| nodes := nodes w ++ [(p, Dir)]; script := script w |}, Ret tt)
  end.

Definition read_text (w : machine) (p : Path) : Exc str :=
  match lookup w p with
  | Some (File c) => Ret c
  | Some Dir => Raise (Exception (u"[Errno 21] Is a directory: " ++ PurePath.to_str p))
  | None => Raise (Exception (u"[Errno 2] No such file or directory: " ++ PurePath.to_str p))
  end.

Definition stat_size (w : machine) (p : Path) : Exc Z :=
  match lookup w p with
  | Some (File c) => Ret (Z.of_nat (List.length c))
  | Some Dir => Ret 4096
  | None => Raise (Exception (u"[Errno 2] No such file or directory: " ++ PurePath.to_str p))
  end.

Definition under (p q : Path) : bool :=
  Bool.eqb (absolute p) (absolute q)
  && match PurePath.strip_prefix (parts p) (parts q) with
     | Some _ => true
     | None => false
     end.

Definition rmtree (w : machine) (p : Path) : machine * Exc unit :=
  if is_dir w p then
    ({| nodes := filter (fun e => negb (under p (fst e))) (nodes w);
        script := script w |}, Ret tt)
  else (w, Raise (Exception (u"[Errno 20] Not a directory: " ++ PurePath.to_str p))).

Definition spawn (w : machine) (c : subprocess.call)
    : machine * Exc subprocess.CompletedProcess :=
  match script w with
  | [] => (w, Raise (Exception u"[Errno 2] No such file or directory: 'docker'"))
  | (r, made) :: rest =>
      ({| nodes := nodes w ++ map (fun p => (p, File [])) made; script := rest |}, r)
  end.

(** The fullwidth digits, as a sample of the decimal digits above ASCII. *)
Definition decimal (c : Z) : option Z :=
  if (65296 <=? c) && (c <=? 65305) then Some (c - 65296) else None.

#[export] Instance env (root : Path) : Env :=
  Build_Env machine exists_ is_dir mkdir read_text stat_size rmtree spawn
            root decimal (fun c => [c]) 4300%nat.

(** A process that exits with [code], printing [out] and [err]. *)
Definition exits (code : Z) (out err : str) : Exc subprocess.CompletedProcess :=
  Ret {| subprocess.returncode := code; subprocess.stdout := out;
         subprocess.stderr := err |}.

(** The server installed on the host, and in the API container. *)
Definition host : Env := env (PurePath.parse u"/srv/latex").
Definition container : Env := env (PurePath.parse u"/app").

End Sim.

(* ===================================================================== *)
(** ** Observations on a run *)
(* ===================================================================== *)

Section Observations.
Context {E : Env}.

(** The call came back with a [CompletedProcess]. *)
Definition returned (e : event) : bool :=
  match ev_outcome e with Ret _ => true | Raise _ => false end.

(** No call of [subprocess.run] raised. *)
Definition all_returned (tr : list event) : bool := forallb returned tr.

(** The first call came back with exit code 0. *)
Definition first_pass_ok (tr : list event) : bool :=
  match tr with
  | e :: _ =>
      match ev_outcome e with
      | Ret c => subprocess.returncode c =? 0
      | Raise _ => false
      end
  | [] => false
  end.

(** [output/{basename}.pdf] beside the source file. *)
Definition expected_pdf (tex_file : Path) : Path :=
  PurePath.parent tex_file </> u"output" </> (PurePath.stem tex_file ++ u".pdf").

(** The path tried in the container when the file is not under [/app]. *)
Definition workspace_variant (tex_file : Path) : Path :=
  PurePath.parse (PyStr.replace u"/app" u"/workspace" (PurePath.to_str tex_file)).

Fixpoint args_eqb (a b : list str) : bool :=
  match a, b with
  | [], [] => true
  | x :: a', y :: b' => PyStr.eqb x y && args_eqb a' b'
  | _, _ => false
  end.

(** The compiler passes of a run: the calls with the command line of the
    first call, which is the compile command. *)
Definition passes (tr : list event) : list event :=
  match tr with
  | [] => []
  | e :: _ =>
      filter (fun e' => args_eqb (subprocess.args (ev_call e))
                                 (subprocess.args (ev_call e'))) tr
  end.

(** The [timeout=] of each call, in order. *)
Definition timeouts (tr : list event) : list (option Z) :=
  map (fun e => subprocess.timeout (ev_call e)) tr.

(** The command line of each call, in order. *)
Definition commands (tr : list event) : list (list str) :=
  map (fun e => subprocess.args (ev_call e)) tr.

(** The call that [run_command] makes for a command other than compile.sh. *)
Definition generic_call (cmd : list str) (cwd : option str) : subprocess.call :=
  {| subprocess.args := cmd; subprocess.cwd := Some (cwd_or_root cwd);
     subprocess.timeout := Some 300 |}.

(** [log_path] of [compile_document]. *)
Definition log_path_of (file_path : Path) : Path :=
  PurePath.parent file_path </> u"output" </> (PurePath.stem file_path ++ u".log").

(** The value of a computation that returned, [d] if it raised. *)
Definition value_or {A : Type} (d : A) (x : Exc A) : A :=
  match x with Ret a => a | Raise _ => d end.

(** The call is a [docker exec] into the container [api-latex-engine-1]
    that runs [compiler] or bibtex there, made without [cwd=]. *)
Definition bridged (compiler : str) (c : subprocess.call) : Prop :=
  exists tool rest,
    subprocess.args c = [u"docker"; u"exec"; u"api-latex-engine-1"; tool] ++ rest
    /\ (tool = compiler \/ tool = u"bibtex")
    /\ subprocess.cwd c = None.

End Observations.

(** The scenarios used as witnesses and counterexamples. *)
Module Scenario.

Definition main_tex : Path := PurePath.parse u"/srv/latex/courses/r1/main.tex".
Definition report_dir : Path := PurePath.parse u"/srv/latex/courses/r1".
Definition main_pdf : Path := PurePath.parse u"/srv/latex/courses/r1/output/main.pdf".
Definition main_aux : Path := PurePath.parse u"/srv/latex/courses/r1/output/main.aux".

Definition compile_sh : str := u"/srv/latex/scripts/compile.sh".

(** A project on the host whose processes behave as [script] says. *)
Definition host_files (script : list (Exc subprocess.CompletedProcess * list Path))
    : Sim.machine :=
  {| Sim.nodes := [(report_dir, Sim.Dir); (main_tex, Sim.File u"x")];
     Sim.script := script |}.

Definition project (script : list (Exc subprocess.CompletedProcess * list Path))
    : @state Sim.host :=
  @start Sim.host (host_files script).

(** The same project seen from the API container, mounted under [/app]. *)
Definition container_files (script : list (Exc subprocess.CompletedProcess * list Path))
    : Sim.machine :=
  {| Sim.nodes := [(PurePath.parse u"/app", Sim.Dir);
                   (PurePath.parse u"/app/courses/r1", Sim.Dir);
                   (PurePath.parse u"/app/courses/r1/main.tex", Sim.File u"x")];
     Sim.script := script |}.

Definition in_container (script : list (Exc subprocess.CompletedProcess * list Path))
    : @state Sim.container :=
  @start Sim.container (container_files script).

(** The file as the request names it, and the command lines built for it. *)
Definition tex_arg : str := u"courses/r1/main.tex".
Definition compile_full : list str := [compile_sh; tex_arg].
Definition compile_bib : list str := [compile_sh; tex_arg; u"-b"].
Definition check_quality : list str :=
  [u"/srv/latex/scripts/check-quality.sh"; tex_arg].

(** Pass 1 succeeds; the second pass exits with 1 and still leaves a PDF. *)
Definition late_failure : list (Exc subprocess.CompletedProcess * list Path) :=
  [(Sim.exits 0 u"pass 1" [], []);
   (Sim.exits 1 u"pass 2" u"LaTeX Warning: Reference undefined", [main_pdf])].

(** Pass 1 stops on an error. *)
Definition first_fails : list (Exc subprocess.CompletedProcess * list Path) :=
  [(Sim.exits 1 u"pass 1" u"! LaTeX Error: File not found.", [])].

(** Pass 1 writes the auxiliary file; bibtex and two more passes follow. *)
Definition with_bibliography : list (Exc subprocess.CompletedProcess * list Path) :=
  [(Sim.exits 0 u"pass 1" [], [main_aux]);
   (Sim.exits 0 u"bibtex" [], []);
   (Sim.exits 0 u"pass 2" [], []);
   (Sim.exits 0 u"pass 3" [], [main_pdf])].

(** The process does not finish within its time limit. *)
Definition hangs : list (Exc subprocess.CompletedProcess * list Path) :=
  [(Raise (TimeoutExpired u"Command 'check-quality.sh' timed out after 300 seconds"), [])].

(** Two passes in the container, the second leaves the PDF. *)
Definition two_good_passes : list (Exc subprocess.CompletedProcess * list Path) :=
  [(Sim.exits 0 u"pass 1" [], []);
   (Sim.exits 0 u"pass 2" [], [PurePath.parse u"/app/courses/r1/output/main.pdf"])].

(** The report of the spec's example: two errors and three warnings. *)
Definition spec_report : str :=
  u"❌ エラー: 2個" ++ nl ++ u"⚠️  警告: 3個" ++ nl ++ u"  1. Add a caption to every figure".

(** A report with two error lines. *)
Definition two_reports : str := u"❌ エラー: 2個" ++ nl ++ u"❌ エラー: 5個".

(** check-quality.sh prints the spec's report and exits with 1. *)
Definition failing_check : list (Exc subprocess.CompletedProcess * list Path) :=
  [(Sim.exits 1 spec_report [], [])].

(** A log with an indented error line, and one with twelve error lines. *)
Definition indented_log : str := u"  LaTeX Error: Missing document body." ++ nl ++ u"ok".

Definition twelve_errors : str :=
  PyStr.join nl (map (fun n => u"! Undefined control sequence " ++ [97 + Z.of_nat n])
                     (seq 0 12)).

Definition main_log : Path := PurePath.parse u"/srv/latex/courses/r1/output/main.log".

Definition failed_compile : @state Sim.host :=
  @start Sim.host
    {| Sim.nodes := [(report_dir, Sim.Dir); (main_tex, Sim.File u"x");
                     (main_log, Sim.File twelve_errors)];
       Sim.script := [] |}.

(** The runs that the witnesses and counterexamples look at. *)
Definition late_failure_run : @state Sim.host * Exc CommandResult :=
  @run_docker_compilation Sim.host compile_full None (project late_failure).

Definition first_fails_run : @state Sim.host * Exc CommandResult :=
  @run_docker_compilation Sim.host compile_full None (project first_fails).

Definition bibliography_run : @state Sim.host * Exc CommandResult :=
  @run_command Sim.host compile_bib None (project with_bibliography).

Definition container_run : @state Sim.container * Exc CommandResult :=
  @run_docker_compilation Sim.container [u"/app/scripts/compile.sh"; tex_arg] None
    (in_container two_good_passes).

Definition hanging_check_run : @state Sim.host * Exc CommandResult :=
  @run_command Sim.host check_quality None (project hangs).

Definition hanging_compile_run : @state Sim.host * Exc CommandResult :=
  @run_command Sim.host compile_full None
    (project [(Raise (TimeoutExpired u"Command 'docker' timed out after 180 seconds"), [])]).

Definition failure : CommandResult :=
  {| success := false; returncode := 1; stdout := []; stderr := [] |}.

(** A directory under the project root without a main document. *)
Definition stray_dir : @state Sim.host :=
  @start Sim.host
    {| Sim.nodes := [(PurePath.parse u"/srv/latex/courses/notes", Sim.Dir);
                     (PurePath.parse u"/srv/latex/courses/notes/todo.txt", Sim.File u"x")];
       Sim.script := [] |}.

End Scenario.

(* ===================================================================== *)
(** ** The reading of a report line, in the spec's words *)
(* ===================================================================== *)

(** [seg] is the count text of [line] for [marker]: the text that follows
    the first occurrence of [marker] and ends before the next occurrence of
    [marker] or of the counter word, whichever comes first, or at the end
    of the line.  (An occurrence that starts inside [pre] would lie in
    [pre] followed by all but the last code point of [marker], and one that
    starts inside [seg] in [seg] followed by as many code points of
    [rest].) *)
Definition count_text (marker line seg : str) : Prop :=
  exists pre rest,
    line = pre ++ marker ++ seg ++ rest
    /\ PyStr.contains marker (pre ++ removelast marker) = false
    /\ PyStr.contains marker (seg ++ firstn (Nat.pred (List.length marker)) rest) = false
    /\ PyStr.contains counter_word seg = false
    /\ (rest = []
        \/ PyStr.startswith marker rest = true
        \/ PyStr.startswith counter_word rest = true).

(** A run of the ASCII digits, and its value in base 10. *)
Definition ascii_digits (s : str) : bool :=
  forallb (fun c => (48 <=? c) && (c <=? 57)) s.

Definition decimal_value (s : str) : Z :=
  fold_left (fun acc c => acc * 10 + (c - 48)) s 0.

(** An ASCII code point that no integer literal holds: neither a digit,
    nor a sign, nor an underscore. *)
Definition foreign_ascii (c : Z) : bool :=
  (c <? 128) && negb ((48 <=? c) && (c <=? 57))
  && negb (c =? 43) && negb (c =? 45) && negb (c =? 95).

(** Reports that tell the readings apart. *)
Module Reports.

(** The marker twice on one line, and a line without the counter word. *)
Definition marker_twice : str := u"❌ エラー: 2 ❌ エラー: 7個".
Definition no_counter_word : str := u"❌ エラー: 4".

(** Digits followed by another word, and a count with a sign. *)
Definition other_counter : str := u"❌ エラー: 3 件".
Definition signed_count : str := u"❌ エラー: -3個".

(** A line that begins with an ordinal and carries a marker, a sixth
    suggestion, and an indented one. *)
Definition numbered_report : str := u"1. ❌ エラー: 2個".
Definition sixth_suggestion : str := u"6. Use vector graphics".
Definition indented_suggestion : str := u"  2. Number the equations".

End Reports.

(* ===================================================================== *)
(** ** The plan of a compilation *)
(* ===================================================================== *)

Section Plans.
Context {E : Env}.

(** [is_in_docker] of [run_docker_compilation]. *)
Definition is_in_docker (w : World) : bool :=
  path_exists w (PurePath.parse u"/app")
  && PyStr.startswith u"/app" (PurePath.to_str PROJECT_ROOT).

(** [str(p.relative_to(root))] where the path is under [root]. *)
Definition relative_str (p root : Path) : str :=
  PurePath.to_str (value_or {| absolute := false; parts := [] |}
                            (PurePath.relative_to p root)).

(** [docker_cmd] and [bibtex_docker_cmd] of [run_docker_compilation]. *)
Definition docker_cmd (tex_file : Path) (compiler : str) : list str :=
  [u"docker"; u"compose"; u"run"; u"--rm";
   u"-w"; u"/workspace/" ++ relative_str (PurePath.parent tex_file) PROJECT_ROOT;
   u"latex";
   compiler;
   u"-interaction=nonstopmode";
   u"-halt-on-error";
   u"-output-directory=output";
   PurePath.name tex_file].

Definition bibtex_docker_cmd (tex_file : Path) : list str :=
  [u"docker"; u"compose"; u"run"; u"--rm";
   u"-w"; u"/workspace/"
          ++ relative_str (PurePath.parent tex_file </> u"output") PROJECT_ROOT;
   u"latex";
   u"bibtex"; PurePath.stem tex_file].

(** [compile_cmd] and [bibtex_cmd] of [run_direct_latex_compilation]. *)
Definition compile_cmd (tex_file : Path) (compiler : str) : list str :=
  [u"docker"; u"exec"; u"api-latex-engine-1";
   compiler;
   u"-interaction=nonstopmode";
   u"-halt-on-error";
   u"-output-directory=/workspace/"
     ++ relative_str (PurePath.parent tex_file </> u"output") (PurePath.parse u"/app");
   u"/workspace/" ++ relative_str tex_file (PurePath.parse u"/app")].

Definition bibtex_cmd (tex_file : Path) : list str :=
  [u"docker"; u"exec"; u"api-latex-engine-1";
   u"bibtex";
   u"/workspace/"
     ++ relative_str (PurePath.parent tex_file </> u"output") (PurePath.parse u"/app")
     ++ u"/" ++ PurePath.stem tex_file].

(** The calls of a compilation that runs to its end: the compiler; with
    a bibliography, bibtex and the compiler again; and, unless quick, the
    compiler once more. *)
Definition plan (bibliography quick : bool) (cc bib : list str) : list (list str) :=
  [cc] ++ (if bibliography then [bib; cc] else []) ++ (if quick then [] else [cc]).

(** [l] is the beginning of [full]. *)
Definition begins (l full : list (list str)) : Prop :=
  exists rest, l ++ rest = full.

(** The non-empty stderr texts of the calls that returned, in order. *)
Definition stderr_texts (tr : list event) : list str :=
  flat_map (fun e => match ev_outcome e with
                     | Ret c => if PyStr.truthy (subprocess.stderr c)
                                then [subprocess.stderr c] else []
                     | Raise _ => []
                     end) tr.

End Plans.

(* ===================================================================== *)
(** ** The rest of the compile handler, and template management *)
(* ===================================================================== *)

(** What [compile_document] takes from [Path.stat()] and from Python's
    float arithmetic: the modification time, which only [datetime] reads,
    and the rounded quotient, which is only passed on. *)
Class Stat (E : Env) : Type :=
  { timestamp : Type;
    number : Type;
    (** [Path.stat()]: [st_size] and [st_mtime] *)
    path_stat : World -> Path -> Exc (Z * timestamp);
    (** [datetime.fromtimestamp(t).isoformat()] *)
    isoformat : timestamp -> str;
    (** [round(a / b, ndigits)] *)
    round_quotient : Z -> Z -> Z -> number }.

(** The fields of the body of a template-management request, [None] for a
    key that is missing. *)
Record ManageRequest : Type :=
  { mr_action : option str;
    mr_template_id : option str;
    mr_template_file : option str;
    mr_category : option str }.

(** [data] of the template-management response. *)
Record ManageData : Type :=
  { md_action : str; md_command : str; md_output : str; md_stderr : option str }.

Section CompileHandler.
Context {E : Env} {S : Stat E}.

(** [pdf_info] and [data] of the compile response. *)
Record PdfInfo : Type :=
  { pdf_path_rel : str; pdf_size : Z; pdf_size_mb : number; pdf_created : str }.

Record CompileData : Type :=
  { cd_command : str;
    cd_returncode : Z;
    cd_compiler : str;
    cd_used_bibtex : bool;
    cd_quick_mode : bool;
    cd_stdout : str;
    cd_stderr : str;
    cd_pdf_info : option PdfInfo;
    cd_log_info : option LogInfo }.

Definition stat (p : Path) : M (Z * timestamp) :=
  fun st => (st, path_stat (world st) p).

(** Lines 700-710 of [compile_document]: the PDF beside the source. *)
Definition compile_document_pdf_info (file_path : Path) : M (option PdfInfo) :=
  let pdf_path :=
    PurePath.parent file_path </> u"output" </> (PurePath.stem file_path ++ u".pdf") in
  pdf_exists <- exists_ pdf_path ;;
  if pdf_exists then
    st <- stat pdf_path ;;
    rel <- lift (PurePath.relative_to pdf_path PROJECT_ROOT) ;;
    ret (Some {| pdf_path_rel := PurePath.to_str rel;
                 pdf_size := fst st;
                 pdf_size_mb := round_quotient (fst st) (1024 * 1024) 2;
                 pdf_created := isoformat (snd st) |})
  else ret None.

(** Lines 732-740 of [compile_document]: the error list. *)
Definition compile_errors (result : CommandResult) (log_info : option LogInfo)
    : list str :=
  if negb (success result) then
    let errors :=
      if PyStr.truthy (stderr result) then [u"STDERR: " ++ stderr result] else [] in
    let errors :=
      match log_info with
      | Some li =>
          match error_lines li with
          | [] => errors
          | _ => errors ++ map (fun line => u"LOG: " ++ line) (firstn 3 (error_lines li))
          end
      | None => errors
      end in
    match errors with
    | [] => [u"Compilation failed with unknown error"]
    | _ => errors
    end
  else [].

(** [compile_document()].  [data] is the JSON body with the defaults of
    [CompilationRequest] filled in; an empty [req_file_path] stands for a
    missing one, and [None] for a missing or empty body. *)
Definition compile_document (data : option CompilationRequest)
    : M (ApiResponse.t CompileData * Z) :=
  try_except
    (match data with
     | None =>
         reply false u"file_path is required" None
               (Some [u"No file_path provided in request"]) 400
     | Some req =>
     if negb (PyStr.truthy (req_file_path req)) then
       reply false u"file_path is required" None
             (Some [u"No file_path provided in request"]) 400
     else
     let file_path := PROJECT_ROOT </> req_file_path req in
     file_exists <- exists_ file_path ;;
     if negb file_exists then
       reply false u"File not found" None
             (Some [u"File does not exist: " ++ req_file_path req]) 404
     else
     let cmd := compile_command req in
     if req_watch req then
       reply false u"Watch mode not supported in API" None
             (Some [u"Use the watch endpoint for file monitoring"]) 400
     else
     result <- run_command cmd None ;;
     pdf_info <- compile_document_pdf_info file_path ;;
     log_info <- compile_document_log_info file_path result ;;
     let errors := compile_errors result log_info in
     reply (success result)
           (if success result then u"Compilation completed" else u"Compilation failed")
           (Some {| cd_command := PyStr.join u" " cmd;
                    cd_returncode := returncode result;
                    cd_compiler := req_compiler req;
                    cd_used_bibtex := req_use_bibtex req;
                    cd_quick_mode := req_quick req;
                    cd_stdout := stdout result;
                    cd_stderr := stderr result;
                    cd_pdf_info := pdf_info;
                    cd_log_info := log_info |})
           (match errors with [] => None | _ => Some errors end)
           200
     end)
    (fun e => reply false u"Compilation request failed" None (Some [exn_str e]) 500).

End CompileHandler.

Section ManageHandler.
Context {E : Env}.

(** [data.get(key)] as a condition. *)
Definition given (field : option str) : bool :=
  match field with Some s => PyStr.truthy s | None => false end.

Definition field_text (field : option str) : str :=
  match field with Some s => s | None => [] end.

(** Lines 969-978 of [manage_templates]: the command line for
    manage-templates.sh. *)
Definition manage_command (action : str) (data : ManageRequest) : list str :=
  let cmd := [PurePath.to_str (SCRIPTS_DIR </> u"manage-templates.sh"); action] in
  if existsb (PyStr.eqb action) [u"enable"; u"disable"; u"info"]
     && given (mr_template_id data)
  then cmd ++ [field_text (mr_template_id data)]
  else if PyStr.eqb action u"add" && given (mr_template_file data)
  then cmd ++ [field_text (mr_template_file data)]
  else if PyStr.eqb action u"list" && given (mr_category data)
  then cmd ++ [u"--category"]
  else cmd.

End ManageHandler.

(* ===================================================================== *)
(** ** The list of projects *)
(* ===================================================================== *)

(** [Path.iterdir()]: the entries of a directory, or the exception that
    reading it raises when the loop starts. *)
Class Listing (E : Env) : Type :=
  { path_iterdir : World -> Path -> Exc (list Path) }.

Section ListHandler.
Context {E : Env} {S : Stat E} {L : Listing E}.

(** [project_info["pdf_info"]] and [project_info] of [list_projects]. *)
Record ProjectPdf : Type :=
  { pp_path : str; pp_size : Z; pp_created : str }.

Record ProjectInfo : Type :=
  { pi_semester : str;
    pi_course : str;
    pi_name : str;
    pi_path : str;
    pi_main_tex_path : str;
    pi_has_pdf : bool;
    pi_modified : str;
    pi_size : Z;
    pi_pdf_info : option ProjectPdf }.

Record ListData : Type :=
  { projects : list ProjectInfo; total_count : Z }.

Definition iterdir (p : Path) : M (list Path) :=
  fun st => (st, path_iterdir (world st) p).

(** [for x in l: body], threading the list that the body appends to. *)
Fixpoint for_each {A B : Type} (l : list A) (body : A -> B -> M B) (acc : B) : M B :=
  match l with
  | [] => ret acc
  | x :: l' => acc' <- body x acc ;; for_each l' body acc'
  end.

(** [COURSES_DIR = PROJECT_ROOT / "courses"] *)
Definition COURSES_DIR : Path := PROJECT_ROOT </> u"courses".

(** Lines 914-938 of [list_projects]: one project directory. *)
Definition list_project_dir (semester_dir course_dir project_dir : Path)
    (projects : list ProjectInfo) : M (list ProjectInfo) :=
  let main_tex := project_dir </> u"main.tex" in
  main_exists <- exists_ main_tex ;;
  if main_exists then
    st <- stat main_tex ;;
    let pdf_path := project_dir </> u"output" </> (PurePath.stem main_tex ++ u".pdf") in
    path <- lift (PurePath.relative_to project_dir PROJECT_ROOT) ;;
    main_tex_path <- lift (PurePath.relative_to main_tex PROJECT_ROOT) ;;
    has_pdf <- exists_ pdf_path ;;
    pdf_exists <- exists_ pdf_path ;;
    pdf_info <-
      (if pdf_exists then
         pdf_stat <- stat pdf_path ;;
         pdf_rel <- lift (PurePath.relative_to pdf_path PROJECT_ROOT) ;;
         ret (Some {| pp_path := PurePath.to_str pdf_rel;
                      pp_size := fst pdf_stat;
                      pp_created := isoformat (snd pdf_stat) |})
       else ret None) ;;
    ret (projects ++
         [{| pi_semester := PurePath.name semester_dir;
             pi_course := PurePath.name course_dir;
             pi_name := PurePath.name project_dir;
             pi_path := PurePath.to_str path;
             pi_main_tex_path := PurePath.to_str main_tex_path;
             pi_has_pdf := has_pdf;
             pi_modified := isoformat (snd st);
             pi_size := fst st;
             pi_pdf_info := pdf_info |}])
  else ret projects.

(** The PDF flag of an entry agrees with the presence of its PDF
    information. *)
Definition pdf_consistent (p : ProjectInfo) : Prop :=
  pi_has_pdf p = match pi_pdf_info p with Some _ => true | None => false end.

(** [list_projects()] *)
Definition list_projects : M (ApiResponse.t ListData * Z) :=
  try_except
    (courses_exists <- exists_ COURSES_DIR ;;
     projects <-
       (if courses_exists then
          semester_dirs <- iterdir COURSES_DIR ;;
          for_each semester_dirs
            (fun semester_dir projects =>
               semester_is_dir <- is_dir semester_dir ;;
               if negb semester_is_dir then ret projects else
               course_dirs <- iterdir semester_dir ;;
               for_each course_dirs
                 (fun course_dir projects =>
                    course_is_dir <- is_dir course_dir ;;
                    if negb course_is_dir then ret projects else
                    project_dirs <- iterdir course_dir ;;
                    for_each project_dirs
                      (fun project_dir projects =>
                         project_is_dir <- is_dir project_dir ;;
                         if negb project_is_dir then ret projects else
                         list_project_dir semester_dir course_dir project_dir projects)
                      projects)
                 projects)
            []
        else ret []) ;;
     reply true u"Projects retrieved successfully"
           (Some {| projects := projects;
                    total_count := Z.of_nat (List.length projects) |})
           None 200)
    (fun e => reply false u"Failed to list projects" None (Some [exn_str e]) 500).

End ListHandler.

(** The first call of [run_direct_latex_compilation], and the auxiliary
    file that it looks for afterwards. *)
Definition first_direct_call (tex_file : Path) (compiler : str) : subprocess.call :=
  {| subprocess.args := compile_cmd tex_file compiler;
     subprocess.cwd := None;
     subprocess.timeout := Some 180 |}.

Definition expected_aux (tex_file : Path) : Path :=
  PurePath.parent tex_file </> u"output" </> (PurePath.stem tex_file ++ u".aux").

(* ===================================================================== *)
(** ** Request bodies with fields of any JSON type *)
(* ===================================================================== *)

(** A value of a JSON body as the handlers use it: a string, or a value of
    another type (a number, a boolean, null, a list or an object), of which
    they use the truth value and, in the text of a TypeError, the name of
    the type ([int], [float], [bool], [NoneType], [list], [dict]). *)
Inductive json : Type :=
| Text (s : str)
| Other (truth : bool) (type_name : str).

(** [bool(data.get(key))]; [None] is a missing key. *)
Definition json_given (field : option json) : bool :=
  match field with
  | Some (Text s) => PyStr.truthy s
  | Some (Other truth _) => truth
  | None => false
  end.

(** [data[key]], read after [data.get(key)] was found truthy. *)
Definition field_value (field : option json) : json :=
  match field with Some v => v | None => Other false u"NoneType" end.

(** [v == s] for a string [s]: a value of another type equals no string. *)
Definition json_is (v : json) (s : str) : bool :=
  match v with Text t => PyStr.eqb t s | Other _ _ => false end.

(** [str(n)] for a natural number. *)
Fixpoint decimal_from (fuel n : nat) (acc : str) : str :=
  match fuel with
  | O => acc
  | S fuel' =>
      let acc' := (48 + Z.of_nat (n mod 10)) :: acc in
      if (n / 10 =? 0)%nat then acc' else decimal_from fuel' (n / 10) acc'
  end.

Definition str_of_nat (n : nat) : str := decimal_from (S n) n [].

(** The words of a command line when all of them are strings. *)
Fixpoint strings (l : list json) : option (list str) :=
  match l with
  | [] => Some []
  | Text s :: l' => option_map (cons s) (strings l')
  | Other _ _ :: _ => None
  end.

(** The text of the TypeError that [" ".join(l)] raises at the first item
    that is not a string; [i] is the index of the head of [l]. *)
Fixpoint join_type_error (l : list json) (i : nat) : str :=
  match l with
  | [] => []
  | Text _ :: l' => join_type_error l' (S i)
  | Other _ ty :: _ =>
      u"sequence item " ++ str_of_nat i ++ u": expected str instance, " ++ ty
      ++ u" found"
  end.

(** The body of a compile request: [file_path] of any JSON type, [None]
    when the key is missing; the compiler a string, and of the four flags
    their truth values, which is all that the handler reads of them. *)
Record CompileBody : Type :=
  { cb_file_path : option json;
    cb_compiler : str;
    cb_use_bibtex : bool;
    cb_quick : bool;
    cb_open_pdf : bool;
    cb_watch : bool }.

(** The body of a template-management request. *)
Record ManageBody : Type :=
  { mb_action : option json;
    mb_template_id : option json;
    mb_template_file : option json;
    mb_category : option json }.

Section JsonHandlers.
Context {E : Env} {S : Stat E}.

(** The right operand of [PROJECT_ROOT / req.file_path]: pathlib joins a
    string and refuses a value of any other JSON type with a TypeError. *)
Definition path_operand (v : json) : Exc str :=
  match v with
  | Text s => Ret s
  | Other _ ty =>
      Raise (Exception (u"unsupported operand type(s) for /: 'PosixPath' and '"
                        ++ ty ++ u"'"))
  end.

(** [compile_document()] on a body whose [file_path] may be of any JSON
    type.  Lines 651-669 test its truth value and join it to the project
    root; from there on it is a string, and the handler goes on as
    [compile_document] has it. *)
Definition compile_document_json (data : option CompileBody)
    : M (ApiResponse.t CompileData * Z) :=
  try_except
    (match data with
     | None =>
         reply false u"file_path is required" None
               (Some [u"No file_path provided in request"]) 400
     | Some body =>
     if negb (json_given (cb_file_path body)) then
       reply false u"file_path is required" None
             (Some [u"No file_path provided in request"]) 400
     else
     file_path <- lift (path_operand (field_value (cb_file_path body))) ;;
     compile_document
       (Some {| req_file_path := file_path;
                req_compiler := cb_compiler body;
                req_use_bibtex := cb_use_bibtex body;
                req_quick := cb_quick body;
                req_open_pdf := cb_open_pdf body;
                req_watch := cb_watch body |})
     end)
    (fun e => reply false u"Compilation request failed" None (Some [exn_str e]) 500).

(** Lines 969-978 of [manage_templates] on values of any JSON type: the
    command line for manage-templates.sh. *)
Definition manage_words (action : json) (data : ManageBody) : list json :=
  let cmd := [Text (PurePath.to_str (SCRIPTS_DIR </> u"manage-templates.sh")); action] in
  if existsb (json_is action) [u"enable"; u"disable"; u"info"]
     && json_given (mb_template_id data)
  then cmd ++ [field_value (mb_template_id data)]
  else if json_is action u"add" && json_given (mb_template_file data)
  then cmd ++ [field_value (mb_template_file data)]
  else if json_is action u"list" && json_given (mb_category data)
  then cmd ++ [Text u"--category"]
  else cmd.

(** [manage_templates()] on a body with fields of any JSON type.  When a
    word of the command line is not a string, [run_command(cmd)] comes back
    with a failure and has started nothing (the TypeError of
    [subprocess.run], or the AttributeError of the dispatcher's argument
    loop, is caught inside it), and [" ".join(cmd)] raises. *)
Definition manage_templates_json (data : option ManageBody)
    : M (ApiResponse.t ManageData * Z) :=
  try_except
    (match data with
     | None =>
         reply false u"action is required" None
               (Some [u"Action must be specified: list, enable, disable, add, info, validate"])
               400
     | Some d =>
     if negb (json_given (mb_action d)) then
       reply false u"action is required" None
             (Some [u"Action must be specified: list, enable, disable, add, info, validate"])
             400
     else
     let action := field_value (mb_action d) in
     let cmd := manage_words action d in
     match strings cmd with
     | Some words =>
         result <- run_command words None ;;
         reply (success result)
               (u"Template management action '" ++ item words 1 ++ u"' completed")
               (Some {| md_action := item words 1;
                        md_command := PyStr.join u" " words;
                        md_output := stdout result;
                        md_stderr := if PyStr.truthy (stderr result)
                                     then Some (stderr result) else None |})
               (if negb (success result) && PyStr.truthy (stderr result)
                then Some [stderr result] else None)
               200
     | None => raise (Exception (join_type_error cmd 0))
     end
     end)
    (fun e => reply false u"Template management failed" None (Some [exn_str e]) 500).

End JsonHandlers.

(** The executable environment, with file times and a quotient that is
    kept as it was asked for. *)
Module SimStat.

Definition stat (w : Sim.machine) (p : Path) : Exc (Z * Z) :=
  match Sim.stat_size w p with
  | Ret size => Ret (size, 1700000000)
  | Raise e => Raise e
  end.

#[export] Instance host : Stat Sim.host :=
  @Build_Stat Sim.host Z (Z * Z * Z)
    (stat : @World Sim.host -> Path -> Exc (Z * Z))
    (fun _ => u"2023-11-14T22:13:20")
    (fun a b n => (a, b, n)).

(** The entries of a directory: the nodes whose parent it is. *)
Definition iterdir (w : Sim.machine) (p : Path) : Exc (list Path) :=
  if Sim.is_dir w p then
    Ret (filter (fun q => PurePath.eqb (PurePath.parent q) p && negb (PurePath.eqb q p))
                (map fst (Sim.nodes w)))
  else Raise (Exception (u"[Errno 20] Not a directory: " ++ PurePath.to_str p)).

#[export] Instance host_listing : Listing Sim.host :=
  @Build_Listing Sim.host (iterdir : @World Sim.host -> Path -> Exc (list Path)).

End SimStat.

(** Further runs on the scenarios. *)
Module Scenario2.
Import Scenario.

Definition request : CompilationRequest :=
  {| req_file_path := tex_arg; req_compiler := u"lualatex"; req_use_bibtex := false;
     req_quick := false; req_open_pdf := false; req_watch := false |}.

(** A quick compilation with a bibliography: four words after the script. *)
Definition compile_quick_bib : list str := [compile_sh; tex_arg; u"-b"; u"-q"].

Definition quick_bibliography : list (Exc subprocess.CompletedProcess * list Path) :=
  [(Sim.exits 0 u"pass 1" u"warning 1", [main_aux]);
   (Sim.exits 0 u"bibtex" [], []);
   (Sim.exits 0 u"pass 2" u"warning 2", [main_pdf])].

Definition quick_bibliography_run : @state Sim.host * Exc CommandResult :=
  @run_docker_compilation Sim.host compile_quick_bib None (project quick_bibliography).

Definition container_tex : Path := PurePath.parse u"/app/courses/r1/main.tex".

(** In the container with a bibliography: the first pass leaves the
    auxiliary file, and bibtex and two more passes follow. *)
Definition container_bibliography : list (Exc subprocess.CompletedProcess * list Path) :=
  [(Sim.exits 0 u"pass 1" [], [PurePath.parse u"/app/courses/r1/output/main.aux"]);
   (Sim.exits 0 u"bibtex" [], []);
   (Sim.exits 0 u"pass 2" [], []);
   (Sim.exits 0 u"pass 3" [], [PurePath.parse u"/app/courses/r1/output/main.pdf"])].

Definition container_bibliography_run : @state Sim.container * Exc CommandResult :=
  @run_direct_latex_compilation Sim.container container_tex u"lualatex" true false
    (in_container container_bibliography).

(** The same request where the first pass leaves no auxiliary file. *)
Definition container_no_aux_run : @state Sim.container * Exc CommandResult :=
  @run_direct_latex_compilation Sim.container container_tex u"lualatex" true false
    (in_container two_good_passes).

(** A response to fall back on where a run is read off. *)
Definition no_response {D : Type} : ApiResponse.t D * Z :=
  ({| ApiResponse.success := false; ApiResponse.message := [];
      ApiResponse.data := None; ApiResponse.errors := None |}, 0).

Definition late_failure_response
    : @state Sim.host * Exc (ApiResponse.t (@CompileData Sim.host SimStat.host) * Z) :=
  @compile_document Sim.host SimStat.host (Some request) (project late_failure).

Definition first_fails_response
    : @state Sim.host * Exc (ApiResponse.t (@CompileData Sim.host SimStat.host) * Z) :=
  @compile_document Sim.host SimStat.host (Some request) (project first_fails).

(** What the first pass of [first_fails] returns. *)
Definition failed_pass : subprocess.CompletedProcess :=
  {| subprocess.returncode := 1; subprocess.stdout := u"pass 1";
     subprocess.stderr := u"! LaTeX Error: File not found." |}.

(** Bodies of template management: every field a string, and a number as
    the template id. *)
Definition enable_body : ManageBody :=
  {| mb_action := Some (Text u"enable"); mb_template_id := Some (Text u"thesis");
     mb_template_file := Some (Text u"ignored.tex");
     mb_category := Some (Text u"report") |}.

Definition number_as_template : ManageBody :=
  {| mb_action := Some (Text u"enable"); mb_template_id := Some (Other true u"int");
     mb_template_file := None; mb_category := None |}.

(** Bodies that ask for watch mode: a number as the file path, and the
    path of the project's source. *)
Definition number_as_file : CompileBody :=
  {| cb_file_path := Some (Other true u"int"); cb_compiler := u"lualatex";
     cb_use_bibtex := false; cb_quick := false; cb_open_pdf := false;
     cb_watch := true |}.

Definition watch_body : CompileBody :=
  {| cb_file_path := Some (Text tex_arg); cb_compiler := u"lualatex";
     cb_use_bibtex := false; cb_quick := false; cb_open_pdf := true;
     cb_watch := true |}.

Definition silent_failure : list (Exc subprocess.CompletedProcess * list Path) :=
  [(Sim.exits 2 u"unknown template" [], [])].

Definition cannot_start : list (Exc subprocess.CompletedProcess * list Path) :=
  [(Raise (Exception u"[Errno 13] Permission denied: 'check-quality.sh'"), [])].

Definition missing_tex : list str := [compile_sh; u"courses/r1/missing.tex"].

Definition enable_run
    : @state Sim.host * Exc (ApiResponse.t ManageData * Z) :=
  @manage_templates_json Sim.host (Some enable_body) (project silent_failure).

Definition number_as_template_run
    : @state Sim.host * Exc (ApiResponse.t ManageData * Z) :=
  @manage_templates_json Sim.host (Some number_as_template) (project silent_failure).

(** In the container, the source is found only under [/workspace]. *)
Definition only_in_workspace : @state Sim.container :=
  @start Sim.container
    {| Sim.nodes := [(PurePath.parse u"/app", Sim.Dir);
                     (PurePath.parse u"/workspace/courses/r1", Sim.Dir);
                     (PurePath.parse u"/workspace/courses/r1/main.tex", Sim.File u"x")];
       Sim.script := two_good_passes |}.

Definition delete_run : @state Sim.host * Exc (ApiResponse.t DeletedData * Z) :=
  @delete_project Sim.host u"courses/r1" (project []).

(** Two projects of one course, the first with a PDF, and a stray file. *)
Definition courses : @state Sim.host :=
  @start Sim.host
    {| Sim.nodes :=
         [(PurePath.parse u"/srv/latex/courses", Sim.Dir);
          (PurePath.parse u"/srv/latex/courses/README.md", Sim.File u"x");
          (PurePath.parse u"/srv/latex/courses/2024-fall", Sim.Dir);
          (PurePath.parse u"/srv/latex/courses/2024-fall/physics", Sim.Dir);
          (PurePath.parse u"/srv/latex/courses/2024-fall/physics/r1", Sim.Dir);
          (PurePath.parse u"/srv/latex/courses/2024-fall/physics/r1/main.tex", Sim.File u"abc");
          (PurePath.parse u"/srv/latex/courses/2024-fall/physics/r1/output", Sim.Dir);
          (PurePath.parse u"/srv/latex/courses/2024-fall/physics/r1/output/main.pdf",
           Sim.File u"%PDF");
          (PurePath.parse u"/srv/latex/courses/2024-fall/physics/r2", Sim.Dir);
          (PurePath.parse u"/srv/latex/courses/2024-fall/physics/r2/main.tex", Sim.File u"de");
          (PurePath.parse u"/srv/latex/courses/2024-fall/physics/notes", Sim.Dir)];
       Sim.script := [] |}.

Definition courses_response
    : @state Sim.host
      * Exc (ApiResponse.t ListData * Z) :=
  @list_projects Sim.host SimStat.host SimStat.host_listing courses.

End Scenario2.

(* ===================================================================== *)
(** * Properties *)
(* ===================================================================== *)

Example path_parent_stem :
  let p := PurePath.parse u"/app/courses/r1/./main.tex" in
  PurePath.to_str (PurePath.parent p </> u"output") = u"/app/courses/r1/output"
  /\ PurePath.stem p = u"main" /\ PurePath.name p = u"main.tex".
Proof. repeat split; reflexivity. Qed.

Example path_stem_dotfile :
  PurePath.stem (PurePath.parse u"a/.bashrc") = u".bashrc"
  /\ PurePath.stem (PurePath.parse u"a/x.tar.gz") = u"x.tar"
  /\ PurePath.stem (PurePath.parse u"a/x.") = u"x.".
Proof. repeat split; reflexivity. Qed.

Example path_relative_to :
  PurePath.relative_to (PurePath.parse u"/app/courses/r1") (PurePath.parse u"/app")
  = Ret (PurePath.parse u"courses/r1").
Proof. reflexivity. Qed.

Example split_lines : PyStr.split nl (u"a" ++ nl ++ u"b" ++ nl) = [u"a"; u"b"; []].
Proof. reflexivity. Qed.

Example split_marker :
  PyStr.split u"❌ エラー:" u"x ❌ エラー: 2個" = [u"x "; u" 2個"].
Proof. reflexivity. Qed.

Example replace_app :
  PyStr.replace u"/app" u"/workspace" u"/app/courses/app.tex/x"
  = u"/workspace/courses/workspace.tex/x".
Proof. reflexivity. Qed.

Example marker_code_points :
  error_marker = [10060; 32; 12456; 12521; 12540; 58]
  /\ warning_marker = [9888; 65039; 32; 32; 35686; 21578; 58]
  /\ counter_word = [20491].
Proof. repeat split; reflexivity. Qed.

Example int_literals :
  map (@py_int (Sim.env (PurePath.parse u"/")))
      [u"42"; u"+7"; u"-3"; u"1_000"; u"007"; u"１２"; u""; u"4 2"; u"_1"; u"1__0"; u"2.5"]
  = [Some 42; Some 7; Some (-3); Some 1000; Some 7; Some 12; None; None; None; None; None].
Proof. vm_compute. reflexivity. Qed.

Example count_after_marker :
  @count_after (Sim.env (PurePath.parse u"/")) error_marker u"結果 ❌ エラー:  12 個 (要修正)"
  = Some 12
  /\ @count_after (Sim.env (PurePath.parse u"/")) error_marker u"❌ エラー: なし" = None.
Proof. vm_compute. split; reflexivity. Qed.

Example flags_are_read :
  parse_compile_args [u"a.tex"; u"-c"; u"xelatex"; u"-q"; u"-o"; u"-b"] default_compile_args
  = {| file_path := Some u"a.tex"; compiler := u"xelatex"; use_bibtex := true; quick := true |}
  /\ parse_compile_args [u"a.tex"; u"-b"; u"-c"] default_compile_args
     = {| file_path := Some u"a.tex"; compiler := u"lualatex"; use_bibtex := true; quick := false |}.
Proof. split; reflexivity. Qed.

(* ===================================================================== *)
(** ** Strings and the two text parsers *)
(* ===================================================================== *)

Section TextProps.
Context {E : Env}.

Lemma last_cons_default {A} (x : A) (l : list A) (d d' : A) :
  last (x :: l) d = last (x :: l) d'.
Proof.
  revert x. induction l as [|y l IH]; intros x; [reflexivity|].
  change (last (y :: l) d = last (y :: l) d'). apply IH.
Qed.

Lemma last_app_default {A} (a b : list A) (d : A) :
  last (a ++ b) d = last b (last a d).
Proof.
  induction a as [|x a IH]; [reflexivity|].
  destruct a as [|y a'].
  - destruct b as [|z b']; [reflexivity|].
    change (last (z :: b') d = last (z :: b') x). apply last_cons_default.
  - exact IH.
Qed.

Lemma fold_tally lines t :
  fold_left tally_line lines t =
  {| errors := last (parsed_counts error_marker (error_report_lines lines)) (errors t);
     warnings := last (parsed_counts warning_marker (warning_report_lines lines)) (warnings t);
     found := found t ++ map PyStr.strip (suggestion_lines lines) |}.
Proof.
  revert t. induction lines as [|l lines IH]; intros t.
  - simpl. rewrite app_nil_r. destruct t; reflexivity.
  - cbn [fold_left]. rewrite IH. clear IH.
    unfold tally_line, error_report_lines, warning_report_lines, suggestion_lines, parsed_counts.
    cbn [filter].
    destruct (PyStr.contains error_marker l) eqn:He; cbn [negb andb flat_map map].
    + rewrite last_app_default.
      destruct (count_after error_marker l); reflexivity.
    + destruct (PyStr.contains warning_marker l) eqn:Hw; cbn [negb andb flat_map map].
      * rewrite last_app_default.
        destruct (count_after warning_marker l); reflexivity.
      * destruct (starts_with_ordinal (PyStr.strip l)); cbn [map errors warnings found].
        -- rewrite <- app_assoc. reflexivity.
        -- reflexivity.
Qed.

Lemma collect_fold lines acc :
  fold_left (fun acc line => if is_error_line line then acc ++ [PyStr.strip line] else acc) lines acc
  = acc ++ map PyStr.strip (filter is_error_line lines).
Proof.
  revert acc. induction lines as [|l lines IH]; intros acc; cbn [fold_left filter].
  - cbn. now rewrite app_nil_r.
  - rewrite IH. destruct (is_error_line l); cbn [map]; [now rewrite <- app_assoc | reflexivity].
Qed.

Lemma firstn_map_comm {A B} (f : A -> B) n l : firstn n (map f l) = map f (firstn n l).
Proof. revert l; induction n; intros [|x l]; cbn; congruence. Qed.

Lemma startswith_app p s : PyStr.startswith p (p ++ s) = true.
Proof. induction p as [|x p IH]; cbn; [reflexivity|]. now rewrite Z.eqb_refl. Qed.

Lemma startswith_split p s :
  PyStr.startswith p s = true -> exists post, s = p ++ post.
Proof.
  revert s. induction p as [|x p IH]; intros s H; [exists s; reflexivity|].
  destruct s as [|y s]; [discriminate|]. cbn in H.
  apply andb_true_iff in H as [Hx Hp]. apply Z.eqb_eq in Hx as ->.
  destruct (IH _ Hp) as [post ->]. now exists post.
Qed.

Lemma contains_split sub s :
  PyStr.contains sub s = true -> exists pre post, s = pre ++ sub ++ post.
Proof.
  induction s as [|c s IH]; intros H.
  - cbn in H. rewrite orb_false_r in H. destruct sub; [|discriminate]. now exists [], [].
  - cbn [PyStr.contains] in H. apply orb_true_iff in H as [H|H].
    + destruct (startswith_split _ _ H) as [post ->]. now exists [], post.
    + destruct (IH H) as (pre & post & ->). now exists (c :: pre), post.
Qed.

Lemma contains_intro sub pre post : PyStr.contains sub (pre ++ sub ++ post) = true.
Proof.
  induction pre as [|c pre IH].
  - cbn [app]. destruct (sub ++ post) eqn:Heq.
    + destruct sub; [reflexivity|discriminate].
    + cbn [PyStr.contains]. rewrite <- Heq, startswith_app. reflexivity.
  - cbn [app PyStr.contains]. rewrite IH. apply orb_true_r.
Qed.

Lemma lower_app a b : lower (a ++ b) = lower a ++ lower b.
Proof. apply flat_map_app. Qed.

Lemma Error_is_error line :
  PyStr.contains u"Error" line = true -> PyStr.contains u"error" (lower line) = true.
Proof.
  intros H. destruct (contains_split _ _ H) as (pre & post & ->).
  rewrite !lower_app. change (lower u"Error") with u"error".
  apply contains_intro.
Qed.

Lemma is_error_line_two line :
  is_error_line line = PyStr.startswith u"!" line || PyStr.contains u"error" (lower line).
Proof.
  unfold is_error_line.
  destruct (PyStr.startswith u"!" line); [reflexivity|].
  destruct (PyStr.contains u"Error" line) eqn:H; [|reflexivity].
  now rewrite (Error_is_error _ H).
Qed.

Lemma score_spec e w : compute_quality_score e w = Z.max 0 (100 - 20 * e - 5 * w).
Proof. unfold compute_quality_score. f_equal. lia. Qed.
End TextProps.

(* ===================================================================== *)
(** ** The compilation dispatcher *)
(* ===================================================================== *)

Section EffectProps.
Context {E : Env}.

(** One step of symbolic execution in the hypothesis [H]: case analysis on
    the next answer of the environment. *)
Ltac step H :=
  match type of H with
  | context [if negb (path_exists ?w ?c) then _ else _] =>
      let H' := fresh "Hex" in destruct (path_exists w c) eqn:H'
  | context [spawn ?w ?c] =>
      let H' := fresh "Hrun" in destruct (spawn w c) as [? [?|?]] eqn:H'
  | context [path_mkdir ?w ?c] =>
      let H' := fresh "Hmk" in destruct (path_mkdir w c) as [? [?|?]] eqn:H'
  | context [PurePath.relative_to ?w ?c] =>
      let H' := fresh "Hrel" in destruct (PurePath.relative_to w c) as [?|?] eqn:H'
  | context [if path_exists ?w ?c then _ else _] =>
      let H' := fresh "Hex" in destruct (path_exists w c) eqn:H'
  | context [if negb (?a =? ?b) then _ else _] =>
      let H' := fresh "Hrc" in destruct (a =? b) eqn:H'
  end; cbn [negb fst snd world trace app andb ev_outcome ev_call] in H.

Ltac unfold_run H :=
  unfold try_except, bind, mkdir, lift, subprocess_run, exists_, ret, start in H;
  cbn [world trace app] in H.

Ltac observe :=
  cbn [first_pass_ok all_returned forallb returned trace world ev_outcome
       ev_call success returncode andb] in *.


Lemma run_direct_returns tex compiler b q st :
  exists st' r, run_direct_latex_compilation tex compiler b q st = (st', Ret r).
Proof.
  unfold run_direct_latex_compilation, try_except.
  match goal with |- context [match ?m st with _ => _ end] => destruct (m st) as [st1 [r|e]] end.
  - eauto.
  - unfold ret. eauto.
Qed.

Lemma joinpath_output p :
  p </> u"output" = {| absolute := absolute p; parts := parts p ++ [u"output"] |}.
Proof. reflexivity. Qed.

Lemma strip_prefix_app pre l rest x :
  PurePath.strip_prefix pre l = Some rest ->
  PurePath.strip_prefix pre (l ++ x) = Some (rest ++ x).
Proof.
  revert l. induction pre as [|c pre IH]; intros l H.
  - cbn in *. congruence.
  - destruct l as [|d l]; [discriminate|]. cbn in *.
    destruct (PyStr.eqb c d); [auto | discriminate].
Qed.

Lemma relative_to_output p root a :
  PurePath.relative_to p root = Ret a ->
  exists b, PurePath.relative_to (p </> u"output") root = Ret b.
Proof.
  rewrite joinpath_output. unfold PurePath.relative_to. cbn [absolute parts].
  destruct (Bool.eqb (absolute p) (absolute root)); [|discriminate].
  destruct (PurePath.strip_prefix (parts root) (parts p)) as [rest|] eqn:Hs; [|discriminate].
  intros _. rewrite (strip_prefix_app _ _ _ _ Hs). eauto.
Qed.

Ltac output_dir_is_relative :=
  match goal with
  | Hok : PurePath.relative_to ?p ?root = Ret _,
    Hno : PurePath.relative_to (?p </> _) ?root = Raise _ |- _ =>
      destruct (relative_to_output _ _ _ Hok); congruence
  end.

Lemma bind_exists {A} p (k : bool -> M A) st :
  bind (exists_ p) k st = k (path_exists (world st) p) st.
Proof. reflexivity. Qed.


Lemma pystr_eqb_refl a : PyStr.eqb a a = true.
Proof. induction a as [|x a IH]; cbn; [reflexivity|]. now rewrite Z.eqb_refl. Qed.

Lemma args_eqb_refl a : args_eqb a a = true.
Proof. induction a as [|x a IH]; cbn; [reflexivity|]. now rewrite pystr_eqb_refl. Qed.

Ltac count_passes :=
  cbn [passes filter ev_call subprocess.args]; rewrite ?args_eqb_refl;
  repeat match goal with |- context [if ?c then _ else _] => destruct c end;
  cbn [List.length]; lia.

Lemma direct_two_passes tex compiler b w st' r :
  run_direct_latex_compilation tex compiler b false (start w) = (st', r) ->
  first_pass_ok (trace st') = true ->
  all_returned (trace st') = true ->
  (2 <= List.length (passes (trace st')))%nat.
Proof.
  unfold run_direct_latex_compilation. intros H Hf Ha. unfold_run H.
  destruct b; cbn [negb] in H; repeat step H.
  all: injection H as <- <-; observe; try discriminate; try congruence.
  all: count_passes.
Qed.

(** C3 (as amended): for a command line without [-q], when the first pass
    came back with exit code 0 and no call of subprocess.run raised, at
    least two calls carry the compile command line. *)
Theorem C3_two_passes_after_first original_cmd cwd w st' r :
  quick (parse_compile_args (tl original_cmd) default_compile_args) = false ->
  run_docker_compilation original_cmd cwd (start w) = (st', r) ->
  first_pass_ok (trace st') = true ->
  all_returned (trace st') = true ->
  (2 <= List.length (passes (trace st')))%nat.
Proof.
  unfold run_docker_compilation. intros Hq H Hf Ha.
  set (a := parse_compile_args (tl original_cmd) default_compile_args) in *.
  rewrite Hq in H.
  destruct (file_path a) as [fp|].
  2:{ unfold_run H. injection H as <- <-. discriminate. }
  destruct (PyStr.truthy fp); cbn [negb] in H.
  2:{ unfold_run H. injection H as <- <-. discriminate. }
  unfold try_except in H. rewrite bind_exists in H. cbn [world start] in H.
  destruct (path_exists w (PurePath.parse u"/app") && _).
  - rewrite bind_exists in H. cbn [world start] in H.
    destruct (path_exists w (PROJECT_ROOT </> fp)); cbn [negb] in H.
    + match type of H with context [run_direct_latex_compilation ?t ?c ?b ?q ?s] =>
        destruct (run_direct_latex_compilation t c b q s) as [s1 [r1|e1]] eqn:Hd end.
      all: unfold ret in H; injection H as <- <-; eapply direct_two_passes; eauto.
    + rewrite bind_exists in H. cbn [world start] in H.
      match type of H with context [if ?c then _ else _] => destruct c end.
      * match type of H with context [run_direct_latex_compilation ?t ?c ?b ?q ?s] =>
          destruct (run_direct_latex_compilation t c b q s) as [s1 [r1|e1]] eqn:Hd end.
        all: unfold ret in H; injection H as <- <-; eapply direct_two_passes; eauto.
      * unfold_run H. injection H as <- <-. discriminate.
  - unfold_run H.
    destruct (use_bibtex a); cbn [negb] in H; repeat step H.
    all: injection H as <- <-; observe; try discriminate; try congruence.
    all: try output_dir_is_relative.
    all: count_passes.
Qed.

Lemma direct_bridged tex compiler b q w st' r :
  run_direct_latex_compilation tex compiler b q (start w) = (st', r) ->
  Forall (fun e => bridged compiler (ev_call e)) (trace st').
Proof.
  unfold run_direct_latex_compilation. intros H. unfold_run H.
  destruct b, q; cbn [negb] in H; repeat step H.
  all: injection H as <- <-; cbn [trace].
  all: repeat constructor.
  all: unfold bridged; cbn [ev_call subprocess.args subprocess.cwd]; do 2 eexists.
  all: split; [reflexivity|]; split; [|reflexivity].
  all: first [left; reflexivity | right; reflexivity].
Qed.

(** C4 (as amended): when [/app] exists and the project root's path starts
    with [/app], every process the dispatcher starts is a
    [docker exec api-latex-engine-1 ...] that runs the requested compiler
    or bibtex inside the sibling container; the compiler binary is not
    invoked directly. *)
Theorem C4_container_runs_in_engine original_cmd cwd w st' r :
  path_exists w (PurePath.parse u"/app") = true ->
  PyStr.startswith u"/app" (PurePath.to_str PROJECT_ROOT) = true ->
  run_docker_compilation original_cmd cwd (start w) = (st', r) ->
  Forall (fun e =>
            bridged (compiler (parse_compile_args (tl original_cmd) default_compile_args))
                    (ev_call e))
         (trace st').
Proof.
  unfold run_docker_compilation. intros Happ Hroot H.
  set (a := parse_compile_args (tl original_cmd) default_compile_args) in *.
  destruct (file_path a) as [fp|].
  2:{ unfold_run H. injection H as <- <-. constructor. }
  destruct (PyStr.truthy fp); cbn [negb] in H.
  2:{ unfold_run H. injection H as <- <-. constructor. }
  unfold try_except in H. rewrite bind_exists in H. cbn [world start] in H.
  rewrite Happ, Hroot in H. cbn [andb] in H.
  rewrite bind_exists in H. cbn [world start] in H.
  destruct (path_exists w (PROJECT_ROOT </> fp)); cbn [negb] in H.
  - match type of H with context [run_direct_latex_compilation ?t ?c ?b ?q ?s] =>
      destruct (run_direct_latex_compilation t c b q s) as [s1 [r1|e1]] eqn:Hd end.
    all: unfold ret in H; injection H as <- <-; eapply direct_bridged; eauto.
  - rewrite bind_exists in H. cbn [world start] in H.
    match type of H with context [if ?c then _ else _] => destruct c end.
    + match type of H with context [run_direct_latex_compilation ?t ?c ?b ?q ?s] =>
        destruct (run_direct_latex_compilation t c b q s) as [s1 [r1|e1]] eqn:Hd end.
      all: unfold ret in H; injection H as <- <-; eapply direct_bridged; eauto.
    + unfold_run H. injection H as <- <-. constructor.
Qed.
(** After the first call, no call of a compilation is given a timeout. *)
Lemma later_calls_have_no_timeout original_cmd cwd w st' r :
  run_docker_compilation original_cmd cwd (start w) = (st', r) ->
  Forall (fun t => t = None) (tl (timeouts (trace st'))).
Proof.
  assert (Hdirect : forall tex compiler b q st1 r1,
            run_direct_latex_compilation tex compiler b q (start w) = (st1, r1) ->
            Forall (fun t => t = None) (tl (timeouts (trace st1)))).
  { intros tex compiler b q st1 r1 H.
    unfold run_direct_latex_compilation in H. unfold_run H.
    destruct b, q; cbn [negb] in H; repeat step H.
    all: injection H as <- <-; cbn [trace timeouts map tl ev_call subprocess.timeout].
    all: repeat constructor. }
  unfold run_docker_compilation. intros H.
  set (a := parse_compile_args (tl original_cmd) default_compile_args) in *.
  destruct (file_path a) as [fp|].
  2:{ unfold_run H. injection H as <- <-. constructor. }
  destruct (PyStr.truthy fp); cbn [negb] in H.
  2:{ unfold_run H. injection H as <- <-. constructor. }
  unfold try_except in H. rewrite bind_exists in H. cbn [world start] in H.
  destruct (path_exists w (PurePath.parse u"/app") && _).
  - rewrite bind_exists in H. cbn [world start] in H.
    destruct (path_exists w (PROJECT_ROOT </> fp)); cbn [negb] in H.
    + match type of H with context [run_direct_latex_compilation ?t ?c ?b ?q ?s] =>
        destruct (run_direct_latex_compilation t c b q s) as [s1 [r1|e1]] eqn:Hd end.
      all: unfold ret in H; injection H as <- <-; eapply Hdirect; eauto.
    + rewrite bind_exists in H. cbn [world start] in H.
      match type of H with context [if ?c then _ else _] => destruct c end.
      * match type of H with context [run_direct_latex_compilation ?t ?c ?b ?q ?s] =>
          destruct (run_direct_latex_compilation t c b q s) as [s1 [r1|e1]] eqn:Hd end.
        all: unfold ret in H; injection H as <- <-; eapply Hdirect; eauto.
      * unfold_run H. injection H as <- <-. constructor.
  - unfold_run H.
    destruct (use_bibtex a), (quick a); cbn [negb] in H; repeat step H.
    all: injection H as <- <-; cbn [trace timeouts map tl ev_call subprocess.timeout].
    all: repeat constructor.
Qed.

(* --------------------------------------------------------------------- *)
(** *** Further properties of the dispatcher *)

Ltac plan_prefix :=
  cbn [commands map ev_call subprocess.args trace];
  unfold plan, docker_cmd, bibtex_docker_cmd, compile_cmd, bibtex_cmd, relative_str;
  repeat match goal with
         | Hrel : PurePath.relative_to ?p ?root = Ret _ |- _ => rewrite Hrel
         end;
  cbn [value_or app].

Ltac pick_plan :=
  first [ left; eexists; reflexivity | right; eexists; reflexivity ].

Ltac whole_plan :=
  first [ left; reflexivity | right; reflexivity ].

(** The world in which the first pass was started and the one it left. *)
Ltac first_pass_worlds :=
  match goal with
  | Hmk : path_mkdir _ _ = (_, Ret ?done),
    Hrun : spawn _ {| subprocess.args := _; subprocess.cwd := _;
                      subprocess.timeout := Some 180 |} = (_, Ret _) |- _ =>
      destruct done; eexists _, _, _;
      split; [first [exact Hmk | reflexivity]|];
      split; [unfold first_direct_call, compile_cmd, relative_str;
              repeat match goal with
                     | Hrel : PurePath.relative_to ?p ?root = Ret _ |- _ => rewrite Hrel
                     end;
              cbn [value_or]; exact Hrun|]
  end.

(** X2: the calls of a compilation in the container follow the plan, in
    order.  Whatever happens they are a beginning of the plan with or
    without the bibliography steps; and when the first pass exits with 0
    and no call raises they are the whole plan, with the bibliography steps
    exactly when [use_bibtex] was given and the auxiliary file exists in
    the world that the first pass left. *)
Theorem X2_container_calls_follow_plan tex compiler b q w st' r :
  run_direct_latex_compilation tex compiler b q (start w) = (st', r) ->
  (begins (commands (trace st')) (plan b q (compile_cmd tex compiler) (bibtex_cmd tex))
   \/ begins (commands (trace st'))
             (plan false q (compile_cmd tex compiler) (bibtex_cmd tex)))
  /\ (first_pass_ok (trace st') = true -> all_returned (trace st') = true ->
      exists w1 w2 c,
        path_mkdir w (PurePath.parent tex </> u"output") = (w1, Ret tt)
        /\ spawn w1 (first_direct_call tex compiler) = (w2, Ret c)
        /\ commands (trace st')
           = plan (b && path_exists w2 (expected_aux tex)) q
                  (compile_cmd tex compiler) (bibtex_cmd tex)).
Proof.
  unfold run_direct_latex_compilation. intros H. unfold_run H.
  destruct b, q; cbn [negb] in H; repeat step H.
  all: injection H as <- <-; split; [plan_prefix; pick_plan|].
  all: intros Hf Ha; observe; try discriminate; try congruence.
  all: first_pass_worlds.
  all: unfold expected_aux; cbn [andb];
       repeat match goal with
              | Hex : path_exists _ _ = _ |- context [plan (path_exists _ _)] => rewrite Hex
              end.
  all: plan_prefix; reflexivity.
Qed.

(** X1: on the host, the calls of a compilation follow the plan for the
    file, the compiler and the flags that the command line names, in order:
    whatever happens they are a beginning of it, and when the first pass
    exits with 0 and no call raises they are the whole of it (with the
    bibliography steps only if [-b] was given, and then only if the
    auxiliary file was there). *)
Theorem X1_host_calls_follow_plan original_cmd cwd w st' r fp :
  is_in_docker w = false ->
  file_path (parse_compile_args (tl original_cmd) default_compile_args) = Some fp ->
  run_docker_compilation original_cmd cwd (start w) = (st', r) ->
  (begins (commands (trace st'))
          (plan (use_bibtex (parse_compile_args (tl original_cmd) default_compile_args))
                (quick (parse_compile_args (tl original_cmd) default_compile_args))
                (docker_cmd (PROJECT_ROOT </> fp)
                   (compiler (parse_compile_args (tl original_cmd) default_compile_args)))
                (bibtex_docker_cmd (PROJECT_ROOT </> fp)))
   \/ begins (commands (trace st'))
             (plan false
                (quick (parse_compile_args (tl original_cmd) default_compile_args))
                (docker_cmd (PROJECT_ROOT </> fp)
                   (compiler (parse_compile_args (tl original_cmd) default_compile_args)))
                (bibtex_docker_cmd (PROJECT_ROOT </> fp))))
  /\ (first_pass_ok (trace st') = true -> all_returned (trace st') = true ->
      commands (trace st')
      = plan (use_bibtex (parse_compile_args (tl original_cmd) default_compile_args))
             (quick (parse_compile_args (tl original_cmd) default_compile_args))
             (docker_cmd (PROJECT_ROOT </> fp)
                (compiler (parse_compile_args (tl original_cmd) default_compile_args)))
             (bibtex_docker_cmd (PROJECT_ROOT </> fp))
      \/ commands (trace st')
         = plan false
             (quick (parse_compile_args (tl original_cmd) default_compile_args))
             (docker_cmd (PROJECT_ROOT </> fp)
                (compiler (parse_compile_args (tl original_cmd) default_compile_args)))
             (bibtex_docker_cmd (PROJECT_ROOT </> fp))).
Proof.
  unfold run_docker_compilation, is_in_docker. intros Hin Hfp H.
  set (a := parse_compile_args (tl original_cmd) default_compile_args) in *.
  rewrite Hfp in H.
  destruct (PyStr.truthy fp); cbn [negb] in H.
  2:{ unfold_run H. injection H as <- <-. split; [left; now eexists|discriminate]. }
  unfold try_except in H. rewrite bind_exists in H. cbn [world start] in H.
  rewrite Hin in H. unfold_run H.
  destruct (use_bibtex a), (quick a); cbn [negb] in H; repeat step H.
  all: injection H as <- <-; split; [plan_prefix; pick_plan|].
  all: intros Hf Ha; observe; try discriminate; try congruence.
  all: try output_dir_is_relative.
  all: plan_prefix; whole_plan.
Qed.

Lemma direct_abort tex compiler b q w st' r e rest c :
  run_direct_latex_compilation tex compiler b q (start w) = (st', Ret r) ->
  trace st' = e :: rest ->
  ev_outcome e = Ret c ->
  (subprocess.returncode c =? 0) = false ->
  rest = [] /\ success r = false
  /\ returncode r = subprocess.returncode c /\ stderr r = subprocess.stderr c.
Proof.
  unfold run_direct_latex_compilation. intros H Htr He Hc. unfold_run H.
  destruct b, q; cbn [negb] in H; repeat step H.
  all: injection H as <- <-; cbn [trace] in Htr; try discriminate.
  all: injection Htr as <- <-; cbn [ev_outcome] in He; try discriminate.
  all: injection He as <-; try congruence.
  all: cbn [success returncode stderr]; unfold append_if_any.
  all: destruct (subprocess.stderr _); repeat split; reflexivity.
Qed.

(** X3: when the first pass exits with a code other than 0, it is the only
    process started, and the result carries its exit code and its stderr
    text with success=false. *)
Theorem X3_failed_first_pass_ends_run original_cmd cwd w st' r e rest c :
  run_docker_compilation original_cmd cwd (start w) = (st', Ret r) ->
  trace st' = e :: rest ->
  ev_outcome e = Ret c ->
  (subprocess.returncode c =? 0) = false ->
  rest = [] /\ success r = false
  /\ returncode r = subprocess.returncode c /\ stderr r = subprocess.stderr c.
Proof.
  unfold run_docker_compilation. intros H Htr He Hc.
  set (a := parse_compile_args (tl original_cmd) default_compile_args) in *.
  destruct (file_path a) as [fp|].
  2:{ unfold_run H. injection H as <- <-. discriminate. }
  destruct (PyStr.truthy fp); cbn [negb] in H.
  2:{ unfold_run H. injection H as <- <-. discriminate. }
  unfold try_except in H. rewrite bind_exists in H. cbn [world start] in H.
  destruct (path_exists w (PurePath.parse u"/app") && _).
  - rewrite bind_exists in H. cbn [world start] in H.
    destruct (path_exists w (PROJECT_ROOT </> fp)); cbn [negb] in H.
    + match type of H with context [run_direct_latex_compilation ?t ?c ?b ?q ?s] =>
        destruct (run_direct_returns t c b q s) as (s1 & r1 & Hd) end.
      rewrite Hd in H. injection H as <- <-. eapply direct_abort; eauto.
    + rewrite bind_exists in H. cbn [world start] in H.
      match type of H with context [if ?c then _ else _] => destruct c end.
      * match type of H with context [run_direct_latex_compilation ?t ?c ?b ?q ?s] =>
          destruct (run_direct_returns t c b q s) as (s1 & r1 & Hd) end.
        rewrite Hd in H. injection H as <- <-. eapply direct_abort; eauto.
      * unfold_run H. injection H as <- <-. discriminate.
  - unfold_run H.
    destruct (use_bibtex a), (quick a); cbn [negb] in H; repeat step H.
    all: injection H as <- <-; cbn [trace] in Htr; try discriminate.
    all: injection Htr as <- <-; cbn [ev_outcome] in He; try discriminate.
    all: injection He as <-; try congruence.
    all: cbn [success returncode stderr]; unfold append_if_any.
    all: destruct (subprocess.stderr _); repeat split; reflexivity.
Qed.

Ltac enter_docker H a fp :=
  unfold run_docker_compilation in H;
  set (a := parse_compile_args (tl _) default_compile_args) in *;
  destruct (file_path a) as [fp|] eqn:?;
  [ destruct (PyStr.truthy fp) eqn:?; cbn [negb] in H;
    [ unfold try_except in H; rewrite bind_exists in H; cbn [world start] in H | ]
  | ].

Lemma direct_exit_code tex compiler b q st st' r :
  run_direct_latex_compilation tex compiler b q st = (st', Ret r) ->
  success r = (returncode r =? 0).
Proof.
  unfold run_direct_latex_compilation. intros H. unfold_run H.
  destruct b, q; cbn [negb] in H; repeat step H.
  all: injection H as <- <-; cbn [success returncode]; try reflexivity; congruence.
Qed.

Lemma docker_exit_code original_cmd cwd st st' r :
  run_docker_compilation original_cmd cwd st = (st', Ret r) ->
  success r = (returncode r =? 0).
Proof.
  intros H. enter_docker H a fp.
  3:{ unfold_run H. injection H as <- <-. reflexivity. }
  2:{ unfold_run H. injection H as <- <-. reflexivity. }
  destruct (path_exists (world st) (PurePath.parse u"/app") && _).
  - rewrite bind_exists in H.
    destruct (path_exists (world st) (PROJECT_ROOT </> fp)); cbn [negb] in H.
    + match type of H with context [run_direct_latex_compilation ?t ?c ?b ?q ?s] =>
        destruct (run_direct_returns t c b q s) as (s1 & r1 & Hd) end.
      rewrite Hd in H. injection H as <- <-. eapply direct_exit_code; eauto.
    + rewrite bind_exists in H.
      match type of H with context [if ?c then _ else _] => destruct c end.
      * match type of H with context [run_direct_latex_compilation ?t ?c ?b ?q ?s] =>
          destruct (run_direct_returns t c b q s) as (s1 & r1 & Hd) end.
        rewrite Hd in H. injection H as <- <-. eapply direct_exit_code; eauto.
      * unfold_run H. injection H as <- <-. reflexivity.
  - unfold_run H.
    destruct (use_bibtex a), (quick a); cbn [negb] in H; repeat step H.
    all: injection H as <- <-; cbn [success returncode]; try reflexivity; congruence.
Qed.

Lemma direct_success_pdf tex compiler b q st st' r :
  run_direct_latex_compilation tex compiler b q st = (st', Ret r) ->
  success r = true ->
  path_exists (world st') (expected_pdf tex) = true.
Proof.
  unfold run_direct_latex_compilation, expected_pdf. intros H Hs. unfold_run H.
  destruct b, q; cbn [negb] in H; repeat step H.
  all: injection H as <- <-; cbn [success world] in *; try discriminate; assumption.
Qed.

(** A successful compilation of a file that exists under the root leaves
    the expected PDF in the world it returns. *)
Lemma docker_success_pdf original_cmd cwd st st' r fp :
  file_path (parse_compile_args (tl original_cmd) default_compile_args) = Some fp ->
  path_exists (world st) (PROJECT_ROOT </> fp) = true ->
  run_docker_compilation original_cmd cwd st = (st', Ret r) ->
  success r = true ->
  path_exists (world st') (expected_pdf (PROJECT_ROOT </> fp)) = true.
Proof.
  intros Hfp Hex H Hs. enter_docker H a fp'.
  3:{ discriminate. }
  2:{ unfold_run H. injection H as <- <-. discriminate. }
  injection Hfp as ->.
  destruct (path_exists (world st) (PurePath.parse u"/app") && _).
  - rewrite bind_exists in H. rewrite Hex in H. cbn [negb] in H.
    match type of H with context [run_direct_latex_compilation ?t ?c ?b ?q ?s] =>
      destruct (run_direct_returns t c b q s) as (s1 & r1 & Hd) end.
    rewrite Hd in H. injection H as <- <-. eapply direct_success_pdf; eauto.
  - unfold expected_pdf. unfold_run H. rewrite Hex in H. cbn [negb] in H.
    destruct (use_bibtex a), (quick a); cbn [negb] in H; repeat step H.
    all: injection H as <- <-; cbn [success world] in *; try discriminate; assumption.
Qed.

(** X6: when the target file is neither under the project root nor, inside
    the container, at the [/workspace] variant of its path, the dispatcher
    answers "File not found" with returncode 1 and leaves the state as it
    was: no directory is made and no process is started. *)
Theorem X6_missing_file_starts_nothing original_cmd cwd st fp :
  file_path (parse_compile_args (tl original_cmd) default_compile_args) = Some fp ->
  PyStr.truthy fp = true ->
  path_exists (world st) (PROJECT_ROOT </> fp) = false ->
  is_in_docker (world st)
  && path_exists (world st) (workspace_variant (PROJECT_ROOT </> fp)) = false ->
  run_docker_compilation original_cmd cwd st
  = (st, Ret {| success := false; returncode := 1; stdout := [];
                stderr := u"File not found: " ++ fp |}).
Proof.
  unfold run_docker_compilation, is_in_docker, workspace_variant.
  intros Hfp Ht Hex Hw. rewrite Hfp, Ht. cbn [negb].
  unfold try_except. rewrite bind_exists.
  destruct (path_exists (world st) (PurePath.parse u"/app") && _); cbn [andb] in Hw.
  - rewrite bind_exists, Hex. cbn [negb]. rewrite bind_exists, Hw. reflexivity.
  - rewrite bind_exists, Hex. reflexivity.
Qed.

Ltac gather_stderr :=
  cbn [stderr stderr_texts flat_map ev_outcome trace app]; unfold append_if_any;
  repeat match goal with
         | |- context [PyStr.truthy ?s] => destruct (PyStr.truthy s)
         end;
  cbn [app]; reflexivity.

Lemma direct_stderr tex compiler b q w st' r :
  run_direct_latex_compilation tex compiler b q (start w) = (st', Ret r) ->
  (0 <? List.length (trace st'))%nat = true ->
  all_returned (trace st') = true ->
  stderr r = PyStr.join nl (stderr_texts (trace st')).
Proof.
  unfold run_direct_latex_compilation. intros H Hn Ha. unfold_run H.
  destruct b, q; cbn [negb] in H; repeat step H.
  all: injection H as <- <-; cbn [trace List.length] in Hn; try discriminate.
  all: observe; try discriminate.
  all: gather_stderr.
Qed.

(** X5: when at least one process was started and none raised, the stderr
    of the result is the stderr texts of the calls, in the order of the
    calls, the empty ones left out, joined by newlines. *)
Theorem X5_stderr_is_collected original_cmd cwd w st' r :
  run_docker_compilation original_cmd cwd (start w) = (st', Ret r) ->
  (0 <? List.length (trace st'))%nat = true ->
  all_returned (trace st') = true ->
  stderr r = PyStr.join nl (stderr_texts (trace st')).
Proof.
  intros H Hn Ha. enter_docker H a fp.
  3:{ unfold_run H. injection H as <- <-. discriminate. }
  2:{ unfold_run H. injection H as <- <-. discriminate. }
  destruct (path_exists w (PurePath.parse u"/app") && _).
  - rewrite bind_exists in H. cbn [world start] in H.
    destruct (path_exists w (PROJECT_ROOT </> fp)); cbn [negb] in H.
    + match type of H with context [run_direct_latex_compilation ?t ?c ?b ?q ?s] =>
        destruct (run_direct_returns t c b q s) as (s1 & r1 & Hd) end.
      rewrite Hd in H. injection H as <- <-. eapply direct_stderr; eauto.
    + rewrite bind_exists in H. cbn [world start] in H.
      match type of H with context [if ?c then _ else _] => destruct c end.
      * match type of H with context [run_direct_latex_compilation ?t ?c ?b ?q ?s] =>
          destruct (run_direct_returns t c b q s) as (s1 & r1 & Hd) end.
        rewrite Hd in H. injection H as <- <-. eapply direct_stderr; eauto.
      * unfold_run H. injection H as <- <-. discriminate.
  - unfold_run H.
    destruct (use_bibtex a), (quick a); cbn [negb] in H; repeat step H.
    all: injection H as <- <-; cbn [trace List.length] in Hn; try discriminate.
    all: observe; try discriminate.
    all: try output_dir_is_relative.
    all: gather_stderr.
Qed.

End EffectProps.

(* ===================================================================== *)
(** ** The process runner and the handlers *)
(* ===================================================================== *)

Section HandlerProps.
Context {E : Env}.

Lemma run_docker_returns cmd cwd st :
  exists st' r, run_docker_compilation cmd cwd st = (st', Ret r).
Proof.
  unfold run_docker_compilation, try_except.
  match goal with |- context [match ?m st with _ => _ end] => destruct (m st) as [st1 [r|e]] end.
  - eauto.
  - unfold ret. eauto.
Qed.

Lemma run_command_returns cmd cwd st :
  exists st' r, run_command cmd cwd st = (st', Ret r).
Proof.
  unfold run_command, try_except.
  match goal with |- context [match ?m st with _ => _ end] => destruct (m st) as [st1 [r|[t|t]]] end;
  unfold ret; eauto.
Qed.

(** C5 (as amended): [run_command] always returns a result and never
    raises.  For a command other than compile.sh, a timeout gives
    success=false, returncode=-1 and the stderr text "Command timed out
    after 5 minutes", and any other exception gives success=false,
    returncode=-1 and the exception's text as stderr.  A compile.sh command
    is handed to [run_docker_compilation], whose result is returned as it
    is. *)
Theorem C5_runner_converts_failures cmd cwd st :
  (exists st' r, run_command cmd cwd st = (st', Ret r))
  /\ (is_compile_script cmd = false ->
      forall w' text,
        spawn (world st) (generic_call cmd cwd) = (w', Raise (TimeoutExpired text)) ->
        snd (run_command cmd cwd st)
        = Ret {| success := false; returncode := -1; stdout := [];
                 stderr := u"Command timed out after 5 minutes" |})
  /\ (is_compile_script cmd = false ->
      forall w' text,
        spawn (world st) (generic_call cmd cwd) = (w', Raise (Exception text)) ->
        snd (run_command cmd cwd st)
        = Ret {| success := false; returncode := -1; stdout := []; stderr := text |})
  /\ (is_compile_script cmd = true ->
      run_command cmd cwd st = run_docker_compilation cmd cwd st).
Proof.
  split; [apply run_command_returns|].
  unfold run_command, generic_call, try_except, bind, subprocess_run.
  repeat split; intros Hc; rewrite Hc.
  - intros w' text Hs. rewrite Hs. reflexivity.
  - intros w' text Hs. rewrite Hs. reflexivity.
  - destruct (run_docker_returns cmd cwd st) as (st' & r & ->). reflexivity.
Qed.

(** C9: deleting an existing directory that has no main.tex answers 400
    "Invalid project directory" and leaves the state as it was: no file is
    touched and no process is started. *)
Theorem C9_delete_needs_main_tex project_path st :
  path_exists (world st) (PROJECT_ROOT </> project_path) = true ->
  path_is_dir (world st) (PROJECT_ROOT </> project_path) = true ->
  path_exists (world st) (PROJECT_ROOT </> project_path </> u"main.tex") = false ->
  delete_project project_path st
  = (st, Ret ({| ApiResponse.success := false;
                 ApiResponse.message := u"Invalid project directory";
                 ApiResponse.data := None;
                 ApiResponse.errors :=
                   Some [u"Directory does not contain main.tex: " ++ project_path] |},
              400)).
Proof.
  intros Hex Hdir Hmain.
  unfold delete_project, try_except, bind, exists_, is_dir, reply, ret.
  rewrite Hex. cbn [negb]. rewrite Hdir. cbn [negb]. rewrite Hmain. reflexivity.
Qed.


(** C8 (as amended): the error lines kept are the first 10 matching lines
    of the log, in order, each with the white space at its ends removed; a
    line matches when it begins with "!" or contains "error" in any letter
    case.  The block never raises: a missing log, or one that cannot be
    read, gives no log information, and when it gives some, its error lines
    are those of the content read. *)
Theorem C8_log_lines_trimmed_and_capped :
  (forall log_content,
     firstn 10 (collect_error_lines log_content)
     = map PyStr.strip (matching_lines log_content))
  /\ (forall line,
        is_error_line line
        = PyStr.startswith u"!" line || PyStr.contains u"error" (lower line))
  /\ (forall file_path result st,
        exists info,
          compile_document_log_info file_path result st = (st, Ret info)
          /\ (path_exists (world st) (log_path_of file_path) = false -> info = None)
          /\ (forall e, path_read_text (world st) (log_path_of file_path) = Raise e ->
                        info = None)
          /\ (forall li, info = Some li ->
                exists log_content,
                  path_read_text (world st) (log_path_of file_path) = Ret log_content
                  /\ error_lines li = map PyStr.strip (matching_lines log_content))).
Proof.
  assert (Hlines : forall log_content,
     firstn 10 (collect_error_lines log_content)
     = map PyStr.strip (matching_lines log_content)).
  { intros c. unfold collect_error_lines, matching_lines.
    rewrite collect_fold. cbn [app]. apply firstn_map_comm. }
  split; [exact Hlines|]. split; [apply is_error_line_two|].
  intros file_path result st.
  unfold compile_document_log_info, try_except, bind, exists_, read_text, stat_size, lift, ret.
  fold (log_path_of file_path).
  destruct (path_exists (world st) (log_path_of file_path)) eqn:Hex; cbn [andb].
  2:{ exists None. repeat split; try discriminate. }
  destruct (success result); cbn [negb].
  { exists None. repeat split; try discriminate. }
  destruct (path_read_text (world st) (log_path_of file_path)) as [c|e] eqn:Hread.
  2:{ exists None. repeat split; try discriminate. }
  destruct (PurePath.relative_to (log_path_of file_path) PROJECT_ROOT) as [rel|e].
  2:{ exists None. repeat split; try discriminate. }
  destruct (path_stat_size (world st) (log_path_of file_path)) as [sz|e].
  2:{ exists None. repeat split; try discriminate. }
  eexists. split; [reflexivity|]. repeat split; try discriminate.
  intros li [= <-]. exists c. split; [reflexivity|]. apply Hlines.
Qed.
End HandlerProps.

(* ===================================================================== *)
(** ** From the compile request to the dispatcher *)
(* ===================================================================== *)

Section RequestProps.
Context {E : Env}.

Lemma pystr_eqb_eq a b : PyStr.eqb a b = true -> a = b.
Proof.
  revert b. induction a as [|x a IH]; intros [|y b] H; try discriminate; [reflexivity|].
  cbn in H. apply andb_true_iff in H as [Hx Hab].
  apply Z.eqb_eq in Hx as ->. now rewrite (IH _ Hab).
Qed.

Lemma not_a_flag s t :
  PyStr.startswith u"-" s = false -> PyStr.eqb s (45 :: t) = false.
Proof.
  destruct s as [|c s]; [reflexivity|].
  change (u"-") with [45]. cbn [PyStr.startswith PyStr.eqb].
  rewrite andb_true_r. intros H. now rewrite Z.eqb_sym, H.
Qed.

(** The command line that [compile_document] builds is read back by
    [run_docker_compilation] as the request's own fields, provided the
    file path does not begin with a dash. *)
Lemma parse_compile_command req :
  PyStr.startswith u"-" (req_file_path req) = false ->
  parse_compile_args (tl (compile_command req)) default_compile_args
  = {| file_path := Some (req_file_path req);
       compiler := req_compiler req;
       use_bibtex := req_use_bibtex req;
       quick := req_quick req |}.
Proof.
  intros Hfp. unfold compile_command. cbn [app tl parse_compile_args].
  change (u"-c") with [45; 99]. change (u"-b") with [45; 98].
  change (u"-q") with [45; 113]. change (u"-o") with [45; 111].
  cbn [app tl parse_compile_args].
  rewrite !(not_a_flag _ _ Hfp), Hfp. cbn [negb].
  destruct (PyStr.eqb (req_compiler req) u"lualatex") eqn:Hc; cbn [negb app].
  - apply pystr_eqb_eq in Hc. rewrite Hc.
    destruct (req_use_bibtex req), (req_quick req), (req_open_pdf req), (req_watch req);
      reflexivity.
  - destruct (req_use_bibtex req), (req_quick req), (req_open_pdf req), (req_watch req);
      reflexivity.
Qed.

Lemma join_snoc sep l x :
  exists pre, PyStr.join sep (l ++ [x]) = pre ++ x.
Proof.
  induction l as [|y l [pre IH]].
  - now exists [].
  - destruct l as [|z l].
    + exists (y ++ sep). cbn. now rewrite <- app_assoc.
    + exists (y ++ sep ++ pre).
      change (PyStr.join sep ((y :: z :: l) ++ [x]))
        with (y ++ sep ++ PyStr.join sep ((z :: l) ++ [x])).
      rewrite IH. now rewrite <- !app_assoc.
Qed.

(** [compile_document] always reaches the dispatcher: the first word of its
    command line contains "compile.sh". *)
Lemma compile_command_is_compile_script req :
  is_compile_script (compile_command req) = true.
Proof.
  unfold compile_command. cbn [app is_compile_script].
  assert (Hj : SCRIPTS_DIR </> u"compile.sh"
               = {| absolute := absolute SCRIPTS_DIR;
                    parts := parts SCRIPTS_DIR ++ [u"compile.sh"] |}) by reflexivity.
  rewrite Hj. unfold PurePath.to_str. cbn [absolute parts].
  destruct (join_snoc u"/" (parts SCRIPTS_DIR) u"compile.sh") as [pre Hpre].
  destruct (absolute SCRIPTS_DIR).
  - rewrite Hpre, app_assoc.
    rewrite <- (app_nil_r u"compile.sh") at 2. apply contains_intro.
  - destruct (parts SCRIPTS_DIR ++ [u"compile.sh"]) eqn:Hp.
    + destruct (parts SCRIPTS_DIR); discriminate.
    + rewrite Hpre.
      rewrite <- (app_nil_r u"compile.sh") at 2. apply contains_intro.
Qed.

End RequestProps.

(* ===================================================================== *)
(** ** The reading of a report line *)
(* ===================================================================== *)

Section ReadingProps.
Context {E : Env}.

(** [startswith] looks at as many code points as the prefix has. *)
Lemma startswith_firstn p s :
  PyStr.startswith p s = true <-> firstn (List.length p) s = p.
Proof.
  revert s. induction p as [|x p IH]; intros s; cbn [PyStr.startswith List.length firstn].
  - split; reflexivity.
  - destruct s as [|y s]; [split; discriminate|].
    rewrite andb_true_iff, Z.eqb_eq, IH. split.
    + intros [-> ->]. reflexivity.
    + intros [= -> H]. now rewrite H.
Qed.

(** An occurrence that starts inside [x] lies in [x] followed by all but
    one of as many code points as [sep] has. *)
Lemma startswith_inside sep c x s :
  PyStr.startswith sep (c :: x ++ s) = true ->
  PyStr.startswith sep (c :: x ++ firstn (Nat.pred (List.length sep)) s) = true.
Proof.
  rewrite !startswith_firstn. intros H.
  destruct sep as [|d sep]; [reflexivity|].
  cbn [List.length Nat.pred firstn] in *. injection H as -> H. f_equal.
  rewrite firstn_app in H. rewrite firstn_app, firstn_firstn.
  rewrite Nat.min_l by lia. exact H.
Qed.

Lemma split_from_skip sep a s cur :
  PyStr.split_from sep (a ++ s) (List.length a) cur = PyStr.split_from sep s 0 cur.
Proof.
  induction a as [|c a IH]; [reflexivity|]. cbn [app List.length PyStr.split_from].
  exact IH.
Qed.

(** Where no occurrence starts, the piece goes on. *)
Lemma split_from_inside sep x s cur :
  PyStr.contains sep (x ++ firstn (Nat.pred (List.length sep)) s) = false ->
  PyStr.split_from sep (x ++ s) 0 cur = PyStr.split_from sep s 0 (rev x ++ cur).
Proof.
  revert cur. induction x as [|c x IH]; intros cur H; [reflexivity|].
  cbn [app PyStr.contains] in H. apply orb_false_iff in H as [Hs Hc].
  cbn [app PyStr.split_from].
  destruct (PyStr.startswith sep (c :: x ++ s)) eqn:Hsw.
  - apply startswith_inside in Hsw. congruence.
  - rewrite IH by exact Hc. cbn [rev]. now rewrite <- app_assoc.
Qed.

(** At an occurrence the piece ends. *)
Lemma split_from_at sep s cur :
  sep <> [] ->
  PyStr.split_from sep (sep ++ s) 0 cur = rev cur :: PyStr.split_from sep s 0 [].
Proof.
  intros Hne. destruct sep as [|c sep]; [congruence|].
  cbn [app]. cbn [PyStr.split_from].
  change (c :: sep ++ s) with ((c :: sep) ++ s). rewrite startswith_app.
  cbn [List.length Nat.pred]. now rewrite split_from_skip.
Qed.

(** The first piece begins with what was read. *)
Lemma split_from_head sep s cur :
  exists p rest, PyStr.split_from sep s 0 cur = (rev cur ++ p) :: rest.
Proof.
  revert cur. induction s as [|c s IH]; intros cur.
  - exists [], []. cbn. now rewrite app_nil_r.
  - cbn [PyStr.split_from]. destruct (PyStr.startswith sep (c :: s)).
    + eexists [], _. now rewrite app_nil_r.
    + destruct (IH (c :: cur)) as (p & rest & ->).
      exists (c :: p), rest. cbn [rev]. now rewrite <- app_assoc.
Qed.

Lemma removelast_firstn_pred (l : str) :
  removelast l = firstn (Nat.pred (List.length l)) l.
Proof.
  destruct l as [|x l]; [reflexivity|]. cbn [List.length Nat.pred].
  rewrite removelast_firstn_len. cbn [List.length Nat.pred]. reflexivity.
Qed.

(** The text up to the first occurrence is the first piece. *)
Lemma split_first_occurrence sep pre post :
  sep <> [] ->
  PyStr.contains sep (pre ++ removelast sep) = false ->
  PyStr.split sep (pre ++ sep ++ post) = pre :: PyStr.split sep post.
Proof.
  intros Hne H. unfold PyStr.split. rewrite split_from_inside.
  - rewrite split_from_at by exact Hne. rewrite app_nil_r, rev_involutive. reflexivity.
  - rewrite removelast_firstn_pred in H.
    rewrite firstn_app.
    replace (Nat.pred (List.length sep) - List.length sep)%nat with 0%nat by lia.
    cbn [firstn]. now rewrite app_nil_r.
Qed.

(** The piece that begins at [seg] and meets the end of the line, the
    separator or the counter word is [seg], or [seg] and the counter word
    with more. *)
Lemma piece_after marker seg rest :
  marker <> [] ->
  PyStr.contains marker (seg ++ firstn (Nat.pred (List.length marker)) rest) = false ->
  rest = [] \/ PyStr.startswith marker rest = true
  \/ PyStr.startswith counter_word rest = true ->
  exists p, item (PyStr.split marker (seg ++ rest)) 0 = seg ++ p
            /\ (p = [] \/ exists p', p = counter_word ++ p').
Proof.
  intros Hne Hin Hrest. unfold PyStr.split. rewrite split_from_inside by exact Hin.
  rewrite app_nil_r.
  destruct (PyStr.startswith marker rest) eqn:Hm.
  - destruct (startswith_split _ _ Hm) as [post ->].
    rewrite split_from_at by exact Hne. rewrite rev_involutive.
    exists []. rewrite app_nil_r. split; [reflexivity | now left].
  - destruct Hrest as [-> | [Hr | Hr]]; [|discriminate|].
    + cbn. rewrite rev_involutive. exists []. rewrite app_nil_r.
      split; [reflexivity | now left].
    + destruct (startswith_split _ _ Hr) as [post ->].
      change counter_word with [20491] in *. cbn [app] in *.
      cbn [PyStr.split_from]. rewrite Hm.
      destruct (split_from_head marker post (20491 :: rev seg)) as (p & tl & ->).
      cbn [rev item nth]. rewrite rev_involutive.
      exists (20491 :: p). rewrite <- app_assoc. split; [reflexivity|].
      right. now exists p.
Qed.

Lemma before_counter_word seg p :
  PyStr.contains counter_word seg = false ->
  p = [] \/ (exists p', p = counter_word ++ p') ->
  item (PyStr.split counter_word (seg ++ p)) 0 = seg.
Proof.
  intros Hc Hp.
  assert (Hin : PyStr.contains counter_word
                  (seg ++ firstn (Nat.pred (List.length counter_word)) p) = false).
  { change (Nat.pred (List.length counter_word)) with 0%nat. cbn [firstn].
    now rewrite app_nil_r. }
  unfold PyStr.split. rewrite split_from_inside by exact Hin. rewrite app_nil_r.
  destruct Hp as [-> | [p' ->]].
  - cbn. now rewrite rev_involutive.
  - rewrite split_from_at by discriminate. cbn [item nth]. now rewrite rev_involutive.
Qed.

(** The count of a report line is read from its count text. *)
Lemma count_after_text marker line seg :
  marker <> [] ->
  count_text marker line seg ->
  count_after marker line = py_int (PyStr.strip seg).
Proof.
  intros Hne (pre & rest & -> & Hpre & Hseg & Hcw & Hrest).
  unfold count_after. rewrite split_first_occurrence by assumption.
  change (item (pre :: ?l) 1) with (item l 0).
  destruct (piece_after marker seg rest Hne Hseg Hrest) as (p & -> & Hp).
  now rewrite before_counter_word.
Qed.

Lemma startswith_more p a b :
  PyStr.startswith p a = true -> PyStr.startswith p (a ++ b) = true.
Proof.
  intros H. destruct (startswith_split _ _ H) as [post ->].
  rewrite <- app_assoc. apply startswith_app.
Qed.

Lemma contains_length sub s :
  PyStr.contains sub s = true -> (List.length sub <= List.length s)%nat.
Proof.
  intros H. destruct (contains_split _ _ H) as (pre & post & ->).
  rewrite !length_app. lia.
Qed.

(** A text shorter than [sep] holds no occurrence of it. *)
Lemma contains_short sep s :
  (List.length s < List.length sep)%nat -> PyStr.contains sep s = false.
Proof.
  intros Hlen. destruct (PyStr.contains sep s) eqn:H; [|reflexivity].
  apply contains_length in H. lia.
Qed.

Lemma first_occurrence sep line :
  sep <> [] ->
  PyStr.contains sep line = true ->
  exists pre post,
    line = pre ++ sep ++ post /\ PyStr.contains sep (pre ++ removelast sep) = false.
Proof.
  intros Hne. induction line as [|c line IH]; intros H.
  - destruct sep; [congruence | discriminate].
  - destruct (PyStr.startswith sep (c :: line)) eqn:Hsw.
    + destruct (startswith_split _ _ Hsw) as [post ->].
      exists [], post. split; [reflexivity|]. apply contains_short. cbn [app].
      destruct sep as [|d sep]; [congruence|].
      rewrite removelast_firstn_len, length_firstn. cbn [List.length]. lia.
    + cbn [PyStr.contains] in H. rewrite Hsw in H. cbn [orb] in H.
      destruct (IH H) as (pre & post & -> & Hpre).
      exists (c :: pre), post. split; [reflexivity|].
      cbn [app PyStr.contains]. rewrite Hpre, orb_false_r.
      destruct (PyStr.startswith sep (c :: pre ++ removelast sep)) eqn:Hs; [|reflexivity].
      apply (startswith_more _ _ ([last sep 0] ++ post)) in Hs.
      assert (Heq : (c :: pre ++ removelast sep) ++ [last sep 0] ++ post
                    = c :: pre ++ sep ++ post).
      { cbn [app]. f_equal. rewrite <- app_assoc. f_equal.
        change (last sep 0 :: post) with ([last sep 0] ++ post).
        rewrite app_assoc. now rewrite <- app_removelast_last. }
      rewrite Heq in Hs. congruence.
Qed.

Lemma count_text_from marker post :
  marker <> [] ->
  exists seg rest,
    post = seg ++ rest
    /\ PyStr.contains marker (seg ++ firstn (Nat.pred (List.length marker)) rest) = false
    /\ PyStr.contains counter_word seg = false
    /\ (rest = []
        \/ PyStr.startswith marker rest = true
        \/ PyStr.startswith counter_word rest = true).
Proof.
  intros Hne. induction post as [|c post IH].
  - exists [], []. repeat split; [|now left].
    apply contains_short. rewrite firstn_nil.
    destruct marker; [congruence | cbn [app List.length]; lia].
  - assert (Hhere : PyStr.contains marker
                      ([] ++ firstn (Nat.pred (List.length marker)) (c :: post)) = false).
    { apply contains_short. cbn [app]. rewrite length_firstn.
      destruct marker; [congruence | cbn [List.length Nat.pred]; lia]. }
    destruct (PyStr.startswith marker (c :: post)) eqn:Hm.
    { exists [], (c :: post). repeat split; [exact Hhere | now right; left]. }
    destruct (PyStr.startswith counter_word (c :: post)) eqn:Hc.
    { exists [], (c :: post). repeat split; [exact Hhere | now right; right]. }
    destruct IH as (seg & rest & -> & Hseg & Hcw & Hrest).
    exists (c :: seg), rest. split; [reflexivity|]. split; [|split; [|exact Hrest]].
    + cbn [app PyStr.contains]. rewrite Hseg, orb_false_r.
      destruct (PyStr.startswith marker (c :: seg ++ firstn _ rest)) eqn:Hs; [|reflexivity].
      apply (startswith_more _ _ (skipn (Nat.pred (List.length marker)) rest)) in Hs.
      cbn [app] in Hs. rewrite <- app_assoc, firstn_skipn in Hs. congruence.
    + cbn [PyStr.contains]. rewrite Hcw, orb_false_r.
      destruct (PyStr.startswith counter_word (c :: seg)) eqn:Hs; [|reflexivity].
      change (c :: seg ++ rest) with ((c :: seg) ++ rest) in Hc.
      rewrite (startswith_more _ _ _ Hs) in Hc. discriminate.
Qed.

(** Every line that carries the marker has a count text. *)
Lemma count_text_exists marker line :
  marker <> [] ->
  PyStr.contains marker line = true ->
  exists seg, count_text marker line seg.
Proof.
  intros Hne H. destruct (first_occurrence _ _ Hne H) as (pre & post & -> & Hpre).
  destruct (count_text_from marker post Hne) as (seg & rest & -> & Hseg & Hcw & Hrest).
  exists seg, pre, rest. repeat split; assumption.
Qed.

(** *** The conversion *)

Lemma decimal_digit_ascii c :
  (48 <=? c) && (c <=? 57) = true -> decimal_digit c = Some (c - 48).
Proof. unfold decimal_digit. now intros ->. Qed.

Lemma int_digits_run ds acc :
  ascii_digits ds = true ->
  int_digits ds acc true = Some (fold_left (fun a c => a * 10 + (c - 48)) ds acc).
Proof.
  revert acc. induction ds as [|c ds IH]; intros acc H; [reflexivity|].
  cbn [ascii_digits forallb] in H. apply andb_true_iff in H as [Hc Hds].
  cbn [int_digits fold_left]. rewrite (decimal_digit_ascii _ Hc). now apply IH.
Qed.

Lemma int_digits_ascii ds :
  ds <> [] -> ascii_digits ds = true ->
  int_digits ds 0 false = Some (decimal_value ds).
Proof.
  intros Hne H. destruct ds as [|c ds]; [congruence|].
  cbn [ascii_digits forallb] in H. apply andb_true_iff in H as [Hc Hds].
  unfold decimal_value. cbn [int_digits fold_left].
  rewrite (decimal_digit_ascii _ Hc). now apply int_digits_run.
Qed.

(** The literals that the interpreter's limit on digits leaves alone. *)
Lemma within_limit (s : str) :
  (List.length s <= 640)%nat ->
  negb (int_max_str_digits =? 0)%nat
  && (int_max_str_digits
      <? List.length (filter (fun c => match decimal_digit c with
                                       | Some _ => true | None => false end) s))%nat
  && (640 <? List.length (filter (fun c => match decimal_digit c with
                                           | Some _ => true | None => false end) s))%nat
  = false.
Proof.
  intros Hlen. apply andb_false_iff. right. apply Nat.ltb_ge.
  etransitivity; [apply filter_length_le | exact Hlen].
Qed.

(** A literal that begins with neither sign is read as it stands. *)
Lemma unsigned_literal (s : str) :
  hd 0 s <> 43 -> hd 0 s <> 45 ->
  match s with
  | 43 :: d => int_digits d 0 false
  | 45 :: d => option_map Z.opp (int_digits d 0 false)
  | d => int_digits d 0 false
  end = int_digits s 0 false.
Proof.
  intros H1 H2. destruct s as [|c d]; [reflexivity|]. cbn [hd] in *.
  destruct c as [|p|p]; try reflexivity.
  do 6 (destruct p as [p|p|]; try reflexivity; try congruence).
Qed.

Lemma py_int_digits ds :
  ds <> [] -> ascii_digits ds = true -> (List.length ds <= 640)%nat ->
  py_int ds = Some (decimal_value ds)
  /\ py_int (43 :: ds) = Some (decimal_value ds)
  /\ py_int (45 :: ds) = Some (- decimal_value ds).
Proof.
  intros Hne H Hlen. split; [|split].
  - unfold py_int. rewrite within_limit by exact Hlen.
    rewrite unsigned_literal; [now apply int_digits_ascii| |].
    all: destruct ds as [|c ds]; [congruence|].
    all: cbn [ascii_digits forallb] in H; apply andb_true_iff in H as [Hc _].
    all: cbn [hd]; lia.
  - unfold py_int. cbn [filter decimal_digit].
    change (decimal_digit 43) with (@None Z). cbn iota.
    rewrite within_limit by exact Hlen.
    now apply int_digits_ascii.
  - unfold py_int. cbn [filter decimal_digit].
    change (decimal_digit 45) with (@None Z). cbn iota.
    rewrite within_limit by exact Hlen.
    now rewrite int_digits_ascii.
Qed.

Lemma int_digits_foreign d acc prev :
  existsb foreign_ascii d = true -> int_digits d acc prev = None.
Proof.
  revert acc prev. induction d as [|c d IH]; intros acc prev H; [discriminate|].
  cbn [existsb] in H. cbn [int_digits]. unfold decimal_digit.
  destruct (foreign_ascii c) eqn:Hc.
  - unfold foreign_ascii in Hc. repeat (apply andb_true_iff in Hc as [Hc ?]).
    destruct ((48 <=? c) && (c <=? 57)); [discriminate|]. rewrite Hc.
    destruct (c =? 95); [discriminate | reflexivity].
  - cbn [orb] in H.
    destruct ((48 <=? c) && (c <=? 57)); [now apply IH|].
    destruct (c <? 128).
    + destruct ((c =? 95) && prev); [now apply IH | reflexivity].
    + destruct (unicode_decimal c); [now apply IH|].
      destruct ((c =? 95) && prev); [now apply IH | reflexivity].
Qed.

Lemma py_int_foreign s :
  s = [] \/ existsb foreign_ascii s = true -> py_int s = None.
Proof.
  intros H. unfold py_int.
  match goal with |- (if ?c then _ else _) = _ => destruct c; [reflexivity|] end.
  destruct H as [-> | H]; [reflexivity|].
  destruct (Z.eq_dec (hd 0 s) 43) as [H43|H43].
  { destruct s as [|c d]; [discriminate|]. cbn [hd] in H43. subst c.
    cbn [existsb] in H. change (foreign_ascii 43) with false in H.
    now apply int_digits_foreign. }
  destruct (Z.eq_dec (hd 0 s) 45) as [H45|H45].
  { destruct s as [|c d]; [discriminate|]. cbn [hd] in H45. subst c.
    cbn [existsb] in H. change (foreign_ascii 45) with false in H.
    cbn [orb] in H. now rewrite int_digits_foreign. }
  rewrite unsigned_literal by assumption.
  now apply int_digits_foreign.
Qed.

(** *** The ordinals *)

Lemma ordinal_prefixes s :
  starts_with_ordinal s = true
  <-> exists d rest, s = d :: 46 :: rest /\ 49 <= d <= 53.
Proof.
  unfold starts_with_ordinal.
  change [u"1."; u"2."; u"3."; u"4."; u"5."]
    with [[49; 46]; [50; 46]; [51; 46]; [52; 46]; [53; 46]].
  split.
  - intros H. apply existsb_exists in H as (p & Hin & Hp).
    destruct (startswith_split _ _ Hp) as [rest ->].
    cbn [In] in Hin.
    destruct Hin as [<-|[<-|[<-|[<-|[<-|[]]]]]]; eexists _, rest; (split; [reflexivity | lia]).
  - intros (d & rest & -> & Hd).
    assert (Hcases : d = 49 \/ d = 50 \/ d = 51 \/ d = 52 \/ d = 53) by lia.
    destruct Hcases as [->|[->|[->|[->| ->]]]]; reflexivity.
Qed.

End ReadingProps.

(* ===================================================================== *)
(** ** The claims on the quality parser *)
(* ===================================================================== *)

Section QualityProps.
Context {E : Env}.

(** The counts are those of the last reports that convert, and the
    suggestions the trimmed lines of their kind. *)
Lemma counts_from_last_report output :
  errors (parse_quality_output output)
  = last (parsed_counts error_marker
            (error_report_lines (PyStr.split nl output))) 0
  /\ warnings (parse_quality_output output)
     = last (parsed_counts warning_marker
               (warning_report_lines (PyStr.split nl output))) 0
  /\ found (parse_quality_output output)
     = map PyStr.strip (suggestion_lines (PyStr.split nl output)).
Proof.
  unfold parse_quality_output. rewrite fold_tally. repeat split.
Qed.

(** C6 (as amended): the parser reads the output line by line.  A line
    with the error marker is an error report, a line with the warning
    marker and not the error marker a warning report.  The error count is
    the count of the last error report whose count converts, the warning
    count that of the last such warning report (0 when there is none), and
    the suggestions are the lines with neither marker that begin, once
    trimmed, with a digit from 1 to 5 and a full stop, collected trimmed.
    Every report has a count text: the text after the first occurrence of
    its marker, up to the next occurrence of the marker or of the counter
    word, whichever comes first, or to the end of the line.  The count is
    this text, trimmed, converted as int() does: a run of at most 640
    ASCII digits gives its decimal value, also after a sign, and an empty
    text or one with another ASCII character than digits, signs and the
    underscore does not convert, so that the report changes nothing. *)
Theorem C6_counts_read_from_report_lines :
  (forall output,
     errors (parse_quality_output output)
     = last (parsed_counts error_marker
               (error_report_lines (PyStr.split nl output))) 0
     /\ warnings (parse_quality_output output)
        = last (parsed_counts warning_marker
                  (warning_report_lines (PyStr.split nl output))) 0
     /\ found (parse_quality_output output)
        = map PyStr.strip (suggestion_lines (PyStr.split nl output)))
  /\ (forall marker line,
        marker <> [] -> PyStr.contains marker line = true ->
        exists seg, count_text marker line seg)
  /\ (forall marker line seg,
        marker <> [] -> count_text marker line seg ->
        count_after marker line = py_int (PyStr.strip seg))
  /\ (forall ds,
        ds <> [] -> ascii_digits ds = true -> (List.length ds <= 640)%nat ->
        py_int ds = Some (decimal_value ds)
        /\ py_int (43 :: ds) = Some (decimal_value ds)
        /\ py_int (45 :: ds) = Some (- decimal_value ds))
  /\ (forall s, s = [] \/ existsb foreign_ascii s = true -> py_int s = None)
  /\ (forall s,
        starts_with_ordinal s = true
        <-> exists d rest, s = d :: 46 :: rest /\ 49 <= d <= 53).
Proof.
  split; [exact counts_from_last_report|].
  split; [exact count_text_exists|].
  split; [exact count_after_text|].
  split; [exact py_int_digits|].
  split; [exact py_int_foreign | exact ordinal_prefixes].
Qed.

(** C7 (as amended): quality_score = max(0, 100 - 20 e - 5 w); the level is
    "excellent" from 90, "good" from 70, "needs_improvement" from 50 and
    "poor" below; e = 2 and w = 3 give the score 45 and the level "poor". *)
Theorem C7_score_and_level e w :
  compute_quality_score e w = Z.max 0 (100 - 20 * e - 5 * w)
  /\ (forall s,
        (90 <= s -> compute_quality_level s = u"excellent")
        /\ (70 <= s < 90 -> compute_quality_level s = u"good")
        /\ (50 <= s < 70 -> compute_quality_level s = u"needs_improvement")
        /\ (s < 50 -> compute_quality_level s = u"poor"))
  /\ compute_quality_score 2 3 = 45
  /\ compute_quality_level (compute_quality_score 2 3) = u"poor".
Proof.
  split; [apply score_spec|]. split; [|split; reflexivity].
  intros s. unfold compute_quality_level.
  repeat split; intros H;
    destruct (Z.geb_spec s 90); destruct (Z.geb_spec s 70);
    destruct (Z.geb_spec s 50); try reflexivity; lia.
Qed.

End QualityProps.

(* ===================================================================== *)
(** ** Runs of the scenarios *)
(* ===================================================================== *)

Import Scenario.

Lemma returned_run {S A : Type} (x : S * Exc A) (d : A) :
  (match snd x with Ret _ => true | Raise _ => false end) = true ->
  x = (fst x, Ret (value_or d (snd x))).
Proof. destruct x as [s [a|e]]; [reflexivity | discriminate]. Qed.


Example late_failure_still_succeeds :
  map (fun e => option_map subprocess.returncode
                  (match ev_outcome e with Ret c => Some c | Raise _ => None end))
      (trace (fst late_failure_run)) = [Some 0; Some 1]
  /\ success (value_or no_file_path (snd late_failure_run)) = true
  /\ returncode (value_or no_file_path (snd late_failure_run)) = 0.
Proof. vm_compute. repeat split. Qed.

(** C2: a compile request with a bibliography, evaluated.  Only the first
    of the four calls has a timeout (180 s); bibtex and the two later
    compiler passes are started with none.  A command other than
    compile.sh runs with 300 s. *)
Theorem C2_later_passes_have_no_timeout :
  timeouts (trace (fst bibliography_run)) = [Some 180; None; None; None]
  /\ map (fun c => nth 7 c []) (commands (trace (fst bibliography_run)))
     = [u"lualatex"; u"bibtex"; u"lualatex"; u"lualatex"]
  /\ timeouts (trace (fst hanging_check_run)) = [Some 300].
Proof. vm_compute. repeat split. Qed.

(** C3 as stated fails: without [-q], a first pass that exits with 1 is the
    only call made. *)
Lemma C3_counterexample :
  quick (parse_compile_args (tl compile_full) default_compile_args) = false
  /\ commands (trace (fst first_fails_run))
     = [[u"docker"; u"compose"; u"run"; u"--rm"; u"-w"; u"/workspace/courses/r1";
         u"latex"; u"lualatex"; u"-interaction=nonstopmode"; u"-halt-on-error";
         u"-output-directory=output"; u"main.tex"]]
  /\ List.length (passes (trace (fst first_fails_run))) = 1%nat.
Proof. vm_compute. repeat split. Qed.

(** C3 (as amended) at the run of two passes. *)
Lemma C3_witness : (2 <= List.length (passes (trace (fst late_failure_run))))%nat.
Proof.
  apply (@C3_two_passes_after_first Sim.host compile_full None (host_files late_failure)
           (fst late_failure_run) (snd late_failure_run)).
  - vm_compute. reflexivity.
  - apply surjective_pairing.
  - vm_compute. reflexivity.
  - vm_compute. reflexivity.
Defined.

(** C4 as stated fails: in the container, the program started is [docker],
    with [exec api-latex-engine-1] before the compiler's name. *)
Lemma C4_counterexample :
  @path_exists Sim.container (world (in_container two_good_passes)) (PurePath.parse u"/app") = true
  /\ PyStr.startswith u"/app" (PurePath.to_str (@PROJECT_ROOT Sim.container)) = true
  /\ commands (trace (fst container_run))
     = [[u"docker"; u"exec"; u"api-latex-engine-1"; u"lualatex";
         u"-interaction=nonstopmode"; u"-halt-on-error";
         u"-output-directory=/workspace/courses/r1/output";
         u"/workspace/courses/r1/main.tex"];
        [u"docker"; u"exec"; u"api-latex-engine-1"; u"lualatex";
         u"-interaction=nonstopmode"; u"-halt-on-error";
         u"-output-directory=/workspace/courses/r1/output";
         u"/workspace/courses/r1/main.tex"]].
Proof. vm_compute. repeat split. Qed.

(** C4 (as amended) at the run in the container. *)
Lemma C4_witness :
  Forall (fun e => bridged u"lualatex" (ev_call e)) (trace (fst container_run)).
Proof.
  apply (@C4_container_runs_in_engine Sim.container
           [u"/app/scripts/compile.sh"; tex_arg] None (container_files two_good_passes)
           (fst container_run) (snd container_run)).
  - vm_compute. reflexivity.
  - vm_compute. reflexivity.
  - apply surjective_pairing.
Defined.

(** C5 as stated fails: the stderr text of a timeout is not "timed out",
    and a timeout under a compile.sh command gives returncode 1. *)
Lemma C5_counterexample :
  snd hanging_check_run
  = Ret {| success := false; returncode := -1; stdout := [];
           stderr := u"Command timed out after 5 minutes" |}
  /\ PyStr.eqb u"Command timed out after 5 minutes" u"timed out" = false
  /\ snd hanging_compile_run
     = Ret {| success := false; returncode := 1; stdout := [];
              stderr := u"Docker compilation error: Command 'docker' timed out after 180 seconds" |}.
Proof. vm_compute. repeat split. Qed.

(** C5 (as amended) at the quality script that does not finish. *)
Lemma C5_witness :
  snd hanging_check_run
  = Ret {| success := false; returncode := -1; stdout := [];
           stderr := u"Command timed out after 5 minutes" |}.
Proof.
  apply (proj1 (proj2 (@C5_runner_converts_failures Sim.host check_quality None
                         (project hangs)))
           eq_refl (host_files [])
           u"Command 'check-quality.sh' timed out after 300 seconds").
  vm_compute. reflexivity.
Defined.

(** C6 as stated fails.  With two error reports the parser keeps the count
    of the last one, not the one at the first occurrence of the marker.
    Digits that are followed by another word than the counter word are not
    parsed: the report is skipped.  A count with a sign is read with its
    sign, and lowers nothing: the score exceeds 100.  A line that begins
    with an ordinal is no suggestion when it carries a marker, nor when the
    ordinal is a sixth. *)
Lemma C6_counterexample :
  (errors (@parse_quality_output Sim.host two_reports) = 5
   /\ @first_occurrence_count Sim.host error_marker two_reports = Some 2)
  /\ (errors (@parse_quality_output Sim.host Reports.other_counter) = 0
      /\ @first_occurrence_count Sim.host error_marker Reports.other_counter = Some 3)
  /\ (errors (@parse_quality_output Sim.host Reports.signed_count) = -3
      /\ @first_occurrence_count Sim.host error_marker Reports.signed_count = None
      /\ compute_quality_score (-3) 0 = 160)
  /\ (PyStr.startswith u"1." Reports.numbered_report = true
      /\ found (@parse_quality_output Sim.host Reports.numbered_report) = [])
  /\ found (@parse_quality_output Sim.host Reports.sixth_suggestion) = [].
Proof. vm_compute. repeat split. Qed.

(** C6 (as amended) at the line that carries the marker twice: the count
    text ends before the second marker. *)
Lemma C6_witness :
  @count_after Sim.host error_marker Reports.marker_twice
  = @py_int Sim.host (PyStr.strip u" 2 ").
Proof.
  apply (proj1 (proj2 (proj2 (@C6_counts_read_from_report_lines Sim.host)))).
  - vm_compute. discriminate.
  - exists [], u"❌ エラー: 7個". repeat split; try (vm_compute; reflexivity).
    right. left. vm_compute. reflexivity.
Defined.

Example counts_of_single_lines :
  map (@count_after Sim.host error_marker)
      [Reports.marker_twice; Reports.no_counter_word; Reports.other_counter;
       Reports.signed_count; Reports.numbered_report]
  = [Some 2; Some 4; None; Some (-3); Some 2].
Proof. vm_compute. reflexivity. Qed.

Example indented_suggestion_is_trimmed :
  found (@parse_quality_output Sim.host Reports.indented_suggestion)
  = [u"2. Number the equations"].
Proof. vm_compute. reflexivity. Qed.

(** C7 as stated fails: the spec's own example, two errors and three
    warnings, scores 45, which is below 50: the level is "poor". *)
Lemma C7_counterexample :
  errors (@parse_quality_output Sim.host spec_report) = 2
  /\ warnings (@parse_quality_output Sim.host spec_report) = 3
  /\ compute_quality_score 2 3 = 45
  /\ compute_quality_level (compute_quality_score 2 3) = u"poor"
  /\ PyStr.eqb (compute_quality_level (compute_quality_score 2 3))
               u"needs_improvement" = false.
Proof. vm_compute. repeat split. Qed.

(** C7 (as amended) at one error and two warnings: 70, "good". *)
Lemma C7_witness : compute_quality_level (compute_quality_score 1 2) = u"good".
Proof.
  refine (proj1 (proj2 (proj1 (proj2 (C7_score_and_level 1 2))
                          (compute_quality_score 1 2))) _).
  vm_compute. split; [discriminate | reflexivity].
Defined.

(** C8 as stated fails: an indented line is returned without its
    indentation, so it is not the line of the log. *)
Lemma C8_counterexample :
  firstn 10 (@collect_error_lines Sim.host indented_log)
  = [u"LaTeX Error: Missing document body."]
  /\ @matching_lines Sim.host indented_log
     = [u"  LaTeX Error: Missing document body."].
Proof. vm_compute. split; reflexivity. Qed.

(** C8 (as amended) at a failed compilation whose log has twelve error
    lines. *)
Lemma C8_witness :
  exists li,
    snd (@compile_document_log_info Sim.host main_tex failure failed_compile)
    = Ret (Some li)
    /\ error_lines li = map PyStr.strip (@matching_lines Sim.host twelve_errors).
Proof.
  destruct (proj2 (proj2 (@C8_log_lines_trimmed_and_capped Sim.host))
              main_tex failure failed_compile) as (info & Hrun & _ & _ & Hsome).
  assert (Hinfo : snd (@compile_document_log_info Sim.host main_tex failure failed_compile)
                  = Ret info) by (rewrite Hrun; reflexivity).
  rewrite Hinfo. clear Hrun. vm_compute in Hinfo.
  injection Hinfo as <-.
  eexists. split; [reflexivity|].
  destruct (Hsome _ eq_refl) as (content & Hread & Hlines).
  vm_compute in Hread. injection Hread as <-. exact Hlines.
Defined.

Example twelve_errors_first_ten :
  List.length (filter (@is_error_line Sim.host) (PyStr.split nl twelve_errors)) = 12%nat
  /\ firstn 10 (@collect_error_lines Sim.host twelve_errors)
     = firstn 10 (PyStr.split nl twelve_errors).
Proof. vm_compute. split; reflexivity. Qed.

(** C9 at a directory that holds only a text file. *)
Lemma C9_witness :
  @delete_project Sim.host u"courses/notes" stray_dir
  = (stray_dir,
     Ret ({| ApiResponse.success := false;
             ApiResponse.message := u"Invalid project directory";
             ApiResponse.data := None;
             ApiResponse.errors :=
               Some [u"Directory does not contain main.tex: " ++ u"courses/notes"] |},
          400)).
Proof.
  apply (@C9_delete_needs_main_tex Sim.host u"courses/notes" stray_dir);
    vm_compute; reflexivity.
Defined.

Example delete_removes_project :
  Sim.nodes (world (fst (@delete_project Sim.host u"courses/r1" (project [])))) = []
  /\ option_map (fun r => (ApiResponse.success (fst r), snd r))
       (match snd (@delete_project Sim.host u"courses/r1" (project [])) with
        | Ret r => Some r | Raise _ => None end) = Some (true, 200).
Proof. vm_compute. split; reflexivity. Qed.


Example failed_check_reported_in_data :
  option_map (fun r => (ApiResponse.success (fst r),
                        option_map check_successful (ApiResponse.data (fst r)),
                        option_map quality_score (ApiResponse.data (fst r)),
                        snd r))
    (match snd (@quality_check Sim.host (Some tex_arg) (project failing_check)) with
     | Ret r => Some r | Raise _ => None end)
  = Some (true, Some false, Some 45, 200).
Proof. vm_compute. reflexivity. Qed.

(* ===================================================================== *)
(** ** The runner, the compile handler and template management *)
(* ===================================================================== *)

Section RunnerMore.
Context {E : Env}.

Lemma run_command_compile_script cmd cwd st :
  is_compile_script cmd = true ->
  run_command cmd cwd st = run_docker_compilation cmd cwd st.
Proof.
  intros Hc. unfold run_command, try_except. rewrite Hc.
  destruct (run_docker_returns cmd cwd st) as (st' & r & ->). reflexivity.
Qed.

(** X4: every result of the process runner has success exactly when its
    returncode is 0, on every path: a finished command, a timeout, a
    launch failure, and each way a compilation can end. *)
Theorem X4_success_means_exit_code_zero cmd cwd st :
  exists st' r,
    run_command cmd cwd st = (st', Ret r)
    /\ success r = (returncode r =? 0).
Proof.
  destruct (is_compile_script cmd) eqn:Hc.
  - rewrite (run_command_compile_script _ _ _ Hc).
    destruct (run_docker_returns cmd cwd st) as (st' & r & Hr).
    exists st', r. split; [exact Hr|]. eapply docker_exit_code; eauto.
  - unfold run_command, try_except, bind, subprocess_run. rewrite Hc.
    destruct (spawn _ _) as [w' [c|[t|t]]]; do 2 eexists; split; reflexivity.
Qed.

(** X7: the command line that the compile handler builds always reaches the
    dispatcher, and for a file path that does not begin with a dash the
    dispatcher reads back the request's own file, compiler and flags. *)
Theorem X7_request_reaches_dispatcher req st :
  PyStr.startswith u"-" (req_file_path req) = false ->
  run_command (compile_command req) None st
  = run_docker_compilation (compile_command req) None st
  /\ parse_compile_args (tl (compile_command req)) default_compile_args
     = {| file_path := Some (req_file_path req);
          compiler := req_compiler req;
          use_bibtex := req_use_bibtex req;
          quick := req_quick req |}.
Proof.
  intros Hfp. split.
  - apply run_command_compile_script, compile_command_is_compile_script.
  - now apply parse_compile_command.
Qed.

End RunnerMore.

Section CompileHandlerProps.
Context {E : Env} {S : Stat E}.

Lemma log_info_returns file_path result st :
  exists info, compile_document_log_info file_path result st = (st, Ret info).
Proof.
  unfold compile_document_log_info, try_except, bind, exists_, read_text,
    stat_size, lift, ret.
  destruct (path_exists _ _ && _); [|eauto].
  destruct (path_read_text _ _); [|eauto].
  destruct (PurePath.relative_to _ _); [|eauto].
  destruct (path_stat_size _ _); eauto.
Qed.

Lemma compile_errors_bounds result log_info :
  if success result
  then compile_errors result log_info = []
  else (1 <= List.length (compile_errors result log_info) <= 4)%nat.
Proof.
  unfold compile_errors. destruct (success result); cbn [negb]; [reflexivity|].
  destruct (PyStr.truthy (stderr result)), log_info as [li|].
  - destruct (error_lines li) as [|x l]; [cbn [List.length]; lia|].
    cbn [app List.length]. rewrite length_map, length_firstn. cbn [List.length]. lia.
  - cbn [List.length]. lia.
  - destruct (error_lines li) as [|x l]; [cbn [List.length]; lia|].
    cbn [app firstn map List.length]. rewrite length_map.
    destruct l as [|y [|z l]]; cbn [List.length]; lia.
  - cbn [List.length]. lia.
Qed.

(** X11: a compile response that reports failure always carries between one
    and four error messages (the stderr text, up to three log lines, or the
    fallback text), and one that reports success carries none. *)
Theorem X11_failure_always_explained data st st' resp code :
  compile_document data st = (st', Ret (resp, code)) ->
  match ApiResponse.errors resp with
  | Some l => ApiResponse.success resp = false /\ (1 <= List.length l <= 4)%nat
  | None => ApiResponse.success resp = true
  end.
Proof.
  unfold compile_document, try_except. intros H.
  destruct data as [req|].
  2:{ unfold reply, ret in H. injection H as <- <- <-. cbn. split; [reflexivity|lia]. }
  destruct (PyStr.truthy (req_file_path req)); cbn [negb] in H.
  2:{ unfold reply, ret in H. injection H as <- <- <-. cbn. split; [reflexivity|lia]. }
  rewrite bind_exists in H.
  destruct (path_exists _ _); cbn [negb] in H.
  2:{ unfold reply, ret in H. injection H as <- <- <-. cbn. split; [reflexivity|lia]. }
  destruct (req_watch req).
  { unfold reply, ret in H. injection H as <- <- <-. cbn. split; [reflexivity|lia]. }
  unfold bind at 1 in H.
  destruct (run_command_returns (compile_command req) None st) as (s1 & result & Hrun).
  rewrite Hrun in H.
  unfold bind at 1 in H.
  destruct (compile_document_pdf_info _ s1) as [s2 [pdf|e]].
  2:{ unfold reply, ret in H. injection H as <- <- <-. cbn. split; [reflexivity|lia]. }
  unfold bind at 1 in H.
  destruct (log_info_returns (PROJECT_ROOT </> req_file_path req) result s2)
    as (info & Hlog).
  rewrite Hlog in H. unfold reply, ret in H. injection H as <- <- <-.
  cbn [ApiResponse.errors ApiResponse.success].
  pose proof (compile_errors_bounds result info) as Hb.
  destruct (success result).
  - now rewrite Hb.
  - destruct (compile_errors result info); [cbn in Hb; lia|].
    split; [reflexivity | exact Hb].
Qed.

(** X10: for a file path that does not begin with a dash, a compile
    response with success=true has status 200, returncode 0, no errors,
    and always carries the information on the PDF: success is never
    reported without a PDF to fetch. *)
Theorem X10_success_comes_with_pdf req st st' resp code :
  PyStr.startswith u"-" (req_file_path req) = false ->
  compile_document (Some req) st = (st', Ret (resp, code)) ->
  ApiResponse.success resp = true ->
  code = 200
  /\ ApiResponse.errors resp = None
  /\ exists d info,
       ApiResponse.data resp = Some d
       /\ cd_pdf_info d = Some info
       /\ cd_returncode d = 0.
Proof.
  unfold compile_document, try_except. intros Hdash H Hs.
  destruct (PyStr.truthy (req_file_path req)); cbn [negb] in H.
  2:{ unfold reply, ret in H. injection H as <- <- <-. discriminate. }
  rewrite bind_exists in H.
  destruct (path_exists (world st) (PROJECT_ROOT </> req_file_path req)) eqn:Hex;
    cbn [negb] in H.
  2:{ unfold reply, ret in H. injection H as <- <- <-. discriminate. }
  destruct (req_watch req).
  { unfold reply, ret in H. injection H as <- <- <-. discriminate. }
  unfold bind at 1 in H.
  destruct (run_command_returns (compile_command req) None st) as (s1 & result & Hrun).
  rewrite Hrun in H.
  destruct (success result) eqn:Hres.
  2:{ unfold bind at 1 in H.
      destruct (compile_document_pdf_info _ s1) as [s2 [pdf|e]].
      2:{ unfold reply, ret in H. injection H as <- <- <-. discriminate. }
      unfold bind at 1 in H.
      destruct (log_info_returns (PROJECT_ROOT </> req_file_path req) result s2)
        as (info & Hlog).
      rewrite Hlog in H. unfold reply, ret in H. injection H as <- <- <-.
      cbn in Hs. congruence. }
  assert (Hpdf : path_exists (world s1)
                   (expected_pdf (PROJECT_ROOT </> req_file_path req)) = true).
  { rewrite run_command_compile_script in Hrun
      by apply compile_command_is_compile_script.
    eapply docker_success_pdf; eauto.
    rewrite (parse_compile_command req Hdash). reflexivity. }
  assert (Hrc : returncode result = 0).
  { rewrite run_command_compile_script in Hrun
      by apply compile_command_is_compile_script.
    pose proof (docker_exit_code _ _ _ _ _ Hrun) as Hc.
    rewrite Hres in Hc. symmetry in Hc. now apply Z.eqb_eq in Hc. }
  unfold bind at 1 in H.
  unfold compile_document_pdf_info in H. rewrite bind_exists in H.
  unfold expected_pdf in Hpdf. rewrite Hpdf in H.
  unfold bind at 1 2, stat, lift in H.
  destruct (path_stat (world s1) _) as [sz|e].
  2:{ unfold reply, ret in H. injection H as <- <- <-. discriminate. }
  destruct (PurePath.relative_to _ PROJECT_ROOT) as [rel|e].
  2:{ unfold reply, ret in H. injection H as <- <- <-. discriminate. }
  unfold ret at 1 in H.
  unfold bind at 1 in H.
  destruct (log_info_returns (PROJECT_ROOT </> req_file_path req) result s1)
    as (info & Hlog).
  rewrite Hlog in H. unfold reply, ret in H. injection H as <- <- <-.
  cbn [ApiResponse.errors ApiResponse.data].
  pose proof (compile_errors_bounds result info) as Hb. rewrite Hres in Hb.
  rewrite Hb. repeat split. do 2 eexists. repeat split. exact Hrc.
Qed.

(** A typed request for watch mode starts nothing. *)
Lemma typed_watch_request req st :
  req_watch req = true ->
  exists resp code,
    compile_document (Some req) st = (st, Ret (resp, code))
    /\ ApiResponse.success resp = false
    /\ code = (if PyStr.truthy (req_file_path req)
                  && negb (path_exists (world st) (PROJECT_ROOT </> req_file_path req))
               then 404 else 400).
Proof.
  intros Hw. unfold compile_document, try_except.
  destruct (PyStr.truthy (req_file_path req)); cbn [negb andb].
  2:{ unfold reply, ret. do 2 eexists. repeat split. }
  rewrite bind_exists.
  destruct (path_exists _ _); cbn [negb].
  - rewrite Hw. unfold reply, ret. do 2 eexists. repeat split.
  - unfold reply, ret. do 2 eexists. repeat split.
Qed.

End CompileHandlerProps.

Section ManageProps.
Context {E : Env}.

(** X14: the command line for manage-templates.sh is the script, the
    action, and at most one further word: the template id for enable,
    disable and info, the template file for add, and for list the bare flag
    --category, without the category that was asked for. *)
Theorem X14_manage_command_words action d :
  exists extra,
    manage_command action d
    = [PurePath.to_str (SCRIPTS_DIR </> u"manage-templates.sh"); action] ++ extra
    /\ (extra = []
        \/ (extra = [field_text (mr_template_id d)]
            /\ In action [u"enable"; u"disable"; u"info"])
        \/ (extra = [field_text (mr_template_file d)] /\ action = u"add")
        \/ (extra = [u"--category"] /\ action = u"list")).
Proof.
  unfold manage_command.
  destruct (existsb (PyStr.eqb action) [u"enable"; u"disable"; u"info"]
            && given (mr_template_id d)) eqn:H1.
  - eexists. split; [reflexivity|]. right. left. split; [reflexivity|].
    apply andb_true_iff in H1 as [H1 _]. apply existsb_exists in H1 as (x & Hin & Hx).
    apply pystr_eqb_eq in Hx. now subst.
  - destruct (PyStr.eqb action u"add" && given (mr_template_file d)) eqn:H2.
    + eexists. split; [reflexivity|]. right. right. left. split; [reflexivity|].
      apply andb_true_iff in H2 as [H2 _]. now apply pystr_eqb_eq in H2.
    + destruct (PyStr.eqb action u"list" && given (mr_category d)) eqn:H3.
      * eexists. split; [reflexivity|]. right. right. right. split; [reflexivity|].
        apply andb_true_iff in H3 as [H3 _]. now apply pystr_eqb_eq in H3.
      * exists []. split; [now rewrite app_nil_r | now left].
Qed.

End ManageProps.

(* ===================================================================== *)
(** ** Bodies with fields of any JSON type *)
(* ===================================================================== *)

Section JsonProps.
Context {E : Env} {S : Stat E}.

(** X12: a compile request that asks for watch mode never starts a process
    and never changes the state, whatever the JSON type of its file_path.
    It is answered 400 when file_path is missing or falsy, 500 when it is a
    truthy value that is not a string (the join to the project root raises
    a TypeError), 404 when it is a string and the file is missing, and 400
    otherwise. *)
Theorem X12_watch_mode_runs_nothing body st :
  cb_watch body = true ->
  exists resp code,
    compile_document_json (Some body) st = (st, Ret (resp, code))
    /\ ApiResponse.success resp = false
    /\ code = match cb_file_path body with
              | Some (Text s) =>
                  if PyStr.truthy s
                  then if path_exists (world st) (PROJECT_ROOT </> s) then 400 else 404
                  else 400
              | Some (Other true _) => 500
              | _ => 400
              end.
Proof.
  intros Hw. unfold compile_document_json, try_except.
  destruct (cb_file_path body) as [[s|[|] ty]|]; cbn [json_given negb field_value].
  - destruct (PyStr.truthy s) eqn:Hs; cbn [negb].
    2:{ unfold reply, ret. do 2 eexists. repeat split. }
    unfold bind, lift. cbn [path_operand].
    match goal with
    | |- context [compile_document (Some ?r) st] =>
        destruct (typed_watch_request r st Hw) as (resp & code & -> & Hfail & ->)
    end.
    cbn [req_file_path]. rewrite Hs. cbn [andb].
    exists resp. eexists. split; [reflexivity|]. split; [exact Hfail|].
    now destruct (path_exists _ _).
  - unfold bind, lift, reply, ret. cbn [path_operand]. do 2 eexists. repeat split.
  - unfold reply, ret. do 2 eexists. repeat split.
  - unfold reply, ret. do 2 eexists. repeat split.
Qed.

(** X13: once a truthy action is given, template management answers in one
    of two ways.  When every word of the command line is a string, the
    status is 200 and the envelope passes the script's own verdict on: its
    success is the result's, and errors holds the script's stderr only when
    the script failed and wrote one, so a failure without stderr is
    reported with no error message at all.  When the action or the word
    appended to it is not a string, the answer is 500 "Template management
    failed". *)
Theorem X13_manage_passes_verdict_on d st :
  json_given (mb_action d) = true ->
  match strings (manage_words (field_value (mb_action d)) d) with
  | Some words =>
      exists st' result resp,
        run_command words None st = (st', Ret result)
        /\ manage_templates_json (Some d) st = (st', Ret (resp, 200))
        /\ ApiResponse.success resp = success result
        /\ ApiResponse.errors resp
           = (if negb (success result) && PyStr.truthy (stderr result)
              then Some [stderr result] else None)
  | None =>
      exists resp,
        manage_templates_json (Some d) st = (st, Ret (resp, 500))
        /\ ApiResponse.success resp = false
        /\ ApiResponse.message resp = u"Template management failed"
  end.
Proof.
  intros Ha. unfold manage_templates_json, try_except. rewrite Ha. cbn [negb].
  destruct (strings (manage_words (field_value (mb_action d)) d)) as [words|].
  - destruct (run_command_returns words None st) as (st' & result & Hrun).
    exists st', result. eexists. split; [exact Hrun|].
    unfold bind, reply, ret. rewrite Hrun. repeat split.
  - unfold raise, reply, ret. eexists. repeat split.
Qed.

(** The command line holds a word that is not a string exactly when the
    action, or the word appended to it, is not one. *)
Lemma strings_none l :
  strings l = None <-> exists b ty, In (Other b ty) l.
Proof.
  induction l as [|[s|b ty] l IH]; cbn [strings In].
  - split; [discriminate | intros (b & ty & [])].
  - destruct (strings l) as [ws|]; cbn [option_map].
    + split; [discriminate|]. intros (b & ty & [H|H]); [discriminate|].
      assert (Hn : Some ws = None) by (apply IH; eauto). discriminate.
    + split; [|reflexivity]. intros _.
      destruct (proj1 IH eq_refl) as (b & ty & H). eauto.
  - split; [eauto | reflexivity].
Qed.

(** On a body whose fields are strings the words are those of
    [manage_command]. *)
Lemma manage_words_typed action d :
  manage_words (Text action)
    {| mb_action := option_map Text (mr_action d);
       mb_template_id := option_map Text (mr_template_id d);
       mb_template_file := option_map Text (mr_template_file d);
       mb_category := option_map Text (mr_category d) |}
  = map Text (manage_command action d).
Proof.
  unfold manage_words, manage_command.
  assert (Hin : forall l, existsb (json_is (Text action)) l
                          = existsb (PyStr.eqb action) l) by reflexivity.
  rewrite Hin. clear Hin.
  cbn [mb_template_id mb_template_file mb_category json_is].
  destruct (mr_template_id d) as [i|], (mr_template_file d) as [f|],
    (mr_category d) as [c|]; cbn [option_map json_given given field_value field_text].
  all: rewrite ?andb_false_r.
  all: repeat match goal with
         | |- context [if ?c then _ else _] => destruct c
         end; reflexivity.
Qed.

End JsonProps.

Section QualityMore.
Context {E : Env}.

Lemma level_cases s :
  (90 <= s /\ compute_quality_level s = u"excellent")
  \/ (70 <= s < 90 /\ compute_quality_level s = u"good")
  \/ (50 <= s < 70 /\ compute_quality_level s = u"needs_improvement")
  \/ (s < 50 /\ compute_quality_level s = u"poor").
Proof.
  unfold compute_quality_level.
  destruct (Z.geb_spec s 90); [left; split; [lia|reflexivity]|].
  destruct (Z.geb_spec s 70); [right; left; split; [lia|reflexivity]|].
  destruct (Z.geb_spec s 50); [right; right; left; split; [lia|reflexivity]|].
  right; right; right; split; [lia|reflexivity].
Qed.

(** X8: for counts that are not negative the score lies between 0 and 100;
    the level is "excellent" exactly when there is no error and at most two
    warnings, and "poor" exactly when 20 errors + 5 warnings exceed 50, so
    a single error rules out "excellent" and three errors force "poor". *)
Theorem X8_levels_by_counts e w :
  0 <= e -> 0 <= w ->
  0 <= compute_quality_score e w <= 100
  /\ (compute_quality_level (compute_quality_score e w) = u"excellent"
      <-> e = 0 /\ w <= 2)
  /\ (compute_quality_level (compute_quality_score e w) = u"poor"
      <-> 50 < 20 * e + 5 * w).
Proof.
  intros He Hw. rewrite score_spec.
  split; [lia|].
  destruct (level_cases (Z.max 0 (100 - 20 * e - 5 * w))) as [[H ->]|[[H ->]|[[H ->]|[H ->]]]].
  all: split; split; intros H'; try discriminate; try reflexivity; lia.
Qed.

(** X9: when the quality script cannot be run at all (it times out or
    cannot be started), there is no output to read, and the response still
    has success=true and reports no error, no warning, the score 100 and
    the level "excellent", with check_successful=false as the only sign. *)
Theorem X9_unrun_script_scores_excellent file_path st w' e :
  PyStr.truthy file_path = true ->
  path_exists (world st) (PROJECT_ROOT </> file_path) = true ->
  is_compile_script
    [PurePath.to_str (SCRIPTS_DIR </> u"check-quality.sh"); file_path] = false ->
  spawn (world st)
        (generic_call
           [PurePath.to_str (SCRIPTS_DIR </> u"check-quality.sh"); file_path] None)
  = (w', Raise e) ->
  exists st',
    quality_check (Some file_path) st
    = (st', Ret ({| ApiResponse.success := true;
                    ApiResponse.message := u"Quality check completed";
                    ApiResponse.data :=
                      Some {| q_file_path := file_path;
                              quality_score := 100;
                              quality_level := u"excellent";
                              q_errors := 0;
                              q_warnings := 0;
                              suggestions := [];
                              full_output := [];
                              check_successful := false |};
                    ApiResponse.errors := None |}, 200))
    /\ world st' = w'.
Proof.
  intros Ht Hex Hc Hs.
  unfold quality_check, try_except, bind, exists_, reply, ret.
  rewrite Ht. cbn [negb]. rewrite Hex. cbn [negb].
  unfold run_command, try_except, bind, subprocess_run. rewrite Hc.
  unfold generic_call in Hs. rewrite Hs.
  destruct e as [t|t]; cbn [ret stdout success]; eexists; split; reflexivity.
Qed.

End QualityMore.

(* ===================================================================== *)
(** ** The [/workspace] variant of a path under [/app] *)
(* ===================================================================== *)

Section WorkspaceVariant.
Context {E : Env}.

Lemma split_from_nonempty sep s skip cur : PyStr.split_from sep s skip cur <> [].
Proof.
  revert skip cur. induction s as [|c s IH]; intros skip cur; cbn; [discriminate|].
  destruct skip; [|apply IH].
  destruct (PyStr.startswith sep (c :: s)); [discriminate | apply IH].
Qed.

Lemma join_cons_nonempty sep x l :
  l <> [] -> PyStr.join sep (x :: l) = x ++ sep ++ PyStr.join sep l.
Proof. destruct l; [congruence | reflexivity]. Qed.

Lemma replace_app_prefix s :
  PyStr.startswith u"/app" s = true ->
  exists t, PyStr.replace u"/app" u"/workspace" s = u"/workspace" ++ t.
Proof.
  intros H. destruct (startswith_split _ _ H) as [post ->].
  unfold PyStr.replace, PyStr.split. change (u"/app") with [47; 97; 112; 112].
  cbn [app PyStr.split_from PyStr.startswith]. rewrite !Z.eqb_refl. cbn [andb].
  cbn [List.length Nat.pred rev PyStr.split_from].
  rewrite join_cons_nonempty by apply split_from_nonempty.
  eexists. reflexivity.
Qed.

(** Splitting at slashes: the first piece begins with what was read. *)
Lemma split_slash_first t cur :
  exists p rest, PyStr.split_from [47] t 0 cur = (rev cur ++ p) :: rest.
Proof.
  revert cur. induction t as [|c t IH]; intros cur.
  - exists [], []. cbn. now rewrite app_nil_r.
  - cbn [PyStr.split_from PyStr.startswith].
    destruct ((47 =? c) && true).
    + exists [], (PyStr.split_from [47] t (Nat.pred (List.length [47])) []).
      now rewrite app_nil_r.
    + destruct (IH (c :: cur)) as (p & rest & ->).
      exists (c :: p), rest. cbn [rev]. now rewrite <- app_assoc.
Qed.

Lemma parse_workspace t :
  exists p rest,
    PurePath.parse (u"/workspace" ++ t)
    = {| absolute := true; parts := (119 :: p) :: rest |}.
Proof.
  change (u"/workspace") with (47 :: 119 :: u"orkspace").
  unfold PurePath.parse, PyStr.split. change (u"/") with [47].
  cbn [app PyStr.startswith PyStr.split_from Z.eqb Pos.eqb andb List.length Nat.pred rev].
  destruct (split_slash_first (u"orkspace" ++ t) [119]) as (p & rest & ->).
  cbn [rev app filter PyStr.truthy andb negb].
  change (PyStr.eqb (119 :: p) u".") with false. cbn [negb].
  eexists p, _. reflexivity.
Qed.

Lemma workspace_output_not_under_app t :
  exists e,
    PurePath.relative_to
      (PurePath.parent (PurePath.parse (u"/workspace" ++ t)) </> u"output")
      (PurePath.parse u"/app")
    = Raise e.
Proof.
  destruct (parse_workspace t) as (p & rest & ->).
  rewrite joinpath_output. unfold PurePath.parent, PurePath.relative_to.
  change (PurePath.parse u"/app") with {| absolute := true; parts := [[97; 112; 112]] |}.
  cbn [absolute parts Bool.eqb].
  destruct rest as [|y rest].
  - cbn [removelast app PurePath.strip_prefix]. change (u"output") with (111 :: u"utput").
    cbn [PyStr.eqb Z.eqb Pos.eqb andb]. eauto.
  - change (removelast ((119 :: p) :: y :: rest))
      with ((119 :: p) :: removelast (y :: rest)).
    cbn [app PurePath.strip_prefix PyStr.eqb Z.eqb Pos.eqb andb]. eauto.
Qed.

(** X15: inside the container, a file that is not under the project root
    but is found at the [/workspace] variant of its [/app] path is never
    compiled: the result is always "Direct compilation error: ..." with
    returncode 1, and no process is started. *)
Theorem X15_workspace_variant_never_compiles original_cmd cwd st fp :
  file_path (parse_compile_args (tl original_cmd) default_compile_args) = Some fp ->
  PyStr.truthy fp = true ->
  is_in_docker (world st) = true ->
  PyStr.startswith u"/app" (PurePath.to_str (PROJECT_ROOT </> fp)) = true ->
  path_exists (world st) (PROJECT_ROOT </> fp) = false ->
  path_exists (world st) (workspace_variant (PROJECT_ROOT </> fp)) = true ->
  exists st' e,
    run_docker_compilation original_cmd cwd st
    = (st', Ret {| success := false; returncode := 1; stdout := [];
                   stderr := u"Direct compilation error: " ++ exn_str e |})
    /\ trace st' = trace st.
Proof.
  unfold run_docker_compilation, is_in_docker, workspace_variant.
  intros Hfp Ht Hin Hunder Hex Hw. rewrite Hfp, Ht. cbn [negb].
  unfold try_except at 1. rewrite bind_exists, Hin.
  rewrite bind_exists, Hex. cbn [negb]. rewrite bind_exists, Hw.
  destruct (replace_app_prefix _ Hunder) as [t ->].
  unfold run_direct_latex_compilation, try_except, bind, mkdir, lift, ret.
  destruct (path_mkdir (world st) _) as [w1 [[]|e]].
  - destruct (workspace_output_not_under_app t) as [e ->].
    do 2 eexists. split; reflexivity.
  - do 2 eexists. split; reflexivity.
Qed.

End WorkspaceVariant.

(* ===================================================================== *)
(** ** Deleting and listing projects *)
(* ===================================================================== *)

Section ProjectProps.
Context {E : Env} {S : Stat E} {L : Listing E}.

(** X16: a deletion answers success only for a project directory: the path
    existed, was a directory and held main.tex, [shutil.rmtree] was called
    on it and returned, and the world is the one it left; no process is
    started. *)
Theorem X16_only_projects_are_deleted project_path st st' resp code :
  delete_project project_path st = (st', Ret (resp, code)) ->
  ApiResponse.success resp = true ->
  code = 200
  /\ path_exists (world st) (PROJECT_ROOT </> project_path) = true
  /\ path_is_dir (world st) (PROJECT_ROOT </> project_path) = true
  /\ path_exists (world st) (PROJECT_ROOT </> project_path </> u"main.tex") = true
  /\ shutil_rmtree (world st) (PROJECT_ROOT </> project_path) = (world st', Ret tt)
  /\ trace st' = trace st.
Proof.
  unfold delete_project, try_except, bind, exists_, is_dir, rmtree, reply, ret.
  intros H Hs.
  destruct (path_exists (world st) (PROJECT_ROOT </> project_path)); cbn [negb] in H.
  2:{ injection H as <- <- <-. discriminate. }
  destruct (path_is_dir (world st) (PROJECT_ROOT </> project_path)); cbn [negb] in H.
  2:{ injection H as <- <- <-. discriminate. }
  destruct (path_exists (world st) (PROJECT_ROOT </> project_path </> u"main.tex"));
    cbn [negb] in H.
  2:{ injection H as <- <- <-. discriminate. }
  destruct (shutil_rmtree (world st) (PROJECT_ROOT </> project_path)) as [w' [[]|e]].
  - injection H as <- <- <-. repeat split.
  - injection H as <- <- <-. discriminate.
Qed.

(** An invariant of the accumulated list is kept by a loop whose body keeps
    it. *)
Lemma for_each_keeps {A B : Type} (P : B -> Prop) (body : A -> B -> M B) l :
  (forall a b s s' b', P b -> body a b s = (s', Ret b') -> P b') ->
  forall acc st st' r,
    P acc -> for_each l body acc st = (st', Ret r) -> P r.
Proof.
  intros Hbody. induction l as [|x l IH]; intros acc st st' r Hacc H.
  - cbn in H. unfold ret in H. now injection H as <- <-.
  - cbn [for_each] in H. unfold bind in H.
    destruct (body x acc st) as [s1 [b1|e]] eqn:Hb; [|discriminate].
    eapply IH; [|exact H]. eapply Hbody; eauto.
Qed.

Lemma list_project_dir_keeps semester_dir course_dir project_dir acc st st' r :
  Forall pdf_consistent acc ->
  list_project_dir semester_dir course_dir project_dir acc st = (st', Ret r) ->
  Forall pdf_consistent r.
Proof.
  intros Hacc. unfold list_project_dir, bind, exists_, stat, lift, ret.
  destruct (path_exists (world st) (project_dir </> u"main.tex")).
  2:{ now intros [= <- <-]. }
  destruct (path_stat (world st) (project_dir </> u"main.tex")); [|discriminate].
  destruct (PurePath.relative_to project_dir PROJECT_ROOT); [|discriminate].
  destruct (PurePath.relative_to (project_dir </> u"main.tex") PROJECT_ROOT);
    [|discriminate].
  destruct (path_exists (world st) _) eqn:Hpdf.
  - destruct (path_stat (world st) _); [|discriminate].
    destruct (PurePath.relative_to _ PROJECT_ROOT); [|discriminate].
    intros [= <- <-]. apply Forall_app. split; [exact Hacc|]. now repeat constructor.
  - intros [= <- <-]. apply Forall_app. split; [exact Hacc|]. now repeat constructor.
Qed.

(** X17: in every list of projects that is returned, total_count is the
    number of entries, and each entry has has_pdf=true exactly when it
    carries pdf_info. *)
Theorem X17_listing_is_consistent st st' resp code :
  list_projects st = (st', Ret (resp, code)) ->
  ApiResponse.success resp = true ->
  exists d,
    ApiResponse.data resp = Some d
    /\ total_count d = Z.of_nat (List.length (projects d))
    /\ Forall pdf_consistent (projects d).
Proof.
  unfold list_projects, try_except. intros H Hs.
  unfold bind at 1 in H. unfold exists_ at 1 in H.
  unfold bind at 1 in H.
  match type of H with
  | context [(if ?c then ?m else _) st] => destruct (c) ; [destruct (m st) as [s1 [ps|e]] eqn:Hloop|]
  end.
  - unfold reply, ret in H. injection H as <- <- <-.
    eexists. split; [reflexivity|]. split; [reflexivity|]. cbn [projects].
    unfold bind, iterdir in Hloop.
    destruct (path_iterdir (world st) COURSES_DIR) as [sems|e]; [|discriminate].
    eapply (for_each_keeps (Forall pdf_consistent)); [|constructor|exact Hloop].
    intros sem acc s s' acc' Hacc Hb. unfold bind, is_dir in Hb.
    destruct (path_is_dir (world s) sem); cbn [negb] in Hb.
    2:{ unfold ret in Hb. now injection Hb as <- <-. }
    unfold iterdir in Hb.
    destruct (path_iterdir (world s) sem) as [courses|e]; [|discriminate].
    eapply (for_each_keeps (Forall pdf_consistent)); [|exact Hacc|exact Hb].
    clear. intros course acc s s' acc' Hacc Hb. unfold bind, is_dir in Hb.
    destruct (path_is_dir (world s) course); cbn [negb] in Hb.
    2:{ unfold ret in Hb. now injection Hb as <- <-. }
    unfold iterdir in Hb.
    destruct (path_iterdir (world s) course) as [dirs|e]; [|discriminate].
    eapply (for_each_keeps (Forall pdf_consistent)); [|exact Hacc|exact Hb].
    clear. intros dir acc s s' acc' Hacc Hb. unfold bind, is_dir in Hb.
    destruct (path_is_dir (world s) dir); cbn [negb] in Hb.
    2:{ unfold ret in Hb. now injection Hb as <- <-. }
    eapply list_project_dir_keeps; eauto.
  - unfold reply, ret in H. injection H as <- <- <-. discriminate.
  - unfold ret at 1 in H. unfold reply, ret in H. injection H as <- <- <-.
    eexists. split; [reflexivity|]. split; [reflexivity|]. constructor.
Qed.

End ProjectProps.

(* ===================================================================== *)
(** ** Further runs of the scenarios *)
(* ===================================================================== *)

Import Scenario Scenario2.

Lemma returned_pair {S A B : Type} (x : S * Exc (A * B)) (d : A * B) :
  (match snd x with Ret _ => true | Raise _ => false end) = true ->
  x = (fst x, Ret (fst (value_or d (snd x)), snd (value_or d (snd x)))).
Proof. destruct x as [s [[a b]|e]]; [reflexivity | discriminate]. Qed.

(** X1 at a quick compilation with a bibliography: compiler, bibtex,
    compiler. *)
Lemma X1_witness :
  commands (trace (fst quick_bibliography_run))
  = plan true true (@docker_cmd Sim.host main_tex u"lualatex")
         (@bibtex_docker_cmd Sim.host main_tex)
  \/ commands (trace (fst quick_bibliography_run))
     = plan false true (@docker_cmd Sim.host main_tex u"lualatex")
            (@bibtex_docker_cmd Sim.host main_tex).
Proof.
  assert (Hhost : @is_in_docker Sim.host (host_files quick_bibliography) = false)
    by (vm_compute; reflexivity).
  assert (Hfile : file_path (parse_compile_args (tl compile_quick_bib)
                               default_compile_args) = Some tex_arg)
    by (vm_compute; reflexivity).
  assert (Hfirst : first_pass_ok (trace (fst quick_bibliography_run)) = true)
    by (vm_compute; reflexivity).
  assert (Hall : all_returned (trace (fst quick_bibliography_run)) = true)
    by (vm_compute; reflexivity).
  pose proof (proj2 (@X1_host_calls_follow_plan Sim.host compile_quick_bib None
                       (host_files quick_bibliography)
                       (fst quick_bibliography_run) (snd quick_bibliography_run)
                       tex_arg Hhost Hfile
                       (surjective_pairing quick_bibliography_run))
                Hfirst Hall) as H.
  vm_compute in H. vm_compute. exact H.
Defined.

Example quick_bibliography_calls :
  map (fun c => nth 7 c []) (commands (trace (fst quick_bibliography_run)))
  = [u"lualatex"; u"bibtex"; u"lualatex"].
Proof. vm_compute. reflexivity. Qed.

(** X2 in the container with a bibliography, where the first pass leaves
    the auxiliary file. *)
Lemma X2_witness :
  exists w1 w2 c,
    @path_mkdir Sim.container (container_files container_bibliography)
      (PurePath.parent container_tex </> u"output") = (w1, Ret tt)
    /\ @spawn Sim.container w1 (first_direct_call container_tex u"lualatex") = (w2, Ret c)
    /\ commands (trace (fst container_bibliography_run))
       = plan (true && @path_exists Sim.container w2 (expected_aux container_tex)) false
              (compile_cmd container_tex u"lualatex") (bibtex_cmd container_tex).
Proof.
  apply (proj2 (@X2_container_calls_follow_plan Sim.container container_tex
                  u"lualatex" true false (container_files container_bibliography)
                  (fst container_bibliography_run) (snd container_bibliography_run)
                  (surjective_pairing container_bibliography_run))).
  - vm_compute. reflexivity.
  - vm_compute. reflexivity.
Defined.

Example bibliography_needs_auxiliary_file :
  map (fun c => nth 3 c []) (commands (trace (fst container_bibliography_run)))
  = [u"lualatex"; u"bibtex"; u"lualatex"; u"lualatex"]
  /\ map (fun c => nth 3 c []) (commands (trace (fst container_no_aux_run)))
     = [u"lualatex"; u"lualatex"].
Proof. vm_compute. split; reflexivity. Qed.

(** X3 at the first pass that exits with 1. *)
Lemma X3_witness :
  tl (trace (fst first_fails_run)) = []
  /\ success (value_or no_file_path (snd first_fails_run)) = false
  /\ returncode (value_or no_file_path (snd first_fails_run))
     = subprocess.returncode failed_pass
  /\ stderr (value_or no_file_path (snd first_fails_run))
     = subprocess.stderr failed_pass.
Proof.
  apply (@X3_failed_first_pass_ends_run Sim.host compile_full None
           (host_files first_fails) (fst first_fails_run)
           (value_or no_file_path (snd first_fails_run))
           {| ev_call :=
                {| subprocess.args := @docker_cmd Sim.host main_tex u"lualatex";
                   subprocess.cwd := Some u"/srv/latex";
                   subprocess.timeout := Some 180 |};
              ev_outcome := Ret failed_pass |}
           (tl (trace (fst first_fails_run))) failed_pass).
  - apply (returned_run first_fails_run). vm_compute. reflexivity.
  - vm_compute. reflexivity.
  - reflexivity.
  - reflexivity.
Defined.

Example first_failure_is_passed_on :
  option_map (fun r => (success r, returncode r, stderr r))
    (match snd first_fails_run with Ret r => Some r | Raise _ => None end)
  = Some (false, 1, u"! LaTeX Error: File not found.").
Proof. vm_compute. reflexivity. Qed.

(** X4 at the script that does not finish: a failure with returncode -1. *)
Example timeout_is_not_success :
  option_map (fun r => (success r, returncode r))
    (match snd hanging_check_run with Ret r => Some r | Raise _ => None end)
  = Some (false, -1).
Proof. vm_compute. reflexivity. Qed.

(** X5 at the quick compilation with a bibliography, where bibtex wrote
    nothing on stderr. *)
Lemma X5_witness :
  stderr (value_or no_file_path (snd quick_bibliography_run))
  = PyStr.join nl (stderr_texts (trace (fst quick_bibliography_run))).
Proof.
  apply (@X5_stderr_is_collected Sim.host compile_quick_bib None
           (host_files quick_bibliography)).
  - apply (returned_run quick_bibliography_run). vm_compute. reflexivity.
  - vm_compute. reflexivity.
  - vm_compute. reflexivity.
Defined.

Example quick_bibliography_stderr :
  stderr_texts (trace (fst quick_bibliography_run)) = [u"warning 1"; u"warning 2"].
Proof. vm_compute. reflexivity. Qed.

(** X6 at a file that is not there. *)
Lemma X6_witness :
  @run_docker_compilation Sim.host missing_tex None (project [])
  = (project [],
     Ret {| success := false; returncode := 1; stdout := [];
            stderr := u"File not found: " ++ u"courses/r1/missing.tex" |}).
Proof.
  apply (@X6_missing_file_starts_nothing Sim.host missing_tex None (project [])
           u"courses/r1/missing.tex"); vm_compute; reflexivity.
Defined.

(** X7 at the plain request. *)
Lemma X7_witness :
  @run_command Sim.host (@compile_command Sim.host request) None (project late_failure)
  = @run_docker_compilation Sim.host (@compile_command Sim.host request) None
      (project late_failure)
  /\ parse_compile_args (tl (@compile_command Sim.host request)) default_compile_args
     = {| file_path := Some (req_file_path request);
          compiler := req_compiler request;
          use_bibtex := req_use_bibtex request;
          quick := req_quick request |}.
Proof.
  apply (@X7_request_reaches_dispatcher Sim.host request (project late_failure)).
  vm_compute. reflexivity.
Defined.

(** X8 at one error and two warnings. *)
Lemma X8_witness :
  0 <= compute_quality_score 1 2 <= 100
  /\ (compute_quality_level (compute_quality_score 1 2) = u"excellent"
      <-> 1 = 0 /\ 2 <= 2)
  /\ (compute_quality_level (compute_quality_score 1 2) = u"poor"
      <-> 50 < 20 * 1 + 5 * 2).
Proof. apply (X8_levels_by_counts 1 2); lia. Defined.

(** X9 at a quality script that may not be executed. *)
Lemma X9_witness :
  exists st',
    @quality_check Sim.host (Some tex_arg) (project cannot_start)
    = (st', Ret ({| ApiResponse.success := true;
                    ApiResponse.message := u"Quality check completed";
                    ApiResponse.data :=
                      Some {| q_file_path := tex_arg;
                              quality_score := 100;
                              quality_level := u"excellent";
                              q_errors := 0;
                              q_warnings := 0;
                              suggestions := [];
                              full_output := [];
                              check_successful := false |};
                    ApiResponse.errors := None |}, 200))
    /\ world st' = host_files [].
Proof.
  apply (@X9_unrun_script_scores_excellent Sim.host tex_arg (project cannot_start)
           (host_files [])
           (Exception u"[Errno 13] Permission denied: 'check-quality.sh'"));
    vm_compute; reflexivity.
Defined.

(** X10 at the compilation whose second pass exits with 1 and leaves a PDF. *)
Lemma X10_witness :
  snd (value_or no_response (snd late_failure_response)) = 200
  /\ ApiResponse.errors (fst (value_or no_response (snd late_failure_response))) = None
  /\ exists d info,
       ApiResponse.data (fst (value_or no_response (snd late_failure_response))) = Some d
       /\ cd_pdf_info d = Some info
       /\ cd_returncode d = 0.
Proof.
  apply (@X10_success_comes_with_pdf Sim.host SimStat.host request
           (project late_failure) (fst late_failure_response)).
  - vm_compute. reflexivity.
  - apply (returned_pair late_failure_response). vm_compute. reflexivity.
  - vm_compute. reflexivity.
Defined.

(** X11 at the compilation whose first pass fails. *)
Lemma X11_witness :
  match ApiResponse.errors (fst (value_or no_response (snd first_fails_response))) with
  | Some l =>
      ApiResponse.success (fst (value_or no_response (snd first_fails_response))) = false
      /\ (1 <= List.length l <= 4)%nat
  | None =>
      ApiResponse.success (fst (value_or no_response (snd first_fails_response))) = true
  end.
Proof.
  apply (@X11_failure_always_explained Sim.host SimStat.host (Some request)
           (project first_fails) (fst first_fails_response)
           (fst (value_or no_response (snd first_fails_response)))
           (snd (value_or no_response (snd first_fails_response)))).
  apply (returned_pair first_fails_response). vm_compute. reflexivity.
Defined.

Example first_failure_explained :
  ApiResponse.errors (fst (value_or no_response (snd first_fails_response)))
  = Some [u"STDERR: ! LaTeX Error: File not found."].
Proof. vm_compute. reflexivity. Qed.

(** X12 at a request for watch mode whose file path is a number. *)
Lemma X12_witness :
  exists resp code,
    @compile_document_json Sim.host SimStat.host (Some number_as_file)
      (project late_failure)
    = (project late_failure, Ret (resp, code))
    /\ ApiResponse.success resp = false
    /\ code = 500.
Proof.
  apply (@X12_watch_mode_runs_nothing Sim.host SimStat.host number_as_file
           (project late_failure)).
  reflexivity.
Defined.

Example watch_mode_answers :
  map (fun body =>
         option_map (fun r => (ApiResponse.errors (fst r), snd r))
           (match snd (@compile_document_json Sim.host SimStat.host (Some body)
                         (project late_failure))
            with Ret r => Some r | Raise _ => None end))
      [number_as_file; watch_body]
  = [Some (Some [u"unsupported operand type(s) for /: 'PosixPath' and 'int'"], 500);
     Some (Some [u"Use the watch endpoint for file monitoring"], 400)].
Proof. vm_compute. reflexivity. Qed.

(** X13 at an enable whose template id is a number. *)
Lemma X13_witness :
  exists resp,
    @manage_templates_json Sim.host (Some number_as_template) (project silent_failure)
    = (project silent_failure, Ret (resp, 500))
    /\ ApiResponse.success resp = false
    /\ ApiResponse.message resp = u"Template management failed".
Proof.
  apply (@X13_manage_passes_verdict_on Sim.host number_as_template
           (project silent_failure)).
  reflexivity.
Defined.

(** An enable that fails without a word on stderr, and the one whose
    template id is a number, for which nothing is started. *)
Example silent_failure_has_no_errors :
  option_map (fun r => (ApiResponse.success (fst r), ApiResponse.errors (fst r), snd r))
    (match snd enable_run with Ret r => Some r | Raise _ => None end)
  = Some (false, None, 200)
  /\ option_map (fun r => (ApiResponse.errors (fst r), snd r))
       (match snd number_as_template_run with Ret r => Some r | Raise _ => None end)
     = Some (Some [u"sequence item 2: expected str instance, int found"], 500)
  /\ trace (fst number_as_template_run) = [].
Proof. vm_compute. repeat split. Qed.

(** X15 at a source that is found only under [/workspace]. *)
Lemma X15_witness :
  exists st' e,
    @run_docker_compilation Sim.container [u"/app/scripts/compile.sh"; tex_arg] None
      only_in_workspace
    = (st', Ret {| success := false; returncode := 1; stdout := [];
                   stderr := u"Direct compilation error: " ++ exn_str e |})
    /\ trace st' = trace only_in_workspace.
Proof.
  apply (@X15_workspace_variant_never_compiles Sim.container
           [u"/app/scripts/compile.sh"; tex_arg] None only_in_workspace tex_arg);
    vm_compute; reflexivity.
Defined.

(** X16 at the deletion of a project. *)
Lemma X16_witness :
  snd (value_or no_response (snd delete_run)) = 200
  /\ @path_exists Sim.host (world (project [])) (@PROJECT_ROOT Sim.host </> u"courses/r1")
     = true
  /\ @path_is_dir Sim.host (world (project [])) (@PROJECT_ROOT Sim.host </> u"courses/r1")
     = true
  /\ @path_exists Sim.host (world (project []))
       (@PROJECT_ROOT Sim.host </> u"courses/r1" </> u"main.tex") = true
  /\ @shutil_rmtree Sim.host (world (project []))
       (@PROJECT_ROOT Sim.host </> u"courses/r1")
     = (world (fst delete_run), Ret tt)
  /\ trace (fst delete_run) = trace (project []).
Proof.
  apply (@X16_only_projects_are_deleted Sim.host u"courses/r1" (project [])
           (fst delete_run) (fst (value_or no_response (snd delete_run)))).
  - apply (returned_pair delete_run). vm_compute. reflexivity.
  - vm_compute. reflexivity.
Defined.

(** X17 at a course with two projects, one of them compiled. *)
Lemma X17_witness :
  exists d,
    ApiResponse.data (fst (value_or no_response (snd courses_response))) = Some d
    /\ total_count d = Z.of_nat (List.length (projects d))
    /\ Forall pdf_consistent (projects d).
Proof.
  apply (@X17_listing_is_consistent Sim.host SimStat.host SimStat.host_listing courses
           (fst courses_response) (fst (value_or no_response (snd courses_response)))
           (snd (value_or no_response (snd courses_response)))).
  - apply (returned_pair courses_response). vm_compute. reflexivity.
  - vm_compute. reflexivity.
Defined.

Example courses_listed :
  option_map (fun d => (total_count d, map pi_has_pdf (projects d)))
    (ApiResponse.data (fst (value_or no_response (snd courses_response))))
  = Some (2, [true; false]).
Proof. vm_compute. reflexivity. Qed.
